(* ===== verification/_CoqProject ===== *)
-Q . S2P
Prelude.v
GLContext.v
GLWf.v
ShaderWf.v
Images.v
Materials.v
ShaderDefs.v
Framebuffers.v
Buffers.v
ObjLoader.v
Queries.v
Shaders.v
Session.v
Polygon.v
AlertTools.v
