(* ===== verification/Prelude.v ===== *)
(** * A verification library for PsychoPy's OpenGL helper layer

    The program is [src/psychopy/tools/gltools.py]: a module of helpers over
    the OpenGL API (through pyglet) that create, use and delete shader
    programs, framebuffers, renderbuffers, textures, vertex buffers and
    arrays, and that set up materials and lights.  Each helper is a short
    sequence of OpenGL calls with checks that raise Python exceptions.  The
    helpers interact only through the OpenGL context: one creates an object,
    another binds it, a third deletes it.  The development therefore models
    the context once and every helper as a program over it.

    ** Files, in dependency order

    - [Prelude] (this file): Python's exceptions ([PyExc]), results
      ([Result]) and the state and exception monad [PyM] with its [do]
      notations (scope [py_scope]); [for] loops ([py_for]), folds
      ([py_foldl]), [try]/[finally], list indexing ([py_getitem]), [range],
      [enumerate]; dicts as association lists in insertion order
      ([dict_get], [dict_set]); ctypes pointer errors; the invariant
      combinator [preserves] with its hint database [psy], the
      equivalence [≡] of computations (same outcome and state from every
      state) with [bind] [Proper] for setoid rewriting, and the run
      lemmas ([py_for_run], [py_foldl_stateless]) that evaluate loops
      symbolically.
    - [GLContext]: the OpenGL state [GLState] (object table, one name
      counter, bindings, enabled capabilities, buffer and attribute state,
      fixed-function material and light tables, the device command log and
      [sys.stderr]) and one [GLM] definition per OpenGL entry point the
      helpers call, written from the OpenGL 4.6 specification (OpenGL is
      not part of the repository).  What the API leaves to the driver
      (whether GLSL compiles or links, implementation limits) is the type
      class [GLDriver]; every theorem is generic over it, and the witnesses
      use the instance [example_driver].
    - [GLWf], [ShaderWf]: the well-formedness invariant [gl_wf] (names
      below the counter, bindings name live objects of the right kind,
      deferred deletion never leaks) and its preservation by every entry
      point, as hints of the database [glwf] used by [preserves_tac].
    - [Images]: [createRenderbuffer], [deleteRenderbuffer],
      [createTexImage2D], [createTexImage2DMultisample], [deleteTexture]
      and [getIntegerv] (gltools.py lines 1149-1494 and 2482-2498).
    - [Materials]: [createMaterial], [useMaterial], [createLight],
      [useLights], [setAmbientLight], [defaultMaterial] and the four
      material libraries (lines 1975-2233 and 2587-2746).
    - [ShaderDefs]: [embedShaderSourceDefs] (lines 272-383), a pure string
      function.
    - [Framebuffers]: [createFBO], [attach], [isComplete], [deleteFBO],
      [blitFBO] and the context manager [useFBO] (lines 866-1147).
    - [Buffers]: [VertexBufferInfo] with [hasBuffer] and [validate],
      [createVBO], [setVertexAttribPointer], [deleteVBO], [createVAO],
      [drawVAO], [deleteVAO] (lines 1495-1970).
    - [Shaders]: the shader and program helpers, core and ARB variants
      (lines 50-871).
    - [ObjLoader]: the Wavefront loaders [loadObjFile] (its two passes
      over the lines, the face table, the three [createVBO] calls and the
      VAO loop) and [loadMtlFile] (materials, colours, shininess and
      texture maps), with the Python string methods they use written out
      on ASCII text ([py_strip], [py_startswith], [py_split],
      [py_readlines]); reading the file, [float]/[int] and PIL's image
      size are the interface class [LoaderLib] (lines 2251-2480).
    - [Queries]: [getFloatv], [getString] and [getOpenGLInfo] (lines
      2501-2582); the answers of the implementation are fields of
      [GLDriver].
    - [Session]: every helper, loader and query as a constructor of [Call];
      [reachable] is the set of contexts a program calling them in any
      order, catching any exception, can reach from a fresh context.
    - [Polygon]: the Builder component of
      [psychopy/app/builder/components/polygon.py]: [PolygonComponent_init]
      (the parameters [__init__] installs) and [writeInitCode] (the Python
      text it generates), over the interface class [BuilderBase] for what
      it uses of the Builder's base classes, which are not in the sources.
    - [AlertTools]: the Builder checks of
      [psychopy/alerts/AlertTools.py]: [runTest], [testSize], [testPos],
      [convertParamToPix], over the interface class [UnitTools] for the
      unit conversion and monitor code they call, with the alert log as
      the state.

    A helper is a [GLM] definition that makes the source's OpenGL calls in
    the source's order, with its [if]s and [raise]s where the source has
    them; Python's argument types that the code tests ([int] or ctypes
    [GLuint], descriptor or bare name, [str] or list of [str]) are
    inductive types with one constructor per case.

    ** What the theorems show

    - Functional behaviour and error paths of each helper: the object it
      creates and the bindings it leaves ([compileShader_ok],
      [createTexImage2D_ok], [createFBO_ok], [createVBO_ok], [useLights_on],
      ...), and the exception it raises and the state it leaves when a
      check fails ([compileShader_fail], [createRenderbuffer_bad_samples],
      [createVBO_errors], [useLights_too_many], ...).
    - Equivalence: the ARB_shader_objects helpers behave as the core ones
      ([arb_core_equiv]), proved by setoid rewriting of their status
      queries under [do].
    - Refinement against the OpenGL specification: [isComplete] answers the
      completeness rule; [useMaterial None] restores the specification's
      initial material.
    - The generated code of the polygon component: the constructor its
      [writeInitCode] text calls, and a default [nVertices] ([int] [4])
      that is not written as a rectangle; the parameters [__init__]
      installs read back with the values given.
    - The alert checks: the codes [runTest] writes, in order; the size
      test fires for a stimulus wider than half the window, and a
      position off screen to the left or below is never reported.
    - The loaders: [loadObjFile] raises on every file (a [TypeError] from
      the keyword its VAO loop passes, or a [RuntimeError] without
      vertices); its face table never merges two equal face vertices, so
      every face vertex gets a new index; a [Kd] line of [loadMtlFile]
      sets the diffuse colour with alpha 1.
    - The queries: [getOpenGLInfo] reports the implementation's strings
      and integers and the extension list, and raises [AttributeError]
      when the context gives no [GL_EXTENSIONS] string.
    - Safety: [useFBO] restores the previous binding on every outcome of
      its body.
    - Type and bounds: [createLight] builds a dict with each mode once; the
      material libraries hold values in the ranges [glMaterialfv] accepts.
    - The invariant: every reachable context is well formed
      ([reachable_deferred_deletion], [reachable_bindings_live]), by rule
      induction on [reachable] over the preservation lemmas.
    - Defects of the code, each proved as a theorem and listed as a finding
      of the manifest: [VertexBufferInfo.validate] never answers [True],
      [createVAO] always raises, [createMaterial] accepts texture units
      below [GL_TEXTURE0], [embedShaderSourceDefs] drops the last line when
      the [#version] directive ends the source, [loadObjFile] passes a
      nested list to [createVBO] and never succeeds, [getOpenGLInfo] fails
      on a core profile context.

    ** Bounds and fuel

    Integers are [Z]: the OpenGL enums and names the helpers handle are
    small, and no helper does arithmetic that can wrap.  Every loop runs
    over a finite Python list or [range], so every definition is
    structurally recursive and no fuel is needed; the theorems state
    results, not only partial correctness.  Floats are rationals [Q]: the
    single-precision rounding of [GLfloat] is not modelled.

    ** Not modelled

    - File reading, [float]/[int] parsing and image decoding of the
      loaders: they are I/O or library code, and enter through
      [LoaderLib] (the witnesses use a decimal parser).
    - The library code the alert checks and the Builder component call
      ([monitorunittools], [Monitor], numpy, [ast], the Builder's [Param]
      and base classes): it is outside the sources, and enters only
      through the interfaces [UnitTools] and [BuilderBase].
    - Pixel data, numpy arrays beyond their shape, the always empty
      [userData] dicts, and the GPU's rendering. *)

From stdpp Require Export base gmap strings list pretty.
From Stdlib Require Export ZArith Lia.
Open Scope string_scope.
Open Scope Z_scope.

(** ** Python exceptions and the state/exception monad

    The modelled Python functions thread a mutable OpenGL context and may
    raise at any point.  Side effects performed before a [raise] are NOT
    rolled back, so a computation returns its outcome together with the
    state reached at the point where it stopped. *)

Inductive PyExc : Type :=
| ValueError (msg : string)
| RuntimeError (msg : string)
| TypeError (msg : string)
| IndexError (msg : string)
| KeyError (msg : string)
| AttributeError (msg : string)
| NameError (msg : string)
| ArgumentError (msg : string).  (** [ctypes.ArgumentError] *)

#[export] Instance PyExc_eq_dec : EqDecision PyExc.
Proof. solve_decision. Defined.

Inductive Result (A : Type) : Type :=
| Ok (a : A)
| Raise (e : PyExc).
Arguments Ok {A} a.
Arguments Raise {A} e.

(** Sequencing of computations that may raise, without state. *)
Definition rbind {A B} (r : Result A) (k : A -> Result B) : Result B :=
  match r with Ok a => k a | Raise e => Raise e end.

Declare Scope result_scope.
Notation "'let?' x := r 'in' k" := (rbind r (fun x => k))
  (at level 10, x name, r at level 100, k at level 200) : result_scope.

Definition is_ok {A} (r : Result A) : bool :=
  match r with Ok _ => true | Raise _ => false end.

(** A computation over a state [S]. *)
Definition PyM (S A : Type) : Type := S -> Result A * S.

Section Monad.
Context {S : Type}.

Definition ret {A} (a : A) : PyM S A := fun s => (Ok a, s).

Definition bind {A B} (m : PyM S A) (k : A -> PyM S B) : PyM S B :=
  fun s => match m s with
           | (Ok a, s') => k a s'
           | (Raise e, s') => (Raise e, s')
           end.

Definition raise {A} (e : PyExc) : PyM S A := fun s => (Raise e, s).

Definition get : PyM S S := fun s => (Ok s, s).
Definition put (s : S) : PyM S unit := fun _ => (Ok tt, s).
Definition modify (f : S -> S) : PyM S unit := fun s => (Ok tt, f s).
Definition gets {A} (f : S -> A) : PyM S A := fun s => (Ok (f s), s).

(** [try: body finally: fin]: [fin] runs on both outcomes; an exception
    raised by [fin] replaces the outcome of [body]. *)
Definition try_finally {A} (body : PyM S A) (fin : PyM S unit) : PyM S A :=
  fun s => match body s with
           | (r, s1) => match fin s1 with
                        | (Ok _, s2) => (r, s2)
                        | (Raise e, s2) => (Raise e, s2)
                        end
           end.

(** [for x in l: f(x)] *)
Fixpoint py_for {A} (l : list A) (f : A -> PyM S unit) : PyM S unit :=
  match l with
  | [] => ret tt
  | x :: l' => bind (f x) (fun _ => py_for l' f)
  end.

Definition when (b : bool) (m : PyM S unit) : PyM S unit :=
  if b then m else ret tt.

(** Lift a pure Python result (e.g. a lookup that may raise). *)
Definition lift {A} (r : Result A) : PyM S A :=
  fun s => (r, s).
End Monad.

Declare Scope py_scope.
Delimit Scope py_scope with py.
Notation "'do' x <- c1 ; c2" := (bind c1 (fun x => c2))
  (at level 10, x name, c1 at level 100, c2 at level 200) : py_scope.
Notation "'do' ' pat <- c1 ; c2" :=
  (bind c1 (fun x => match x with pat => c2 end))
  (at level 10, pat pattern, c1 at level 100, c2 at level 200) : py_scope.
Notation "'do!' c1 ; c2" := (bind c1 (fun _ => c2))
  (at level 10, c1 at level 100, c2 at level 200) : py_scope.
Open Scope py_scope.

(** ** Monad laws and evaluation lemmas *)

Create HintDb psy.

Section MonadLemmas.
Context {S : Type}.

Lemma bind_ret_l {A B} (a : A) (k : A -> PyM S B) s :
  bind (ret a) k s = k a s.
Proof. reflexivity. Qed.

Lemma bind_assoc {A B C} (m : PyM S A) (k : A -> PyM S B) (h : B -> PyM S C) s :
  bind (bind m k) h s = bind m (fun a => bind (k a) h) s.
Proof. unfold bind. destruct (m s) as [[a|e] s']; reflexivity. Qed.

Lemma bind_Ok {A B} (m : PyM S A) (k : A -> PyM S B) s a s' :
  m s = (Ok a, s') -> bind m k s = k a s'.
Proof. unfold bind. by intros ->. Qed.

Lemma bind_Raise {A B} (m : PyM S A) (k : A -> PyM S B) s e s' :
  m s = (Raise e, s') -> bind m k s = (Raise e, s').
Proof. unfold bind. by intros ->. Qed.

(** Two computations are equivalent ([≡]) when they give the same outcome
    and the same state from every state.  [bind] respects it, so a step
    under [do] is replaced by an equivalent one by setoid rewriting. *)
#[export] Instance PyM_equiv {A} : Equiv (PyM S A) := fun m m' => forall s, m s = m' s.

#[export] Instance PyM_equivalence {A} : Equivalence (≡@{PyM S A}).
Proof. split; repeat intro; congruence. Qed.

#[export] Instance bind_proper {A B} :
  Proper ((≡) ==> pointwise_relation A (≡) ==> (≡)) (@bind S A B).
Proof.
  intros m m' Hm k k' Hk s. unfold bind. rewrite Hm.
  destruct (m' s) as [[a|e] s']; [apply Hk|done].
Qed.

(** A step that leaves a state predicate [P] invariant on every outcome. *)
Definition preserves {A} (P : S -> Prop) (m : PyM S A) : Prop :=
  forall s, P s -> P (snd (m s)).

Lemma preserves_ret {A} P (a : A) : preserves P (ret a).
Proof. by intros s. Qed.

Lemma preserves_raise {A} P e : preserves P (@raise S A e).
Proof. by intros s. Qed.

Lemma preserves_bind {A B} P (m : PyM S A) (k : A -> PyM S B) :
  preserves P m -> (forall a, preserves P (k a)) -> preserves P (bind m k).
Proof.
  intros Hm Hk s Hs. unfold bind. specialize (Hm s Hs).
  destruct (m s) as [[a|e] s']; simpl in *; [apply Hk|]; done.
Qed.

Lemma preserves_modify P f :
  (forall s, P s -> P (f s)) -> preserves P (modify f).
Proof. intros Hf s Hs. by apply Hf. Qed.

Lemma preserves_get P : preserves P get.
Proof. by intros s. Qed.

Lemma preserves_gets {A} P (f : S -> A) : preserves P (gets f).
Proof. by intros s. Qed.

Lemma preserves_lift {A} P (r : Result A) : preserves P (lift r).
Proof. by intros s. Qed.

Lemma preserves_when P b m : preserves P m -> preserves P (when b m).
Proof. destruct b; [done | apply preserves_ret]. Qed.

Lemma preserves_for {A} P (l : list A) f :
  (forall x, preserves P (f x)) -> preserves P (py_for l f).
Proof.
  intros Hf. induction l as [|x l IH]; simpl.
  - apply preserves_ret.
  - apply preserves_bind; auto.
Qed.

Lemma preserves_try_finally {A} P (body : PyM S A) fin :
  preserves P body -> preserves P fin -> preserves P (try_finally body fin).
Proof.
  intros Hb Hf s Hs. unfold try_finally. specialize (Hb s Hs).
  destruct (body s) as [r s1]. specialize (Hf s1 Hb).
  destruct (fin s1) as [[[]|e] s2]; simpl in *; auto.
Qed.

(** Outcome-independent frame: the state after [try/finally] is the state
    produced by [fin], whatever [body] did. *)
Lemma try_finally_state {A} (body : PyM S A) fin s :
  snd (try_finally body fin s) = snd (fin (snd (body s))).
Proof.
  unfold try_finally. destruct (body s) as [r s1]. simpl.
  destruct (fin s1) as [[[]|e] s2]; reflexivity.
Qed.
End MonadLemmas.

#[export] Hint Resolve preserves_ret preserves_raise preserves_bind preserves_get
  preserves_gets preserves_lift preserves_when preserves_for
  preserves_try_finally : psy.

(** Evaluate a monadic program on a concrete or symbolic state. *)
Ltac py_simpl :=
  cbv beta iota zeta delta [bind ret raise get put modify gets try_finally when lift fst snd] in *.

(** ** Python list indexing

    [l[i]] accepts negative indices counted from the end and raises
    [IndexError] outside [-len(l), len(l)). *)

Definition py_index_norm (n i : Z) : Z := if i <? 0 then i + n else i.

Definition py_getitem {A} (l : list A) (i : Z) : Result A :=
  let j := py_index_norm (Z.of_nat (length l)) i in
  if (0 <=? j) && (j <? Z.of_nat (length l)) then
    match l !! Z.to_nat j with
    | Some x => Ok x
    | None => Raise (IndexError "list index out of range")
    end
  else Raise (IndexError "list index out of range").

Lemma py_getitem_nonneg {A} (l : list A) i :
  0 <= i < Z.of_nat (length l) -> py_getitem l i = match l !! Z.to_nat i with
                                                     | Some x => Ok x
                                                     | None => Raise (IndexError "list index out of range")
                                                     end.
Proof.
  intros H. unfold py_getitem, py_index_norm.
  destruct (Z.ltb_spec i 0); [lia|].
  destruct (Z.leb_spec 0 i), (Z.ltb_spec i (Z.of_nat (length l))); simpl; try lia. done.
Qed.

Lemma py_getitem_Ok {A} (l : list A) i x :
  py_getitem l i = Ok x ->
  l !! Z.to_nat (py_index_norm (Z.of_nat (length l)) i) = Some x.
Proof.
  unfold py_getitem.
  destruct (_ && _); [|done].
  destruct (l !! _); congruence.
Qed.

Lemma py_getitem_neg {A} (l : list A) i :
  - Z.of_nat (length l) <= i < 0 ->
  l !! Z.to_nat (Z.of_nat (length l) + i) <> None ->
  exists x, py_getitem l i = Ok x /\ l !! Z.to_nat (Z.of_nat (length l) + i) = Some x.
Proof.
  intros H Hs. unfold py_getitem, py_index_norm.
  destruct (Z.ltb_spec i 0); [|lia].
  destruct (Z.leb_spec 0 (i + Z.of_nat (length l))),
    (Z.ltb_spec (i + Z.of_nat (length l)) (Z.of_nat (length l))); simpl; try lia.
  rewrite Z.add_comm.
  destruct (l !! _) as [x|] eqn:E; [|done]. eauto.
Qed.

(** ** Powers of two and the [n & (n - 1)] test

    The code checks that a sample count is a power of two with
    [(samples & (samples - 1)) != 0].  For a positive [n] the test is
    exactly "n is a power of two"; for [n = 0] it also succeeds. *)

Definition is_pow2 (n : Z) : Prop := exists k, 0 <= k /\ n = 2 ^ k.

Lemma land_pred_pow2 k : 0 <= k -> Z.land (2 ^ k) (2 ^ k - 1) = 0.
Proof.
  intros Hk. replace (2 ^ k - 1) with (Z.ones k) by (rewrite Z.ones_equiv; lia).
  rewrite Z.land_ones by lia. apply Z_mod_same_full.
Qed.

Lemma land_pred_zero_pow2 n :
  0 < n -> Z.land n (n - 1) = 0 -> is_pow2 n.
Proof.
  intros Hn Hl. pose proof (Z.log2_spec n Hn) as [Hlo Hhi].
  pose proof (Z.log2_nonneg n).
  destruct (Z.eq_dec n (2 ^ Z.log2 n)) as [E|E]; [exists (Z.log2 n); split; lia|].
  exfalso.
  assert (Hb1 : Z.testbit n (Z.log2 n) = true) by (apply Z.bit_log2; lia).
  assert (Hb2 : Z.testbit (n - 1) (Z.log2 n) = true).
  { pose proof (Z.pow_pos_nonneg 2 (Z.log2 n)).
    assert (Heq : Z.log2 (n - 1) = Z.log2 n) by (apply Z.log2_unique; lia).
    rewrite <- Heq. apply Z.bit_log2. lia. }
  assert (Z.testbit (Z.land n (n - 1)) (Z.log2 n) = true)
    by (rewrite Z.land_spec, Hb1, Hb2; done).
  rewrite Hl, Z.testbit_0_l in H0. discriminate.
Qed.

Lemma pow2_land_iff n :
  0 < n -> Z.land n (n - 1) = 0 <-> is_pow2 n.
Proof.
  intros Hn. split; [by apply land_pred_zero_pow2|].
  intros (k & Hk & ->). by apply land_pred_pow2.
Qed.

#[export] Hint Resolve land_pred_pow2 : psy.

(** ** ctypes argument conversion

    pyglet declares the OpenGL entry points with ctypes argument types.  A
    [GLuint *] parameter accepts a [GLuint] instance (passed by reference)
    but refuses a Python [int]; a [GLuint] parameter accepts an [int] or a
    [GLuint] but refuses a [GLint] instance. *)

Definition uint_pointer_error : PyExc :=
  ArgumentError "argument 2: TypeError: expected LP_c_uint instance instead of int".

Definition uint_wrong_type_error : PyExc := ArgumentError "argument 2: TypeError: wrong type".

(** ** Strings *)

(** ["\n"] *)
Definition nl : string := String (Ascii.ascii_of_nat 10) EmptyString.

(** ** Options and association lists *)

Definition is_some {A} (o : option A) : bool :=
  match o with Some _ => true | None => false end.

(** First binding of [k] in an association list (Python's search over a
    list of pairs, or a lookup in a dict built from it in reverse). *)
Fixpoint assoc {V} (l : list (string * V)) (k : string) : option V :=
  match l with
  | [] => None
  | (k', v) :: l' => if String.eqb k k' then Some v else assoc l' k
  end.

(** A left fold whose step may raise or change the state. *)
Fixpoint py_foldl {S A B} (f : B -> A -> PyM S B) (acc : B) (l : list A) : PyM S B :=
  match l with
  | [] => ret acc
  | x :: l' => bind (f acc x) (fun acc' => py_foldl f acc' l')
  end.

(** [range(n)] *)
Definition py_range (n : Z) : list Z := seqZ 0 n.

(** A buffer as long as the string keeps it whole. *)
Lemma substring_full (s : string) : String.substring 0 (String.length s) s = s.
Proof. induction s as [|c s IH]; simpl; [done|]. by rewrite IH. Qed.

Lemma str_app_assoc (a b c : string) : ((a ++ b) ++ c = a ++ (b ++ c))%string.
Proof. induction a as [|x a IH]; [reflexivity|]. exact (f_equal (String x) IH). Qed.

(** ** Symbolic execution, one statement at a time

    A helper is run on a symbolic state statement by statement: the first
    statement is evaluated on its own (its state stays small), and the
    rest of the program continues from the state it produced.  The goal
    form is the one of the functional theorems: an outcome and a property
    of the final state. *)

Lemma bind_ex {S A B} (m : PyM S A) (k : A -> PyM S B) s a s1 r (P : S -> Prop) :
  m s = (Ok a, s1) -> (exists s', k a s1 = (r, s') /\ P s') ->
  exists s', bind m k s = (r, s') /\ P s'.
Proof. intros E H. unfold bind. by rewrite E. Qed.

Lemma bind_ex_raise {S A B} (m : PyM S A) (k : A -> PyM S B) s e s1 (P : S -> Prop) :
  m s = (Raise e, s1) -> P s1 -> exists s', bind m k s = (Raise e, s') /\ P s'.
Proof. intros E H. unfold bind. rewrite E. eauto. Qed.

(** Rewrite the boolean tests the hypotheses decide. *)
Ltac rewrite_bools :=
  repeat match goal with
  | H : ?b = ?c |- context [?b] => match type of b with bool => rewrite H end
  | H : ?P |- context [bool_decide ?P] => rewrite (bool_decide_true P H)
  | H : ~ ?P |- context [bool_decide ?P] => rewrite (bool_decide_false P H)
  end.

(** ** Programs that always raise *)

Section AlwaysRaises.
Context {S : Type}.

Definition always_raises {A} (m : PyM S A) : Prop := forall s, is_ok (fst (m s)) = false.

Lemma always_raises_raise {A} e : always_raises (@raise S A e).
Proof. by intros s. Qed.

Lemma always_raises_bind_l {A B} (m : PyM S A) (k : A -> PyM S B) :
  always_raises m -> always_raises (bind m k).
Proof.
  intros Hm s. specialize (Hm s). unfold bind. destruct (m s) as [[a|e] s']; simpl in *; done.
Qed.

Lemma always_raises_bind_r {A B} (m : PyM S A) (k : A -> PyM S B) :
  (forall a, always_raises (k a)) -> always_raises (bind m k).
Proof. intros Hk s. unfold bind. destruct (m s) as [[a|e] s']; [apply Hk|done]. Qed.
End AlwaysRaises.

#[export] Hint Resolve always_raises_raise : psy.

(** Show that every path of a program ends in a [raise]. *)
Ltac raises_tac :=
  repeat match goal with
  | |- always_raises (raise _) => apply always_raises_raise
  | |- always_raises (bind (raise _) _) => apply always_raises_bind_l, always_raises_raise
  | |- always_raises (bind _ _) =>
      apply always_raises_bind_r; let x := fresh in
      intros x; lazymatch type of x with prod _ _ => destruct x | _ => idtac end
  | |- always_raises (if ?b then _ else _) => destruct b
  | |- always_raises (match ?x with _ => _ end) => destruct x
  end.

Lemma always_raises_not_ok {S A} (m : PyM S A) s a : always_raises m -> fst (m s) <> Ok a.
Proof. intros Hm E. specialize (Hm s). rewrite E in Hm. discriminate. Qed.

Lemma preserves_foldl {S A B} (P : S -> Prop) (f : B -> A -> PyM S B) acc l :
  (forall b a, preserves P (f b a)) -> preserves P (py_foldl f acc l).
Proof.
  intros Hf. revert acc. induction l as [|x l IH]; intros acc; simpl.
  - apply preserves_ret.
  - apply preserves_bind; auto.
Qed.

(** ** Python dicts as association lists

    A [dict] keeps its keys in insertion order; assigning to a present key
    keeps its position, a new key goes last. *)

Section Dict.
Context {K V : Type} `{EqDecision K}.

Fixpoint dict_get (d : list (K * V)) (k : K) : option V :=
  match d with
  | [] => None
  | (k', v) :: d' => if decide (k = k') then Some v else dict_get d' k
  end.

Fixpoint dict_set (d : list (K * V)) (k : K) (v : V) : list (K * V) :=
  match d with
  | [] => [(k, v)]
  | (k', v') :: d' => if decide (k = k') then (k, v) :: d' else (k', v') :: dict_set d' k v
  end.

Lemma dict_get_set d k k' v :
  dict_get (dict_set d k v) k' = if decide (k' = k) then Some v else dict_get d k'.
Proof.
  induction d as [|[k0 v0] d IH]; cbn [dict_get dict_set].
  - by destruct (decide (k' = k)).
  - destruct (decide (k = k0)) as [->|Hk]; cbn [dict_get].
    + by destruct (decide (k' = k0)).
    + rewrite IH. destruct (decide (k' = k0)) as [->|]; [|done]. by rewrite decide_False.
Qed.

Lemma dict_keys_set d k v :
  map fst (dict_set d k v) = if decide (k ∈ map fst d) then map fst d else (map fst d ++ [k])%list.
Proof.
  induction d as [|[k0 v0] d IH]; cbn [dict_set map fst].
  - rewrite decide_False; [done|]. apply not_elem_of_nil.
  - destruct (decide (k = k0)) as [->|Hk]; cbn [map fst].
    + rewrite decide_True; [done|]. apply elem_of_cons. by left.
    + rewrite IH. destruct (decide (k ∈ map fst d)); rewrite ?decide_True, ?decide_False by set_solver;
        done.
Qed.

Lemma dict_set_nodup d k v : NoDup d.*1 -> NoDup (dict_set d k v).*1.
Proof.
  intros Hnd. change (NoDup (map fst (dict_set d k v))). rewrite dict_keys_set.
  change (map fst d) with d.*1. case_decide; [done|].
  apply NoDup_app. split_and!; [done| |apply NoDup_singleton]. set_solver.
Qed.

Lemma dict_get_None d k : k ∉ d.*1 -> dict_get d k = None.
Proof.
  induction d as [|[k' v] d IH]; simpl; [done|]. intros Hn.
  rewrite decide_False by set_solver. apply IH. set_solver.
Qed.
End Dict.

(** [enumerate(l, i)] and [enumerate(l)] *)
Fixpoint enumerate_from {A} (i : Z) (l : list A) : list (Z * A) :=
  match l with [] => [] | x :: l' => (i, x) :: enumerate_from (i + 1) l' end.
Definition py_enumerate {A} (l : list A) : list (Z * A) := enumerate_from 0 l.

(** The truth value of a Python list or dict: non-empty. *)
Definition py_nonempty {A} (l : list A) : bool := match l with [] => false | _ => true end.

(** A loop whose body only updates the state runs as a left fold. *)
Lemma py_for_run {S A} (l : list A) (f : A -> PyM S unit) (g : A -> S -> S) :
  (forall x s, f x s = (Ok tt, g x s)) ->
  forall s, py_for l f s = (Ok tt, fold_left (fun s x => g x s) l s).
Proof.
  intros Hf. induction l as [|x l IH]; intros s; simpl; [done|].
  unfold bind. rewrite Hf. apply IH.
Qed.

(** Case split on membership in a literal list. *)
Ltac elem_cases :=
  repeat match goal with
  | H : _ ∈ _ :: _ |- _ => apply elem_of_cons in H as [->|H]
  | H : _ ∈ [] |- _ => exfalso; by apply not_elem_of_nil in H
  end.

(** A left fold whose steps read the state but never change it. *)
Lemma py_foldl_stateless {S A B} (f : B -> A -> PyM S B) (g : B -> A -> option B) (e : PyExc) acc l s :
  (forall b a, f b a s = match g b a with Some b' => (Ok b', s) | None => (Raise e, s) end) ->
  py_foldl f acc l s =
    (match fold_left (fun ob a => ob ≫= fun b => g b a) l (Some acc) with
     | Some b => Ok b | None => Raise e end, s).
Proof.
  intros Hf. revert acc. induction l as [|x l IH]; intros acc; simpl; [done|].
  unfold bind. rewrite Hf. destruct (g acc x) as [b'|]; simpl; [apply IH|].
  clear IH. by induction l.
Qed.
