(* ===== verification/GLContext.v ===== *)
(** * The OpenGL context driven by [psychopy/tools/gltools.py]

    [gltools.py] calls the OpenGL API through pyglet.  This file models the
    part of the OpenGL context those calls read and write: a table of named
    objects (shaders, programs, framebuffers, renderbuffers, textures,
    buffers, vertex arrays), the bindings of the context, the fixed-function
    state touched by the material and lighting helpers, and the observable
    output (commands sent to the device and lines written to [sys.stderr]).

    The driver's own decisions (whether GLSL compiles or links, the
    implementation limits) are not determined by the API; they form the
    [GLDriver] interface, a type class every theorem is generic over.

    Modelling choices, all consistent with the OpenGL 4.6 specification:
    - one name counter serves every object kind, so every [glGen*] and
      [glCreate*] call returns a name not used by any object (a driver may
      hand out such names);
    - a name is a live object from its [glGen*]/[glCreate*] call on;
    - deletion of an attached shader or of the program in use is deferred
      (the object is flagged and freed when it is detached or unused),
      as sections 7.1 and 7.3 of the specification require;
    - an invalid call (wrong object kind, unknown name) leaves the state
      unchanged, which is what the specification requires of a call that
      generates a GL error. *)

From S2P Require Import Prelude.
From Stdlib Require Import QArith.
Open Scope Z_scope.

(** ** Enumerants (values of the OpenGL registry, as pyglet exports them) *)
Module GL.
Definition GL_FALSE : Z := 0.
Definition GL_TRUE : Z := 1.
Definition GL_VERTEX_SHADER : Z := 0x8B31.
Definition GL_FRAGMENT_SHADER : Z := 0x8B30.
Definition GL_COMPILE_STATUS : Z := 0x8B81.
Definition GL_LINK_STATUS : Z := 0x8B82.
Definition GL_VALIDATE_STATUS : Z := 0x8B83.
Definition GL_INFO_LOG_LENGTH : Z := 0x8B84.
Definition GL_ACTIVE_UNIFORMS : Z := 0x8B86.
Definition GL_ACTIVE_UNIFORM_MAX_LENGTH : Z := 0x8B87.
Definition GL_ACTIVE_ATTRIBUTES : Z := 0x8B89.
Definition GL_ACTIVE_ATTRIBUTE_MAX_LENGTH : Z := 0x8B8A.
Definition GL_FRAMEBUFFER : Z := 0x8D40.
Definition GL_READ_FRAMEBUFFER : Z := 0x8CA8.
Definition GL_DRAW_FRAMEBUFFER : Z := 0x8CA9.
Definition GL_FRAMEBUFFER_BINDING : Z := 0x8CA6.
Definition GL_FRAMEBUFFER_COMPLETE : Z := 0x8CD5.
Definition GL_FRAMEBUFFER_INCOMPLETE_ATTACHMENT : Z := 0x8CD6.
Definition GL_FRAMEBUFFER_INCOMPLETE_MISSING_ATTACHMENT : Z := 0x8CD7.
Definition GL_FRAMEBUFFER_INCOMPLETE_MULTISAMPLE : Z := 0x8D56.
Definition GL_RENDERBUFFER : Z := 0x8D41.
Definition GL_COLOR_ATTACHMENT0 : Z := 0x8CE0.
Definition GL_DEPTH_ATTACHMENT : Z := 0x8D00.
Definition GL_STENCIL_ATTACHMENT : Z := 0x8D20.
Definition GL_DEPTH_STENCIL_ATTACHMENT : Z := 0x821A.
Definition GL_RGBA8 : Z := 0x8058.
Definition GL_RGBA : Z := 0x1908.
Definition GL_DEPTH24_STENCIL8 : Z := 0x88F0.
Definition GL_TEXTURE_2D : Z := 0x0DE1.
Definition GL_TEXTURE_RECTANGLE : Z := 0x84F5.
Definition GL_TEXTURE_2D_MULTISAMPLE : Z := 0x9100.
Definition GL_TEXTURE0 : Z := 0x84C0.
Definition GL_UNPACK_ALIGNMENT : Z := 0x0CF5.
Definition GL_TEXTURE_MAG_FILTER : Z := 0x2800.
Definition GL_TEXTURE_MIN_FILTER : Z := 0x2801.
Definition GL_NEAREST : Z := 0x2600.
Definition GL_LINEAR : Z := 0x2601.
Definition GL_MAX_SAMPLES : Z := 0x8D57.
Definition GL_VENDOR : Z := 0x1F00.
Definition GL_RENDERER : Z := 0x1F01.
Definition GL_VERSION : Z := 0x1F02.
Definition GL_EXTENSIONS : Z := 0x1F03.
Definition GL_MAJOR_VERSION : Z := 0x821B.
Definition GL_MINOR_VERSION : Z := 0x821C.
Definition GL_MAX_TEXTURE_SIZE : Z := 0x0D33.
Definition GL_DOUBLEBUFFER : Z := 0x0C32.
Definition GL_STEREO : Z := 0x0C33.
Definition GL_LINE_WIDTH : Z := 0x0B21.
Definition GL_MAX_COMBINED_TEXTURE_IMAGE_UNITS : Z := 0x8B4D.
Definition GL_MAX_LIGHTS : Z := 0x0D31.
Definition GL_COLOR_BUFFER_BIT : Z := 0x4000.
Definition GL_BYTE : Z := 0x1400.
Definition GL_UNSIGNED_BYTE : Z := 0x1401.
Definition GL_SHORT : Z := 0x1402.
Definition GL_UNSIGNED_SHORT : Z := 0x1403.
Definition GL_INT : Z := 0x1404.
Definition GL_UNSIGNED_INT : Z := 0x1405.
Definition GL_FLOAT : Z := 0x1406.
Definition GL_DOUBLE : Z := 0x140A.
Definition GL_HALF_FLOAT : Z := 0x140B.
Definition GL_ARRAY_BUFFER : Z := 0x8892.
Definition GL_ELEMENT_ARRAY_BUFFER : Z := 0x8893.
Definition GL_ARRAY_BUFFER_BINDING : Z := 0x8894.
Definition GL_ELEMENT_ARRAY_BUFFER_BINDING : Z := 0x8895.
Definition GL_STATIC_DRAW : Z := 0x88E4.
Definition GL_BUFFER_SIZE : Z := 0x8764.
Definition GL_BUFFER_USAGE : Z := 0x8765.
Definition GL_VERTEX_ARRAY : Z := 0x8074.
Definition GL_NORMAL_ARRAY : Z := 0x8075.
Definition GL_COLOR_ARRAY : Z := 0x8076.
Definition GL_TEXTURE_COORD_ARRAY : Z := 0x8078.
Definition GL_VERTEX_ARRAY_BINDING : Z := 0x85B5.
Definition GL_TRIANGLES : Z := 0x0004.
Definition GL_AMBIENT : Z := 0x1200.
Definition GL_DIFFUSE : Z := 0x1201.
Definition GL_SPECULAR : Z := 0x1202.
Definition GL_POSITION : Z := 0x1203.
Definition GL_SPOT_DIRECTION : Z := 0x1204.
Definition GL_SPOT_EXPONENT : Z := 0x1205.
Definition GL_SPOT_CUTOFF : Z := 0x1206.
Definition GL_CONSTANT_ATTENUATION : Z := 0x1207.
Definition GL_LINEAR_ATTENUATION : Z := 0x1208.
Definition GL_QUADRATIC_ATTENUATION : Z := 0x1209.
Definition GL_EMISSION : Z := 0x1600.
Definition GL_SHININESS : Z := 0x1601.
Definition GL_AMBIENT_AND_DIFFUSE : Z := 0x1602.
Definition GL_FRONT : Z := 0x0404.
Definition GL_BACK : Z := 0x0405.
Definition GL_FRONT_AND_BACK : Z := 0x0408.
Definition GL_LIGHT0 : Z := 0x4000.
Definition GL_LIGHTING : Z := 0x0B50.
Definition GL_NORMALIZE : Z := 0x0BA1.
Definition GL_LIGHT_MODEL_AMBIENT : Z := 0x0B53.
End GL.
Import GL.

(** ** Objects of the context *)

Record ShaderObj := mkShader {
  sh_type : Z;
  sh_sources : list string;
  sh_compiled : bool;
  sh_log : string;
  sh_delete_pending : bool
}.

Record ProgramObj := mkProgram {
  pr_attached : list Z;
  pr_linked : bool;
  pr_validated : bool;
  pr_log : string;
  pr_uniforms : list (string * Z);  (** active uniforms and their locations *)
  pr_attribs : list (string * Z);   (** active attributes and their locations *)
  pr_delete_pending : bool
}.

(** What is attached at one attachment point of a framebuffer. *)
Record Attachment := mkAttachment { at_target : Z; at_name : Z }.

(** Storage allocated for a renderbuffer or a texture level. *)
Record ImageStorage := mkStorage {
  st_format : Z; st_width : Z; st_height : Z; st_samples : Z
}.

Record TexObj := mkTex {
  tx_target : option Z;               (** fixed by the first bind *)
  tx_images : gmap Z ImageStorage;    (** level -> storage *)
  tx_params : gmap Z Z                (** glTexParameteri settings *)
}.

Record BufObj := mkBuf { bf_size : Z; bf_usage : Z }.

Inductive GLObject :=
| OShader (sh : ShaderObj)
| OProgram (pr : ProgramObj)
| OFramebuffer (atts : gmap Z Attachment)
| ORenderbuffer (st : option ImageStorage)
| OTexture (tx : TexObj)
| OBuffer (bf : option BufObj)
| OVertexArray.

(** A vertex attribute array pointer (generic or fixed-function). *)
Record AttribPointer := mkPointer {
  ap_buffer : Z; ap_size : Z; ap_type : Z; ap_normalized : bool;
  ap_stride : Z; ap_offset : Z
}.

(** Commands that reach the device: the observable output of drawing. *)
Inductive GLCommand :=
| CmdBlit (src dst : Z * Z * Z * Z) (mask filter : Z)
| CmdDrawArrays (vao mode first count : Z)
| CmdDrawElements (vao mode count type : Z)
| CmdFlush.

Record GLState := mkGL {
  gl_objects : gmap Z GLObject;
  gl_next : Z;                           (** next name handed out *)
  gl_program : Z;                        (** GL_CURRENT_PROGRAM *)
  gl_framebuffer : Z;                    (** GL_FRAMEBUFFER_BINDING *)
  gl_renderbuffer : Z;                   (** GL_RENDERBUFFER_BINDING *)
  gl_active_texture : Z;                 (** GL_ACTIVE_TEXTURE *)
  gl_textures : gmap (Z * Z) Z;          (** (unit, target) -> texture *)
  gl_buffers : gmap Z Z;                 (** target -> buffer *)
  gl_vertex_array : Z;                   (** GL_VERTEX_ARRAY_BINDING *)
  gl_enabled : gset Z;                   (** glEnable capabilities *)
  gl_client_states : gset Z;             (** glEnableClientState arrays *)
  gl_unpack_alignment : Z;
  gl_attrib_enabled : gset Z;
  gl_attrib_pointers : gmap Z AttribPointer;
  gl_client_pointers : gmap Z AttribPointer;
  gl_material : gmap (Z * Z) (list Q);   (** (face, pname) -> values *)
  gl_lights : gmap (Z * Z) (list Q);     (** (light, pname) -> values *)
  gl_light_model_ambient : list Q;
  gl_color : list Q;
  gl_color_mask : list bool;
  gl_commands : list GLCommand;          (** most recent first *)
  gl_stderr : list string                (** most recent first *)
}.

(** A fresh context, as the OpenGL specification initialises it. *)
Definition gl_init : GLState := {|
  gl_objects := ∅; gl_next := 1; gl_program := 0; gl_framebuffer := 0;
  gl_renderbuffer := 0; gl_active_texture := GL_TEXTURE0; gl_textures := ∅;
  gl_buffers := ∅; gl_vertex_array := 0; gl_enabled := ∅;
  gl_client_states := ∅; gl_unpack_alignment := 4; gl_attrib_enabled := ∅;
  gl_attrib_pointers := ∅; gl_client_pointers := ∅; gl_material := ∅;
  gl_lights := ∅; gl_light_model_ambient := [0.2; 0.2; 0.2; 1]%Q;
  gl_color := [1; 1; 1; 1]%Q; gl_color_mask := [true; true; true; true];
  gl_commands := []; gl_stderr := [] |}.

(** ** The driver interface

    What the API leaves to the implementation.  [drv_link] receives the
    attached shader objects and answers the link status, the info log and
    the active uniforms and attributes with their locations (location -1
    for built-in variables such as [gl_Vertex]). *)
Class GLDriver := {
  drv_compile : Z -> list string -> bool * string;
  drv_link : list ShaderObj -> bool * string * list (string * Z) * list (string * Z);
  drv_validate : GLState -> ProgramObj -> bool * string;
  drv_max_samples : Z;
  drv_max_lights : Z;
  drv_max_combined_texture_image_units : Z;
  (** the other implementation-dependent values: [glGetIntegerv],
      [glGetFloatv] and [glGetString] of a parameter ([None]: not a
      parameter the implementation accepts, [GL_INVALID_ENUM]) *)
  drv_get_integer : Z -> option Z;
  drv_get_float : Z -> option Q;
  drv_get_string : Z -> option string
}.

Abbreviation GLM := (PyM GLState).

(** ** Object table access *)

Definition set_obj (n : Z) (o : GLObject) (s : GLState) : GLState :=
  {| s with gl_objects := <[n := o]> (gl_objects s) |}.

Definition del_obj (n : Z) (s : GLState) : GLState :=
  {| s with gl_objects := delete n (gl_objects s) |}.

Inductive ObjKind :=
| KShader | KProgram | KFramebuffer | KRenderbuffer | KTexture | KBuffer | KVertexArray.

#[export] Instance ObjKind_eq_dec : EqDecision ObjKind.
Proof. solve_decision. Defined.

Definition kind (o : GLObject) : ObjKind :=
  match o with
  | OShader _ => KShader | OProgram _ => KProgram | OFramebuffer _ => KFramebuffer
  | ORenderbuffer _ => KRenderbuffer | OTexture _ => KTexture | OBuffer _ => KBuffer
  | OVertexArray => KVertexArray
  end.

Definition kind_at (s : GLState) (n : Z) : option ObjKind := kind <$> gl_objects s !! n.

Definition as_shader (o : GLObject) : option ShaderObj :=
  match o with OShader sh => Some sh | _ => None end.
Definition as_program (o : GLObject) : option ProgramObj :=
  match o with OProgram pr => Some pr | _ => None end.
Definition as_framebuffer (o : GLObject) : option (gmap Z Attachment) :=
  match o with OFramebuffer a => Some a | _ => None end.
Definition as_renderbuffer (o : GLObject) : option (option ImageStorage) :=
  match o with ORenderbuffer st => Some st | _ => None end.
Definition as_texture (o : GLObject) : option TexObj :=
  match o with OTexture t => Some t | _ => None end.
Definition as_buffer (o : GLObject) : option (option BufObj) :=
  match o with OBuffer b => Some b | _ => None end.

Definition shader_of (s : GLState) (n : Z) : option ShaderObj := gl_objects s !! n ≫= as_shader.
Definition program_of (s : GLState) (n : Z) : option ProgramObj := gl_objects s !! n ≫= as_program.
Definition framebuffer_of (s : GLState) (n : Z) : option (gmap Z Attachment) :=
  gl_objects s !! n ≫= as_framebuffer.
Definition renderbuffer_of (s : GLState) (n : Z) : option (option ImageStorage) :=
  gl_objects s !! n ≫= as_renderbuffer.
Definition texture_of (s : GLState) (n : Z) : option TexObj := gl_objects s !! n ≫= as_texture.
Definition buffer_of (s : GLState) (n : Z) : option (option BufObj) := gl_objects s !! n ≫= as_buffer.
Definition is_vertex_array (s : GLState) (n : Z) : bool :=
  bool_decide (kind_at s n = Some KVertexArray).

(** [glGen*] / [glCreate*]: a fresh name bound to a new object. *)
Definition gl_gen (o : GLObject) : GLM Z :=
  fun s => (Ok (gl_next s),
            {| s with gl_objects := <[gl_next s := o]> (gl_objects s);
                      gl_next := gl_next s + 1 |}).

(** Python passes a fresh [GLint()] (value 0) to the [glGet*iv] calls: when
    the call generates an error nothing is written and 0 is read back. *)
Definition gl_query_int (q : GLM (option Z)) : GLM Z :=
  do r <- q; ret (default 0 r).

(** ** Shader and program objects (OpenGL 4.6, chapter 7) *)

Definition empty_program : ProgramObj := mkProgram [] false false "" [] [] false.

Definition glCreateProgram : GLM Z := gl_gen (OProgram empty_program).

Definition glCreateShader (ty : Z) : GLM Z :=
  gl_gen (OShader (mkShader ty [] false "" false)).

Definition update_shader (n : Z) (f : ShaderObj -> ShaderObj) : GLM unit :=
  modify (fun s => match shader_of s n with
                   | Some sh => set_obj n (OShader (f sh)) s
                   | None => s
                   end).

Definition update_program (n : Z) (f : GLState -> ProgramObj -> ProgramObj) : GLM unit :=
  modify (fun s => match program_of s n with
                   | Some pr => set_obj n (OProgram (f s pr)) s
                   | None => s
                   end).

Definition glShaderSource (n : Z) (srcs : list string) : GLM unit :=
  update_shader n (fun sh => {| sh with sh_sources := srcs |}).

Definition glCompileShader `{GLDriver} (n : Z) : GLM unit :=
  update_shader n (fun sh =>
    let '(ok, log) := drv_compile (sh_type sh) (sh_sources sh) in
    {| sh with sh_compiled := ok; sh_log := log |}).

Definition log_length (log : string) : Z :=
  if String.eqb log "" then 0 else Z.of_nat (String.length log) + 1.

Definition gl_bool (b : bool) : Z := if b then GL_TRUE else GL_FALSE.

Definition glGetShaderiv (n pname : Z) : GLM (option Z) :=
  gets (fun s => match shader_of s n with
                 | Some sh =>
                     if pname =? GL_COMPILE_STATUS then Some (gl_bool (sh_compiled sh))
                     else if pname =? GL_INFO_LOG_LENGTH then Some (log_length (sh_log sh))
                     else None
                 | None => None
                 end).

Definition max_name_length (l : list (string * Z)) : Z :=
  foldr (fun '(nm, _) m => Z.max m (Z.of_nat (String.length nm) + 1)) 0 l.

Definition glGetProgramiv (n pname : Z) : GLM (option Z) :=
  gets (fun s => match program_of s n with
                 | Some pr =>
                     if pname =? GL_LINK_STATUS then Some (gl_bool (pr_linked pr))
                     else if pname =? GL_VALIDATE_STATUS then Some (gl_bool (pr_validated pr))
                     else if pname =? GL_INFO_LOG_LENGTH then Some (log_length (pr_log pr))
                     else if pname =? GL_ACTIVE_UNIFORMS then Some (Z.of_nat (length (pr_uniforms pr)))
                     else if pname =? GL_ACTIVE_UNIFORM_MAX_LENGTH then Some (max_name_length (pr_uniforms pr))
                     else if pname =? GL_ACTIVE_ATTRIBUTES then Some (Z.of_nat (length (pr_attribs pr)))
                     else if pname =? GL_ACTIVE_ATTRIBUTE_MAX_LENGTH then Some (max_name_length (pr_attribs pr))
                     else None
                 | None => None
                 end).

(** [glGetShaderInfoLog] only accepts shader objects. *)
Definition glGetShaderInfoLog (n : Z) : GLM (option string) :=
  gets (fun s => sh_log <$> shader_of s n).

Definition glIsShader (n : Z) : GLM bool := gets (fun s => is_some (shader_of s n)).
Definition glIsProgram (n : Z) : GLM bool := gets (fun s => is_some (program_of s n)).

(** Is shader [n] attached to some program? *)
Definition attached_anywhere (s : GLState) (n : Z) : bool :=
  existsb (fun '(_, o) => match o with
                          | OProgram pr => bool_decide (n ∈ pr_attached pr)
                          | _ => false
                          end) (map_to_list (gl_objects s)).

(** A shader flagged for deletion that no program holds any more. *)
Definition orphan (s : GLState) (n : Z) (o : GLObject) : bool :=
  match o with
  | OShader sh => sh_delete_pending sh && negb (attached_anywhere s n)
  | _ => false
  end.

(** Free the orphaned shaders among [ns] (deletion of a flagged shader takes
    effect once it is detached from its last program). *)
Definition release_shaders (ns : list Z) (s : GLState) : GLState :=
  {| s with gl_objects :=
       filter (fun kv : Z * GLObject => negb (bool_decide (kv.1 ∈ ns) && orphan s kv.1 kv.2) = true)
              (gl_objects s) |}.

(** Deleting a program detaches its shaders. *)
Definition free_program (p : Z) (s : GLState) : GLState :=
  match program_of s p with
  | Some pr => release_shaders (pr_attached pr) (del_obj p s)
  | None => s
  end.

Definition glDeleteShader (n : Z) : GLM unit :=
  modify (fun s => match shader_of s n with
                   | Some sh =>
                       if attached_anywhere s n
                       then set_obj n (OShader {| sh with sh_delete_pending := true |}) s
                       else del_obj n s
                   | None => s
                   end).

Definition glDeleteProgram (p : Z) : GLM unit :=
  modify (fun s => match program_of s p with
                   | Some pr =>
                       if p =? gl_program s
                       then set_obj p (OProgram {| pr with pr_delete_pending := true |}) s
                       else free_program p s
                   | None => s
                   end).

Definition glAttachShader (p sh : Z) : GLM unit :=
  modify (fun s => match program_of s p, shader_of s sh with
                   | Some pr, Some _ =>
                       if bool_decide (sh ∈ pr_attached pr) then s
                       else set_obj p (OProgram {| pr with pr_attached := pr_attached pr ++ [sh] |}) s
                   | _, _ => s
                   end).

Definition glDetachShader (p sh : Z) : GLM unit :=
  modify (fun s => match program_of s p with
                   | Some pr =>
                       if bool_decide (sh ∈ pr_attached pr)
                       then release_shaders [sh]
                              (set_obj p (OProgram {| pr with pr_attached :=
                                 filter (fun x => x ≠ sh) (pr_attached pr) |}) s)
                       else s
                   | None => s
                   end).

Definition attached_shaders (s : GLState) (pr : ProgramObj) : list ShaderObj :=
  omap (shader_of s) (pr_attached pr).

Definition glLinkProgram `{GLDriver} (p : Z) : GLM unit :=
  update_program p (fun s pr =>
    let '(ok, log, unifs, attrs) := drv_link (attached_shaders s pr) in
    {| pr with pr_linked := ok; pr_log := log;
               pr_uniforms := if ok then unifs else [];
               pr_attribs := if ok then attrs else [] |}).

Definition glValidateProgram `{GLDriver} (p : Z) : GLM unit :=
  update_program p (fun s pr =>
    let '(ok, log) := drv_validate s pr in
    {| pr with pr_validated := ok; pr_log := log |}).

(** [glUseProgram]: 0 or a linked program; leaving a program flagged for
    deletion frees it. *)
Definition glUseProgram (p : Z) : GLM unit :=
  modify (fun s =>
    let ok := (p =? 0) || match program_of s p with Some pr => pr_linked pr | None => false end in
    if ok then
      let prev := gl_program s in
      let s' := {| s with gl_program := p |} in
      match program_of s prev with
      | Some pr => if pr_delete_pending pr && negb (prev =? p) then free_program prev s' else s'
      | None => s'
      end
    else s).

Definition glGetActiveUniform (p idx : Z) : GLM (option string) :=
  gets (fun s => match program_of s p with
                 | Some pr => fst <$> pr_uniforms pr !! Z.to_nat idx
                 | None => None
                 end).

Definition glGetActiveAttrib (p idx : Z) : GLM (option string) :=
  gets (fun s => match program_of s p with
                 | Some pr => fst <$> pr_attribs pr !! Z.to_nat idx
                 | None => None
                 end).

Definition location_in (l : list (string * Z)) (nm : string) : Z :=
  default (-1) (assoc l nm).

(** ** Framebuffers, renderbuffers, textures (OpenGL 4.6, chapters 8 and 9) *)

Definition glGenFramebuffers : GLM Z := gl_gen (OFramebuffer ∅).

(** Only the [GL_FRAMEBUFFER] target (draw and read together) is modelled:
    it is the one [gltools.py] binds. *)
Definition glBindFramebuffer (target n : Z) : GLM unit :=
  modify (fun s => if (target =? GL_FRAMEBUFFER) && ((n =? 0) || is_some (framebuffer_of s n))
                   then {| s with gl_framebuffer := n |} else s).

Definition update_bound_framebuffer (f : gmap Z Attachment -> gmap Z Attachment)
    (s : GLState) : GLState :=
  match framebuffer_of s (gl_framebuffer s) with
  | Some atts => set_obj (gl_framebuffer s) (OFramebuffer (f atts)) s
  | None => s
  end.

(** Attach [name] (or detach, when [name] is 0) at [point]. *)
Definition fb_attach (point target name : Z) (atts : gmap Z Attachment) : gmap Z Attachment :=
  if name =? 0 then delete point atts else <[point := mkAttachment target name]> atts.

Definition glFramebufferTexture2D (fbTarget point textarget tex level : Z) : GLM unit :=
  modify (fun s => if (fbTarget =? GL_FRAMEBUFFER) && (level =? 0)
                      && ((tex =? 0) || is_some (texture_of s tex))
                   then update_bound_framebuffer (fb_attach point textarget tex) s else s).

Definition glFramebufferRenderbuffer (fbTarget point rbTarget rb : Z) : GLM unit :=
  modify (fun s => if (fbTarget =? GL_FRAMEBUFFER) && (rbTarget =? GL_RENDERBUFFER)
                      && ((rb =? 0) || is_some (renderbuffer_of s rb))
                   then update_bound_framebuffer (fb_attach point rbTarget rb) s else s).

(** The storage behind an attachment, when it has any. *)
Definition attachment_storage (s : GLState) (a : Attachment) : option ImageStorage :=
  if at_target a =? GL_RENDERBUFFER then
    match renderbuffer_of s (at_name a) with Some st => st | None => None end
  else match texture_of s (at_name a) with Some t => tx_images t !! 0 | None => None end.

(** Framebuffer completeness (section 9.4.2), on the rules that concern
    the attachments' existence and sample counts: at least one image is
    attached, every attached image has storage, and all of them have the
    same number of samples. *)
Definition framebuffer_status (s : GLState) (n : Z) : Z :=
  if n =? 0 then GL_FRAMEBUFFER_COMPLETE else
  match framebuffer_of s n with
  | Some atts =>
      match mapM (attachment_storage s) (map snd (map_to_list atts)) with
      | None => GL_FRAMEBUFFER_INCOMPLETE_ATTACHMENT
      | Some [] => GL_FRAMEBUFFER_INCOMPLETE_MISSING_ATTACHMENT
      | Some (st :: sts) =>
          if forallb (fun st' => st_samples st' =? st_samples st) sts
          then GL_FRAMEBUFFER_COMPLETE else GL_FRAMEBUFFER_INCOMPLETE_MULTISAMPLE
      end
  | None => 0
  end.

Definition glCheckFramebufferStatus (target : Z) : GLM Z :=
  gets (fun s => if target =? GL_FRAMEBUFFER then framebuffer_status s (gl_framebuffer s) else 0).

(** Deleting an image detaches it from the bound framebuffer
    (section 9.2.7); deleting the bound framebuffer binds 0. *)
Definition detach_from_bound (name : Z) (s : GLState) : GLState :=
  update_bound_framebuffer (filter (fun '(_, a) => at_name a ≠ name)) s.

Definition glDeleteFramebuffers (n : Z) : GLM unit :=
  modify (fun s => match framebuffer_of s n with
                   | Some _ => let s' := del_obj n s in
                               if gl_framebuffer s =? n then {| s' with gl_framebuffer := 0 |} else s'
                   | None => s
                   end).

Definition glBlitFramebuffer (x0 y0 x1 y1 u0 v0 u1 v1 mask filter : Z) : GLM unit :=
  modify (fun s => {| s with gl_commands :=
                        CmdBlit (x0, y0, x1, y1) (u0, v0, u1, v1) mask filter :: gl_commands s |}).

Definition glGenRenderbuffers : GLM Z := gl_gen (ORenderbuffer None).

Definition glBindRenderbuffer (target n : Z) : GLM unit :=
  modify (fun s => if (target =? GL_RENDERBUFFER) && ((n =? 0) || is_some (renderbuffer_of s n))
                   then {| s with gl_renderbuffer := n |} else s).

Definition set_bound_renderbuffer (st : ImageStorage) (s : GLState) : GLState :=
  match renderbuffer_of s (gl_renderbuffer s) with
  | Some _ => set_obj (gl_renderbuffer s) (ORenderbuffer (Some st)) s
  | None => s
  end.

Definition glRenderbufferStorage (target fmt w h : Z) : GLM unit :=
  modify (fun s => if (target =? GL_RENDERBUFFER) && (0 <=? w) && (0 <=? h)
                   then set_bound_renderbuffer (mkStorage fmt w h 0) s else s).

Definition glRenderbufferStorageMultisample `{GLDriver} (target samples fmt w h : Z) : GLM unit :=
  modify (fun s => if (target =? GL_RENDERBUFFER) && (0 <=? samples) && (samples <=? drv_max_samples)
                      && (0 <=? w) && (0 <=? h)
                   then set_bound_renderbuffer (mkStorage fmt w h samples) s else s).

Definition glDeleteRenderbuffers (n : Z) : GLM unit :=
  modify (fun s => match renderbuffer_of s n with
                   | Some _ => let s' := detach_from_bound n (del_obj n s) in
                               if gl_renderbuffer s =? n then {| s' with gl_renderbuffer := 0 |} else s'
                   | None => s
                   end).

Definition glGenTextures : GLM Z := gl_gen (OTexture (mkTex None ∅ ∅)).

(** Binding fixes the target of a new texture; binding it later to
    another target is an error. *)
Definition glBindTexture (target n : Z) : GLM unit :=
  modify (fun s =>
    let s' := {| s with gl_textures := <[(gl_active_texture s, target) := n]> (gl_textures s) |} in
    if n =? 0 then s' else
    match texture_of s n with
    | Some t => match tx_target t with
                | None => set_obj n (OTexture {| t with tx_target := Some target |}) s'
                | Some tg => if tg =? target then s' else s
                end
    | None => s
    end).

Definition bound_texture (s : GLState) (target : Z) : Z :=
  default 0 (gl_textures s !! (gl_active_texture s, target)).

Definition update_bound_texture (target : Z) (f : TexObj -> TexObj) (s : GLState) : GLState :=
  match texture_of s (bound_texture s target) with
  | Some t => set_obj (bound_texture s target) (OTexture (f t)) s
  | None => s
  end.

Definition glTexImage2D (target level ifmt w h border pfmt dtype : Z) : GLM unit :=
  modify (fun s => if (0 <=? level) && (0 <=? w) && (0 <=? h) && (border =? 0)
                      && (negb (target =? GL_TEXTURE_RECTANGLE) || (level =? 0))
                   then update_bound_texture target
                          (fun t => {| t with tx_images := <[level := mkStorage ifmt w h 0]> (tx_images t) |}) s
                   else s).

Definition glTexImage2DMultisample `{GLDriver} (target samples ifmt w h fixed : Z) : GLM unit :=
  modify (fun s => if (0 <? samples) && (samples <=? drv_max_samples) && (0 <=? w) && (0 <=? h)
                   then update_bound_texture target
                          (fun t => {| t with tx_images := <[0 := mkStorage ifmt w h samples]> (tx_images t) |}) s
                   else s).

Definition glTexParameteri (target pname v : Z) : GLM unit :=
  modify (update_bound_texture target (fun t => {| t with tx_params := <[pname := v]> (tx_params t) |})).

Definition glDeleteTextures (n : Z) : GLM unit :=
  modify (fun s => match texture_of s n with
                   | Some _ => let s' := detach_from_bound n (del_obj n s) in
                               {| s' with gl_textures := (fun t => if t =? n then 0 else t) <$> gl_textures s' |}
                   | None => s
                   end).

Definition glActiveTexture `{GLDriver} (texunit : Z) : GLM unit :=
  modify (fun s => if (GL_TEXTURE0 <=? texunit) && (texunit <? GL_TEXTURE0 + drv_max_combined_texture_image_units)
                   then {| s with gl_active_texture := texunit |} else s).

Definition glPixelStorei (pname v : Z) : GLM unit :=
  modify (fun s => if (pname =? GL_UNPACK_ALIGNMENT) && bool_decide (v ∈ [1; 2; 4; 8])
                   then {| s with gl_unpack_alignment := v |} else s).

Definition glEnable (cap : Z) : GLM unit :=
  modify (fun s => {| s with gl_enabled := {[cap]} ∪ gl_enabled s |}).
Definition glDisable (cap : Z) : GLM unit :=
  modify (fun s => {| s with gl_enabled := gl_enabled s ∖ {[cap]} |}).

(** ** Buffers and vertex arrays (OpenGL 4.6, chapters 6 and 10) *)

Definition glGenBuffers : GLM Z := gl_gen (OBuffer None).

Definition buffer_target (target : Z) : bool :=
  (target =? GL_ARRAY_BUFFER) || (target =? GL_ELEMENT_ARRAY_BUFFER).

(** [GL_VERTEX_ARRAY] and other enumerants are not buffer targets: the call
    is an error. *)
Definition glBindBuffer (target n : Z) : GLM unit :=
  modify (fun s => if buffer_target target && ((n =? 0) || is_some (buffer_of s n))
                   then {| s with gl_buffers := <[target := n]> (gl_buffers s) |} else s).

Definition bound_buffer (s : GLState) (target : Z) : Z := default 0 (gl_buffers s !! target).

Definition glBufferData (target size usage : Z) : GLM unit :=
  modify (fun s => let b := bound_buffer s target in
                   if buffer_target target && (0 <=? size) && negb (b =? 0) && is_some (buffer_of s b)
                   then set_obj b (OBuffer (Some (mkBuf size usage))) s else s).

Definition glGetBufferParameteriv (target pname : Z) : GLM (option Z) :=
  gets (fun s => if buffer_target target then
                   match buffer_of s (bound_buffer s target) with
                   | Some (Some bf) =>
                       if pname =? GL_BUFFER_SIZE then Some (bf_size bf)
                       else if pname =? GL_BUFFER_USAGE then Some (bf_usage bf) else None
                   | Some None =>
                       if pname =? GL_BUFFER_SIZE then Some 0
                       else if pname =? GL_BUFFER_USAGE then Some GL_STATIC_DRAW else None
                   | None => None
                   end
                 else None).

Definition glIsBuffer (n : Z) : GLM bool := gets (fun s => is_some (buffer_of s n)).

(** Deleting a buffer unbinds it from every target. *)
Definition glDeleteBuffers (n : Z) : GLM unit :=
  modify (fun s => match buffer_of s n with
                   | Some _ => let s' := del_obj n s in
                               {| s' with gl_buffers := (fun b => if b =? n then 0 else b) <$> gl_buffers s' |}
                   | None => s
                   end).

Definition glGenVertexArrays : GLM Z := gl_gen OVertexArray.

Definition glBindVertexArray (n : Z) : GLM unit :=
  modify (fun s => if (n =? 0) || is_vertex_array s n then {| s with gl_vertex_array := n |} else s).

Definition glDeleteVertexArrays (n : Z) : GLM unit :=
  modify (fun s => if is_vertex_array s n then
                     let s' := del_obj n s in
                     if gl_vertex_array s =? n then {| s' with gl_vertex_array := 0 |} else s'
                   else s).

Definition glEnableVertexAttribArray (i : Z) : GLM unit :=
  modify (fun s => if 0 <=? i then {| s with gl_attrib_enabled := {[i]} ∪ gl_attrib_enabled s |} else s).

Definition valid_pointer_size (size : Z) : bool := (1 <=? size) && (size <=? 4).

(** The pointer records the buffer bound to [GL_ARRAY_BUFFER]. *)
Definition glVertexAttribPointer (i size type normalized stride offset : Z) : GLM unit :=
  modify (fun s => if (0 <=? i) && valid_pointer_size size && (0 <=? stride) then
                     {| s with gl_attrib_pointers :=
                          <[i := mkPointer (bound_buffer s GL_ARRAY_BUFFER) size type
                                  (negb (normalized =? GL_FALSE)) stride offset]> (gl_attrib_pointers s) |}
                   else s).

Definition glEnableClientState (cap : Z) : GLM unit :=
  modify (fun s => {| s with gl_client_states := {[cap]} ∪ gl_client_states s |}).

(** The fixed-function array pointers ([glVertexPointer] and the like). *)
Definition gl_client_pointer (cap size type stride : Z) : GLM unit :=
  modify (fun s => if (0 <=? stride) then
                     {| s with gl_client_pointers :=
                          <[cap := mkPointer (bound_buffer s GL_ARRAY_BUFFER) size type false stride 0]>
                            (gl_client_pointers s) |}
                   else s).

Definition glVertexPointer (size type stride : Z) : GLM unit := gl_client_pointer GL_VERTEX_ARRAY size type stride.
Definition glTexCoordPointer (size type stride : Z) : GLM unit :=
  gl_client_pointer GL_TEXTURE_COORD_ARRAY size type stride.
Definition glNormalPointer (type stride : Z) : GLM unit := gl_client_pointer GL_NORMAL_ARRAY 3 type stride.
Definition glColorPointer (size type stride : Z) : GLM unit := gl_client_pointer GL_COLOR_ARRAY size type stride.

Definition glDrawArrays (mode first count : Z) : GLM unit :=
  modify (fun s => if (0 <=? count) && (0 <=? first)
                   then {| s with gl_commands := CmdDrawArrays (gl_vertex_array s) mode first count :: gl_commands s |}
                   else s).

Definition glDrawElements (mode count type : Z) : GLM unit :=
  modify (fun s => if 0 <=? count
                   then {| s with gl_commands := CmdDrawElements (gl_vertex_array s) mode count type :: gl_commands s |}
                   else s).

Definition glFlush : GLM unit := modify (fun s => {| s with gl_commands := CmdFlush :: gl_commands s |}).

(** ** Fixed-function materials and lights (OpenGL 2.1, 2.14.1 and 2.14.2)

    Each call reads from the client pointer as many floats as its parameter
    has components; a value out of its range is [GL_INVALID_VALUE] and
    changes nothing.  [GL_POSITION] and [GL_SPOT_DIRECTION] are stored as
    given: their transformation by the modelview matrix is not modelled. *)

Definition Q_in (lo hi q : Q) : bool := Qle_bool lo q && Qle_bool q hi.

Definition material_size (pname : Z) : option nat :=
  if (pname =? GL_AMBIENT) || (pname =? GL_DIFFUSE) || (pname =? GL_SPECULAR) ||
     (pname =? GL_EMISSION) || (pname =? GL_AMBIENT_AND_DIFFUSE) then Some 4%nat
  else if pname =? GL_SHININESS then Some 1%nat else None.

Definition material_face_ok (face : Z) : bool :=
  (face =? GL_FRONT) || (face =? GL_BACK) || (face =? GL_FRONT_AND_BACK).

Definition material_faces (face : Z) : list Z :=
  if face =? GL_FRONT_AND_BACK then [GL_FRONT; GL_BACK] else [face].

Definition material_pnames (pname : Z) : list Z :=
  if pname =? GL_AMBIENT_AND_DIFFUSE then [GL_AMBIENT; GL_DIFFUSE] else [pname].

Definition material_value_ok (pname : Z) (params : list Q) : bool :=
  if pname =? GL_SHININESS then Q_in 0 128 (default 0%Q (head params)) else true.

(** The table after [glMaterialfv]; an invalid call leaves it as it is. *)
Definition material_update (face pname : Z) (params : list Q) (m : gmap (Z * Z) (list Q))
    : gmap (Z * Z) (list Q) :=
  match material_size pname with
  | Some k =>
      if material_face_ok face && material_value_ok pname params then
        foldr (fun fp m => <[fp := take k params]> m) m
              (list_prod (material_faces face) (material_pnames pname))
      else m
  | None => m
  end.

Definition glMaterialfv (face pname : Z) (params : list Q) : GLM unit :=
  modify (fun s => {| s with gl_material := material_update face pname params (gl_material s) |}).

Definition light_size (pname : Z) : option nat :=
  if (pname =? GL_AMBIENT) || (pname =? GL_DIFFUSE) || (pname =? GL_SPECULAR) ||
     (pname =? GL_POSITION) then Some 4%nat
  else if pname =? GL_SPOT_DIRECTION then Some 3%nat
  else if (pname =? GL_SPOT_EXPONENT) || (pname =? GL_SPOT_CUTOFF) ||
          (pname =? GL_CONSTANT_ATTENUATION) || (pname =? GL_LINEAR_ATTENUATION) ||
          (pname =? GL_QUADRATIC_ATTENUATION) then Some 1%nat
  else None.

Definition light_value_ok (pname : Z) (params : list Q) : bool :=
  let v := default 0%Q (head params) in
  if pname =? GL_SPOT_EXPONENT then Q_in 0 128 v
  else if pname =? GL_SPOT_CUTOFF then Q_in 0 90 v || Qeq_bool v 180
  else if (pname =? GL_CONSTANT_ATTENUATION) || (pname =? GL_LINEAR_ATTENUATION) ||
          (pname =? GL_QUADRATIC_ATTENUATION) then Qle_bool 0 v
  else true.

Definition light_update `{GLDriver} (light pname : Z) (params : list Q) (m : gmap (Z * Z) (list Q))
    : gmap (Z * Z) (list Q) :=
  match light_size pname with
  | Some k =>
      if (GL_LIGHT0 <=? light) && (light <? GL_LIGHT0 + drv_max_lights) && light_value_ok pname params
      then <[(light, pname) := take k params]> m
      else m
  | None => m
  end.

Definition glLightfv `{GLDriver} (light pname : Z) (params : list Q) : GLM unit :=
  modify (fun s => {| s with gl_lights := light_update light pname params (gl_lights s) |}).

(** Only [GL_LIGHT_MODEL_AMBIENT], the parameter [gltools.py] sets. *)
Definition glLightModelfv (pname : Z) (params : list Q) : GLM unit :=
  modify (fun s => if pname =? GL_LIGHT_MODEL_AMBIENT
                   then {| s with gl_light_model_ambient := take 4 params |} else s).

(** The initial material of the specification (Table 6.14), what
    [glGetMaterialfv] reads for a parameter never set. *)
Definition gl_default_material (pname : Z) : list Q :=
  if pname =? GL_AMBIENT then [0.2; 0.2; 0.2; 1.0]%Q
  else if pname =? GL_DIFFUSE then [0.8; 0.8; 0.8; 1.0]%Q
  else if (pname =? GL_SPECULAR) || (pname =? GL_EMISSION) then [0.0; 0.0; 0.0; 1.0]%Q
  else if pname =? GL_SHININESS then [0]%Q
  else [].

Definition material_value (s : GLState) (face pname : Z) : list Q :=
  default (gl_default_material pname) (gl_material s !! (face, pname)).

Definition glColor4f (r g b a : Q) : GLM unit :=
  modify (fun s => {| s with gl_color := [r; g; b; a] |}).

Definition glColorMask (r g b a : bool) : GLM unit :=
  modify (fun s => {| s with gl_color_mask := [r; g; b; a] |}).

(** ** Queries, ARB entry points, the error stream *)

Definition glGetIntegerv `{GLDriver} (pname : Z) : GLM (option Z) :=
  gets (fun s =>
    if pname =? GL_MAX_SAMPLES then Some drv_max_samples
    else if pname =? GL_MAX_LIGHTS then Some drv_max_lights
    else if pname =? GL_MAX_COMBINED_TEXTURE_IMAGE_UNITS then Some drv_max_combined_texture_image_units
    else if pname =? GL_FRAMEBUFFER_BINDING then Some (gl_framebuffer s)
    else if pname =? GL_ARRAY_BUFFER_BINDING then Some (default 0 (gl_buffers s !! GL_ARRAY_BUFFER))
    else if pname =? GL_ELEMENT_ARRAY_BUFFER_BINDING
         then Some (default 0 (gl_buffers s !! GL_ELEMENT_ARRAY_BUFFER))
    else if pname =? GL_VERTEX_ARRAY_BINDING then Some (gl_vertex_array s)
    else drv_get_integer pname).

(** [glGetFloatv]: the value, or [None] for an invalid parameter (the
    output is left alone). *)
Definition glGetFloatv `{GLDriver} (pname : Z) : GLM (option Q) := ret (drv_get_float pname).

(** [glGetString]: a pointer to the string, [NULL] ([None]) for an
    invalid parameter. *)
Definition glGetString `{GLDriver} (pname : Z) : GLM (option string) := ret (drv_get_string pname).

Definition glGetUniformLocation (p : Z) (nm : string) : GLM Z :=
  gets (fun s => match program_of s p with
                 | Some pr => if pr_linked pr then location_in (pr_uniforms pr) nm else -1
                 | None => -1
                 end).

Definition glGetAttribLocation (p : Z) (nm : string) : GLM Z :=
  gets (fun s => match program_of s p with
                 | Some pr => if pr_linked pr then location_in (pr_attribs pr) nm else -1
                 | None => -1
                 end).

(** The ARB_shader_objects entry points act on the same objects. *)
Definition glCreateProgramObjectARB : GLM Z := glCreateProgram.
Definition glCreateShaderObjectARB (ty : Z) : GLM Z := glCreateShader ty.
Definition glShaderSourceARB := glShaderSource.
Definition glCompileShaderARB `{GLDriver} := glCompileShader.
Definition glAttachObjectARB := glAttachShader.
Definition glDetachObjectARB := glDetachShader.
Definition glLinkProgramARB `{GLDriver} := glLinkProgram.
Definition glValidateProgramARB `{GLDriver} := glValidateProgram.
Definition glUseProgramObjectARB := glUseProgram.

(** [glGetObjectParameterivARB] answers for shaders and programs alike
    (the ARB status enumerants equal the core ones). *)
Definition glGetObjectParameterivARB (n pname : Z) : GLM (option Z) :=
  do r <- glGetShaderiv n pname;
  match r with Some v => ret (Some v) | None => glGetProgramiv n pname end.

Definition glDeleteObjectARB (n : Z) : GLM unit :=
  do! glDeleteShader n; glDeleteProgram n.

(** [sys.stderr.write(msg)] *)
Definition sys_stderr_write (msg : string) : GLM unit :=
  modify (fun s => {| s with gl_stderr := msg :: gl_stderr s |}).


(** ** An example driver

    A small driver used to run the helpers on concrete inputs: a shader
    compiles unless one of its sources is ["#error"]; a program links when
    it has at least one attached shader and all of them compiled, exposing
    one built-in and one user uniform and attribute; a linked program
    validates. *)
Definition example_driver : GLDriver := {|
  drv_compile := fun _ srcs =>
    if existsb (String.eqb "#error") srcs then (false, "0(1) : error C0000: syntax error")
    else (true, "");
  drv_link := fun shs =>
    let ok := negb (Nat.eqb (length shs) 0) && forallb sh_compiled shs in
    (ok, if ok then "" else "link error",
     [("gl_ModelViewProjectionMatrix", -1); ("diffuseColor", 0)],
     [("gl_Vertex", -1); ("position", 0)]);
  drv_validate := fun _ pr => (pr_linked pr, "");
  drv_max_samples := 8;
  drv_max_lights := 8;
  drv_max_combined_texture_image_units := 16;
  drv_get_integer pname :=
    if pname =? GL_MAJOR_VERSION then Some 4 else if pname =? GL_MINOR_VERSION then Some 6
    else if pname =? GL_MAX_TEXTURE_SIZE then Some 16384 else if pname =? GL_DOUBLEBUFFER then Some 1
    else if pname =? GL_STEREO then Some 0 else None;
  drv_get_float pname := if pname =? GL_LINE_WIDTH then Some 1%Q else None;
  drv_get_string pname :=
    if pname =? GL_VENDOR then Some "Example" else if pname =? GL_RENDERER then Some "Example renderer"
    else if pname =? GL_VERSION then Some "4.6.0" else None |}.
