(* ===== verification/GLWf.v ===== *)
(** * Well-formedness of the OpenGL context

    The invariant [gl_wf] every reachable context satisfies: names are
    below the name counter, every binding names a live object of the right
    kind, attached shaders are live, and an object flagged for deletion is
    still in use (a flagged shader is attached somewhere, a flagged program
    is the current one), so deferred deletion never leaks an object.  The
    lemmas here show that each OpenGL entry point of [GLContext] preserves
    it; the components' theorems are built on them. *)

From S2P Require Import Prelude GLContext.
Import GL.
Open Scope Z_scope.

Definition binding_ok (s : GLState) (k : ObjKind) (n : Z) : Prop :=
  n = 0 \/ kind_at s n = Some k.

(** The invariant, except for the pending-deletion condition of the shaders
    [ns] and the programs [ps]: the intermediate states of a deletion that
    frees them. *)
Record wf_but (ns ps : list Z) (s : GLState) : Prop := {
  wf_next : 0 < gl_next s;
  wf_names : forall n o, gl_objects s !! n = Some o -> 0 < n < gl_next s;
  wf_program : binding_ok s KProgram (gl_program s);
  wf_framebuffer : binding_ok s KFramebuffer (gl_framebuffer s);
  wf_renderbuffer : binding_ok s KRenderbuffer (gl_renderbuffer s);
  wf_textures : forall k t, gl_textures s !! k = Some t -> binding_ok s KTexture t;
  wf_buffers : forall k b, gl_buffers s !! k = Some b -> binding_ok s KBuffer b;
  wf_vertex_array : binding_ok s KVertexArray (gl_vertex_array s);
  wf_attached : forall p pr sh, program_of s p = Some pr -> sh ∈ pr_attached pr ->
                is_Some (shader_of s sh);
  wf_shader_pending : forall n sh, n ∉ ns -> shader_of s n = Some sh ->
                      sh_delete_pending sh = true -> attached_anywhere s n = true;
  wf_program_pending : forall p pr, p ∉ ps -> program_of s p = Some pr ->
                       pr_delete_pending pr = true -> p = gl_program s
}.

Definition gl_wf (s : GLState) : Prop := wf_but [] [] s.

Create HintDb glwf.

(** ** The object table under [set_obj], [del_obj] and [gl_gen] *)

Lemma lookup_set_obj s n o m :
  gl_objects (set_obj n o s) !! m = if decide (n = m) then Some o else gl_objects s !! m.
Proof. apply lookup_insert. Qed.

Lemma lookup_del_obj s n m :
  gl_objects (del_obj n s) !! m = if decide (n = m) then None else gl_objects s !! m.
Proof. apply lookup_delete. Qed.

Lemma attached_anywhere_spec s n :
  attached_anywhere s n = true <->
  exists p pr, program_of s p = Some pr /\ n ∈ pr_attached pr.
Proof.
  unfold attached_anywhere, program_of. rewrite existsb_exists. split.
  - intros [[p o] [Hin Hb]]. apply list_elem_of_In, elem_of_map_to_list in Hin.
    destruct o as [| pr | | | | |]; try discriminate.
    exists p, pr. rewrite Hin. split; [done|]. by apply bool_decide_eq_true in Hb.
  - intros (p & pr & Hp & Hin). destruct (gl_objects s !! p) as [o|] eqn:E; [|done].
    destruct o; simpl in Hp; try discriminate. injection Hp as ->.
    exists (p, OProgram pr). split.
    + by apply list_elem_of_In, elem_of_map_to_list.
    + by apply bool_decide_eq_true.
Qed.

Lemma attached_anywhere_false s n :
  attached_anywhere s n = false ->
  forall p pr, program_of s p = Some pr -> n ∉ pr_attached pr.
Proof.
  intros Hf p pr Hp Hin.
  assert (attached_anywhere s n = true) by (apply attached_anywhere_spec; eauto).
  congruence.
Qed.

(** Two contexts with the same programs agree on attachments. *)
Lemma attached_anywhere_ext s s' n :
  (forall p, program_of s' p = program_of s p) ->
  attached_anywhere s' n = attached_anywhere s n.
Proof.
  intros Hp. apply eq_bool_prop_intro. rewrite !Is_true_true, !attached_anywhere_spec.
  setoid_rewrite Hp. done.
Qed.

Lemma kind_at_set_obj s n o m :
  kind_at (set_obj n o s) m = if decide (n = m) then Some (kind o) else kind_at s m.
Proof. unfold kind_at. rewrite lookup_set_obj. by case_decide. Qed.

Lemma kind_at_del_obj s n m :
  kind_at (del_obj n s) m = if decide (n = m) then None else kind_at s m.
Proof. unfold kind_at. rewrite lookup_del_obj. by case_decide. Qed.

(** The per-kind views under an update at [n]. *)
Lemma shader_of_set_obj s n o m :
  shader_of (set_obj n o s) m = if decide (n = m) then as_shader o else shader_of s m.
Proof. unfold shader_of. rewrite lookup_set_obj. by case_decide. Qed.

Lemma program_of_set_obj s n o m :
  program_of (set_obj n o s) m = if decide (n = m) then as_program o else program_of s m.
Proof. unfold program_of. rewrite lookup_set_obj. by case_decide. Qed.

Lemma shader_of_del_obj s n m :
  shader_of (del_obj n s) m = if decide (n = m) then None else shader_of s m.
Proof. unfold shader_of. rewrite lookup_del_obj. by case_decide. Qed.

Lemma program_of_del_obj s n m :
  program_of (del_obj n s) m = if decide (n = m) then None else program_of s m.
Proof. unfold program_of. rewrite lookup_del_obj. by case_decide. Qed.

Lemma kind_shader s n sh : shader_of s n = Some sh -> kind_at s n = Some KShader.
Proof.
  unfold shader_of, kind_at. destruct (gl_objects s !! n) as [[]|]; simpl; congruence.
Qed.

Lemma kind_program s n pr : program_of s n = Some pr -> kind_at s n = Some KProgram.
Proof.
  unfold program_of, kind_at. destruct (gl_objects s !! n) as [[]|]; simpl; congruence.
Qed.

#[export] Hint Resolve kind_shader kind_program : glwf.

(** ** A frame lemma

    A step that keeps the kind of every name, the attachment lists and
    deletion flags of programs, the deletion flags of shaders, the name
    counter and the current program, and whose bindings name objects of the
    right kind, preserves the invariant. *)

Definition shader_view (s : GLState) (n : Z) : option bool :=
  sh_delete_pending <$> shader_of s n.

Definition program_view (s : GLState) (n : Z) : option (list Z * bool) :=
  (fun pr => (pr_attached pr, pr_delete_pending pr)) <$> program_of s n.

Definition bindings_ok (s : GLState) : Prop :=
  binding_ok s KFramebuffer (gl_framebuffer s) /\
  binding_ok s KRenderbuffer (gl_renderbuffer s) /\
  (forall k t, gl_textures s !! k = Some t -> binding_ok s KTexture t) /\
  (forall k b, gl_buffers s !! k = Some b -> binding_ok s KBuffer b) /\
  binding_ok s KVertexArray (gl_vertex_array s).

Lemma attached_anywhere_view s s' n :
  (forall p, program_view s' p = program_view s p) ->
  attached_anywhere s' n = attached_anywhere s n.
Proof.
  intros Hv. apply eq_bool_prop_intro. rewrite !Is_true_true, !attached_anywhere_spec.
  split; intros (p & pr & Hp & Hin); specialize (Hv p); unfold program_view in Hv;
    rewrite Hp in Hv; simpl in Hv.
  - destruct (program_of s p) as [pr'|] eqn:E; simpl in Hv; [|done].
    injection Hv as Ha _. exists p, pr'. rewrite Ha in Hin. done.
  - destruct (program_of s' p) as [pr'|] eqn:E; simpl in Hv; [|done].
    injection Hv as Ha _. exists p, pr'. rewrite <- Ha in Hin. done.
Qed.

Lemma binding_ok_kinds s s' k n :
  (forall m, kind_at s' m = kind_at s m) -> binding_ok s k n -> binding_ok s' k n.
Proof. intros Hk [->|H]; [by left | right; by rewrite Hk]. Qed.

Lemma wf_bindings ns ps s : wf_but ns ps s -> bindings_ok s.
Proof. intros []. repeat split; auto. Qed.

Lemma bindings_ok_kinds s s' :
  (forall m, kind_at s' m = kind_at s m) ->
  gl_framebuffer s' = gl_framebuffer s -> gl_renderbuffer s' = gl_renderbuffer s ->
  gl_textures s' = gl_textures s -> gl_buffers s' = gl_buffers s ->
  gl_vertex_array s' = gl_vertex_array s ->
  bindings_ok s -> bindings_ok s'.
Proof.
  intros Hk Hf Hr Ht Hb Hv (B1 & B2 & B3 & B4 & B5). unfold bindings_ok.
  rewrite Hf, Hr, Ht, Hb, Hv. repeat split; eauto using binding_ok_kinds.
Qed.

Lemma wf_frame ns ps s s' :
  wf_but ns ps s ->
  gl_next s' = gl_next s ->
  (forall m, kind_at s' m = kind_at s m) ->
  (forall m, shader_view s' m = shader_view s m) ->
  (forall m, program_view s' m = program_view s m) ->
  gl_program s' = gl_program s ->
  bindings_ok s' ->
  wf_but ns ps s'.
Proof.
  intros [] Hn Hk Hs Hp Hprog (B1 & B2 & B3 & B4 & B5). constructor.
  - by rewrite Hn.
  - intros n o Ho. rewrite Hn.
    assert (Hn' : kind_at s' n = Some (kind o)) by (unfold kind_at; by rewrite Ho).
    rewrite Hk in Hn'. unfold kind_at in Hn'.
    destruct (gl_objects s !! n) eqn:E; [eauto|done].
  - rewrite Hprog. eapply binding_ok_kinds; eauto.
  - done.
  - done.
  - done.
  - done.
  - done.
  - intros p pr sh Hpr Hin. specialize (Hp p). unfold program_view in Hp.
    rewrite Hpr in Hp. destruct (program_of s p) as [pr0|] eqn:E; [|done].
    injection Hp as Ha _. rewrite Ha in Hin.
    destruct (wf_attached0 p pr0 sh E Hin) as [sh0 Hsh0].
    specialize (Hs sh). unfold shader_view in Hs. rewrite Hsh0 in Hs.
    destruct (shader_of s' sh); [eauto|done].
  - intros n sh Hns Hsh Hpend. rewrite (attached_anywhere_view s s') by done.
    specialize (Hs n). unfold shader_view in Hs. rewrite Hsh in Hs.
    destruct (shader_of s n) as [sh0|] eqn:E; [|done]. injection Hs as Hf.
    eapply wf_shader_pending0; eauto; by rewrite <- Hf.
  - intros p pr Hps Hpr Hpend. rewrite Hprog. specialize (Hp p). unfold program_view in Hp.
    rewrite Hpr in Hp. destruct (program_of s p) as [pr0|] eqn:E; [|done].
    injection Hp as _ Hf. eapply wf_program_pending0; eauto; by rewrite <- Hf.
Qed.

(** A step that does not touch the objects, the counter or the bindings. *)
Lemma wf_frame_objects ns ps s s' :
  wf_but ns ps s ->
  gl_objects s' = gl_objects s -> gl_next s' = gl_next s -> gl_program s' = gl_program s ->
  gl_framebuffer s' = gl_framebuffer s -> gl_renderbuffer s' = gl_renderbuffer s ->
  gl_textures s' = gl_textures s -> gl_buffers s' = gl_buffers s ->
  gl_vertex_array s' = gl_vertex_array s ->
  wf_but ns ps s'.
Proof.
  intros Hwf Ho Hn Hp Hf Hr Ht Hb Hv.
  assert (Hk : forall m, kind_at s' m = kind_at s m) by (intros m; unfold kind_at; by rewrite Ho).
  eapply wf_frame; eauto.
  - intros m. unfold shader_view, shader_of. by rewrite Ho.
  - intros m. unfold program_view, program_of. by rewrite Ho.
  - eapply bindings_ok_kinds; eauto using wf_bindings.
Qed.

(** ** Updating an object in place *)

Lemma shader_of_not_kind s n : kind_at s n <> Some KShader -> shader_of s n = None.
Proof.
  unfold shader_of, kind_at. destruct (gl_objects s !! n) as [[]|]; simpl; congruence.
Qed.

Lemma program_of_not_kind s n : kind_at s n <> Some KProgram -> program_of s n = None.
Proof.
  unfold program_of, kind_at. destruct (gl_objects s !! n) as [[]|]; simpl; congruence.
Qed.

Lemma kind_at_set_same s n o :
  kind_at s n = Some (kind o) -> forall m, kind_at (set_obj n o s) m = kind_at s m.
Proof. intros Hk m. rewrite kind_at_set_obj. case_decide; subst; done. Qed.

Lemma wf_set_obj ns ps s n o :
  wf_but ns ps s -> kind_at s n = Some (kind o) ->
  shader_view (set_obj n o s) n = shader_view s n ->
  program_view (set_obj n o s) n = program_view s n ->
  wf_but ns ps (set_obj n o s).
Proof.
  intros Hwf Hk Hs Hp. pose proof (kind_at_set_same s n o Hk) as Hks.
  eapply wf_frame; eauto.
  - intros m. destruct (decide (n = m)) as [<-|Hne]; [done|].
    unfold shader_view. by rewrite shader_of_set_obj, decide_False.
  - intros m. destruct (decide (n = m)) as [<-|Hne]; [done|].
    unfold program_view. by rewrite program_of_set_obj, decide_False.
  - eapply bindings_ok_kinds; eauto using wf_bindings.
Qed.

(** Objects other than shaders and programs carry no deletion state. *)
Lemma wf_set_obj_other ns ps s n o :
  wf_but ns ps s -> kind_at s n = Some (kind o) ->
  kind o <> KShader -> kind o <> KProgram ->
  wf_but ns ps (set_obj n o s).
Proof.
  intros Hwf Hk Hs Hp. apply wf_set_obj; auto.
  - unfold shader_view. rewrite shader_of_set_obj, decide_True by done.
    rewrite (shader_of_not_kind s n) by congruence. by destruct o.
  - unfold program_view. rewrite program_of_set_obj, decide_True by done.
    rewrite (program_of_not_kind s n) by congruence. by destruct o.
Qed.

Lemma preserves_update_shader ns ps n f :
  (forall sh, sh_delete_pending (f sh) = sh_delete_pending sh) ->
  preserves (wf_but ns ps) (update_shader n f).
Proof.
  intros Hf s Hwf. simpl. destruct (shader_of s n) as [sh|] eqn:E; [|done].
  apply wf_set_obj; eauto with glwf.
  - unfold shader_view. rewrite shader_of_set_obj, decide_True, E by done. simpl. by rewrite Hf.
  - unfold program_view. rewrite program_of_set_obj, decide_True by done.
    rewrite program_of_not_kind; [done|]. erewrite kind_shader by eauto. done.
Qed.

Lemma preserves_update_program ns ps n f :
  (forall s pr, pr_attached (f s pr) = pr_attached pr /\
                pr_delete_pending (f s pr) = pr_delete_pending pr) ->
  preserves (wf_but ns ps) (update_program n f).
Proof.
  intros Hf s Hwf. simpl. destruct (program_of s n) as [pr|] eqn:E; [|done].
  destruct (Hf s pr) as [Ha Hd].
  apply wf_set_obj; eauto with glwf.
  - unfold shader_view. rewrite shader_of_set_obj, decide_True by done.
    rewrite shader_of_not_kind; [done|]. erewrite kind_program by eauto. done.
  - unfold program_view. rewrite program_of_set_obj, decide_True, E by done. simpl.
    by rewrite Ha, Hd.
Qed.

(** ** Storing a new object under a fresh name *)

Lemma kind_at_below ns ps s n k : wf_but ns ps s -> kind_at s n = Some k -> 0 < n < gl_next s.
Proof.
  intros Hwf Hk. unfold kind_at in Hk.
  destruct (gl_objects s !! n) eqn:E; [|done]. eapply wf_names; eauto.
Qed.

Lemma binding_ok_fresh ns ps s k m n o :
  wf_but ns ps s -> gl_next s <= n -> binding_ok s k m -> binding_ok (set_obj n o s) k m.
Proof.
  intros Hwf Hn [->|Hk]; [by left|right].
  pose proof (kind_at_below _ _ _ _ _ Hwf Hk). rewrite kind_at_set_obj, decide_False by lia. done.
Qed.

(** New objects as the [glGen*]/[glCreate*] calls make them. *)
Definition fresh_object (o : GLObject) : Prop :=
  match o with
  | OShader sh => sh_delete_pending sh = false
  | OProgram pr => pr_attached pr = [] /\ pr_delete_pending pr = false
  | _ => True
  end.

Lemma gl_gen_state o s :
  snd (gl_gen o s) = set_obj (gl_next s) o {| s with gl_next := gl_next s + 1 |}.
Proof. reflexivity. Qed.

Lemma preserves_gl_gen ns ps o : fresh_object o -> preserves (wf_but ns ps) (gl_gen o).
Proof.
  intros Ho s Hwf. rewrite gl_gen_state. set (n := gl_next s).
  set (s1 := {| s with gl_next := gl_next s + 1 |}).
  assert (Hwf1 : wf_but ns ps s1).
  { destruct Hwf; constructor; simpl; auto; [lia|]. intros m o' Hm. specialize (wf_names0 m o' Hm). lia. }
  assert (Hfresh : gl_objects s1 !! n = None).
  { destruct (gl_objects s1 !! n) eqn:E; [|done]. pose proof (wf_names _ _ _ Hwf _ _ E). simpl in *. lia. }
  assert (Hb : forall k m, binding_ok s1 k m -> binding_ok (set_obj n o s1) k m).
  { intros k m [->|Hk]; [by left|right]. rewrite kind_at_set_obj, decide_False; [done|].
    intros ->. unfold kind_at in Hk. rewrite Hfresh in Hk. done. }
  assert (Hsh : forall m, m <> n -> shader_of (set_obj n o s1) m = shader_of s1 m)
    by (intros; rewrite shader_of_set_obj, decide_False; auto).
  assert (Hpr : forall m, m <> n -> program_of (set_obj n o s1) m = program_of s1 m)
    by (intros; rewrite program_of_set_obj, decide_False; auto).
  assert (Hnsh : shader_of s1 n = None) by (unfold shader_of; by rewrite Hfresh).
  assert (Hnpr : program_of s1 n = None) by (unfold program_of; by rewrite Hfresh).
  (* every shader attached in [set_obj n o s1] was attached in [s1] *)
  assert (Hatt : forall m, attached_anywhere s1 m = true -> attached_anywhere (set_obj n o s1) m = true).
  { intros m. rewrite !attached_anywhere_spec. intros (p & pr & Hp & Hin).
    exists p, pr. split; [|done]. rewrite Hpr; [done|]. congruence. }
  pose proof (wf_next _ _ _ Hwf) as Hn0.
  destruct Hwf1. constructor.
  - simpl. lia.
  - intros m o' Hm. rewrite lookup_set_obj in Hm. simpl.
    case_decide; [subst; unfold n; lia|]. specialize (wf_names0 m o' Hm).
    unfold s1 in wf_names0. simpl in *. lia.
  - by apply Hb.
  - by apply Hb.
  - by apply Hb.
  - intros k t Ht. by apply Hb, (wf_textures0 k).
  - intros k b Hbk. by apply Hb, (wf_buffers0 k).
  - by apply Hb.
  - intros p pr sh Hp Hin. destruct (decide (p = n)) as [->|Hne].
    + rewrite program_of_set_obj, decide_True in Hp by done.
      destruct o; simpl in Hp; try discriminate. injection Hp as <-.
      destruct Ho as [Hnil _]. rewrite Hnil in Hin. by apply not_elem_of_nil in Hin.
    + rewrite Hpr in Hp by done. destruct (wf_attached0 p pr sh Hp Hin) as [x Hx].
      rewrite Hsh; [eauto|]. intros ->. congruence.
  - intros m sh Hm Hs Hd. destruct (decide (m = n)) as [->|Hne].
    + rewrite shader_of_set_obj, decide_True in Hs by done.
      destruct o; simpl in Hs; try discriminate. injection Hs as <-. simpl in Ho.
      rewrite Ho in Hd. discriminate.
    + rewrite Hsh in Hs by done. apply Hatt. eauto.
  - intros p pr Hp Hs Hd. destruct (decide (p = n)) as [->|Hne].
    + rewrite program_of_set_obj, decide_True in Hs by done.
      destruct o; simpl in Hs; try discriminate. injection Hs as <-. simpl in Ho.
      destruct Ho as [_ Ho]. rewrite Ho in Hd. discriminate.
    + rewrite Hpr in Hs by done. eauto.
Qed.

(** ** Running the entry points

    The outcome and new state of each entry point, as rewriting lemmas for
    the proofs about the helpers that call them. *)

Definition bump (s : GLState) : GLState := {| s with gl_next := gl_next s + 1 |}.

#[global] Arguments set_obj : simpl never.
#[global] Arguments del_obj : simpl never.
#[global] Arguments bump : simpl never.

Lemma gl_gen_run o s : gl_gen o s = (Ok (gl_next s), set_obj (gl_next s) o (bump s)).
Proof. reflexivity. Qed.

Lemma shader_of_set_same s n o : shader_of (set_obj n o s) n = as_shader o.
Proof. by rewrite shader_of_set_obj, decide_True. Qed.

Lemma program_of_set_same s n o : program_of (set_obj n o s) n = as_program o.
Proof. by rewrite program_of_set_obj, decide_True. Qed.

Lemma shader_of_set_shader s n sh : shader_of (set_obj n (OShader sh) s) n = Some sh.
Proof. apply shader_of_set_same. Qed.

Lemma program_of_set_program s n pr : program_of (set_obj n (OProgram pr) s) n = Some pr.
Proof. apply program_of_set_same. Qed.

Lemma set_obj_set_obj s n o o' : set_obj n o' (set_obj n o s) = set_obj n o' s.
Proof. unfold set_obj. simpl. by rewrite insert_insert_eq. Qed.

Lemma update_shader_run s n f sh :
  shader_of s n = Some sh -> update_shader n f s = (Ok tt, set_obj n (OShader (f sh)) s).
Proof. intros E. unfold update_shader, modify. by rewrite E. Qed.

Lemma update_program_run s n f pr :
  program_of s n = Some pr -> update_program n f s = (Ok tt, set_obj n (OProgram (f s pr)) s).
Proof. intros E. unfold update_program, modify. by rewrite E. Qed.

Lemma gets_run {A} (f : GLState -> A) s : gets f s = (Ok (f s), s).
Proof. reflexivity. Qed.

Lemma bump_objects s : gl_objects (bump s) = gl_objects s.
Proof. reflexivity. Qed.

(** In a well-formed context the next name is free and attached nowhere. *)
Lemma wf_next_free ns ps s : wf_but ns ps s -> gl_objects s !! gl_next s = None.
Proof.
  intros Hwf. destruct (gl_objects s !! gl_next s) eqn:E; [|done].
  pose proof (wf_names _ _ _ Hwf _ _ E). lia.
Qed.

Lemma wf_next_unattached ns ps s o :
  wf_but ns ps s -> kind o <> KProgram ->
  attached_anywhere (set_obj (gl_next s) o (bump s)) (gl_next s) = false.
Proof.
  intros Hwf Hk. apply not_true_iff_false. rewrite attached_anywhere_spec.
  intros (p & pr & Hp & Hin). rewrite program_of_set_obj in Hp.
  case_decide; [subst; destruct o; simpl in *; congruence|].
  destruct (wf_attached _ _ _ Hwf p pr (gl_next s) Hp Hin) as [sh Hsh].
  unfold shader_of in Hsh. rewrite (wf_next_free _ _ _ Hwf) in Hsh. done.
Qed.

(** Evaluate a helper: look objects up through the updates just made. *)
Ltac gl_run :=
  repeat (rewrite ?shader_of_set_shader, ?program_of_set_program, ?set_obj_set_obj; simpl).

(** Writing to [sys.stderr] touches nothing of the context. *)
Definition with_stderr (msg : string) (s : GLState) : GLState :=
  {| s with gl_stderr := msg :: gl_stderr s |}.
#[global] Arguments with_stderr : simpl never.
#[global] Arguments sys_stderr_write : simpl never.

Lemma sys_stderr_write_run msg s : sys_stderr_write msg s = (Ok tt, with_stderr msg s).
Proof. reflexivity. Qed.

Lemma with_stderr_objects msg s : gl_objects (with_stderr msg s) = gl_objects s.
Proof. reflexivity. Qed.

Lemma shader_of_with_stderr msg s n : shader_of (with_stderr msg s) n = shader_of s n.
Proof. reflexivity. Qed.

Lemma attached_anywhere_with_stderr msg s n :
  attached_anywhere (with_stderr msg s) n = attached_anywhere s n.
Proof. reflexivity. Qed.

Lemma gl_wf_init : gl_wf gl_init.
Proof.
  constructor; simpl; try (by left);
    unfold program_of, shader_of; simpl; intros *; rewrite ?lookup_empty; done.
Qed.

(** ** Steps on objects other than shaders and programs

    A step that changes no shader and no program, creates no name and
    leaves the current program alone preserves the invariant as soon as
    its bindings name objects of the right kind. *)

Lemma kind_program_some s n : kind_at s n = Some KProgram -> is_Some (program_of s n).
Proof.
  unfold program_of, kind_at. destruct (gl_objects s !! n) as [[]|]; simpl; try discriminate; eauto.
Qed.

Lemma wf_frame_sp ns ps s s' :
  wf_but ns ps s ->
  gl_next s' = gl_next s ->
  (forall m o, gl_objects s' !! m = Some o -> is_Some (gl_objects s !! m)) ->
  (forall m, shader_of s' m = shader_of s m) ->
  (forall m, program_of s' m = program_of s m) ->
  gl_program s' = gl_program s ->
  bindings_ok s' ->
  wf_but ns ps s'.
Proof.
  intros [] Hn Hsub Hs Hp Hprog (B1 & B2 & B3 & B4 & B5). constructor; [| |
    | exact B1 | exact B2 | exact B3 | exact B4 | exact B5 | | |].
  - by rewrite Hn.
  - intros m o Ho. rewrite Hn. destruct (Hsub m o Ho) as [o' E]. eauto.
  - rewrite Hprog. destruct wf_program0 as [->|Hk]; [by left|right].
    destruct (kind_program_some _ _ Hk) as [pr Hpr]. eapply kind_program. by rewrite Hp.
  - intros p pr sh Hpr Hin. rewrite Hs. rewrite Hp in Hpr. eauto.
  - intros n sh Hns Hsh Hd. rewrite (attached_anywhere_ext s s') by done.
    rewrite Hs in Hsh. eauto.
  - intros p pr Hps Hpr Hd. rewrite Hprog. rewrite Hp in Hpr. eauto.
Qed.

(** Objects of the kinds without deletion state. *)
Definition plain_kind (k : ObjKind) : Prop := k <> KShader /\ k <> KProgram.

Lemma shader_of_plain s n : (exists k, kind_at s n = Some k /\ plain_kind k) -> shader_of s n = None.
Proof. intros (k & Hk & Hs & _). apply shader_of_not_kind. congruence. Qed.

Lemma program_of_plain s n : (exists k, kind_at s n = Some k /\ plain_kind k) -> program_of s n = None.
Proof. intros (k & Hk & _ & Hp). apply program_of_not_kind. congruence. Qed.

(** Replacing a plain object by one of the same kind. *)
Lemma wf_set_plain ns ps s n o :
  wf_but ns ps s -> kind_at s n = Some (kind o) -> plain_kind (kind o) ->
  wf_but ns ps (set_obj n o s).
Proof. intros Hwf Hk [Hs Hp]. by apply wf_set_obj_other. Qed.

(** ** Bindings *)

Lemma binding_ok_same_objects s s' k m :
  gl_objects s' = gl_objects s -> binding_ok s k m -> binding_ok s' k m.
Proof. unfold binding_ok, kind_at. by intros ->. Qed.

(** A deletion at [n] that keeps the kind of every other name keeps every
    binding that does not name [n]. *)
Lemma binding_ok_del_ne s s' n k m :
  (forall m, m <> n -> kind_at s' m = kind_at s m) -> m <> n ->
  binding_ok s k m -> binding_ok s' k m.
Proof. intros Hk Hne [->|H]; [by left | right; by rewrite Hk]. Qed.

(** ... in particular every binding of another kind than the deleted object. *)
Lemma binding_ok_del_other s s' n k k' m :
  (forall m, m <> n -> kind_at s' m = kind_at s m) -> kind_at s n = Some k' -> k' <> k ->
  binding_ok s k m -> binding_ok s' k m.
Proof.
  intros Hk Hn Hkk Hb. destruct (decide (m = n)) as [->|Hne].
  - destruct Hb as [->|Hb]; [by left | congruence].
  - eauto using binding_ok_del_ne.
Qed.

Lemma kind_framebuffer s n a : framebuffer_of s n = Some a -> kind_at s n = Some KFramebuffer.
Proof. unfold framebuffer_of, kind_at. destruct (gl_objects s !! n) as [[]|]; simpl; congruence. Qed.
Lemma kind_renderbuffer s n a : renderbuffer_of s n = Some a -> kind_at s n = Some KRenderbuffer.
Proof. unfold renderbuffer_of, kind_at. destruct (gl_objects s !! n) as [[]|]; simpl; congruence. Qed.
Lemma kind_texture s n a : texture_of s n = Some a -> kind_at s n = Some KTexture.
Proof. unfold texture_of, kind_at. destruct (gl_objects s !! n) as [[]|]; simpl; congruence. Qed.
Lemma kind_buffer s n a : buffer_of s n = Some a -> kind_at s n = Some KBuffer.
Proof. unfold buffer_of, kind_at. destruct (gl_objects s !! n) as [[]|]; simpl; congruence. Qed.

#[export] Hint Resolve kind_framebuffer kind_renderbuffer kind_texture kind_buffer : glwf.

(** The guard [n = 0 || is_some (X_of s n)] of the bind calls. *)
Lemma binding_ok_guard {A} s k n (f : GLState -> Z -> option A) :
  (forall a, f s n = Some a -> kind_at s n = Some k) ->
  (n =? 0) || is_some (f s n) = true -> binding_ok s k n.
Proof.
  intros Hf Hg. apply orb_true_iff in Hg as [Hg|Hg]; [left; lia|right].
  destruct (f s n) eqn:E; [eauto|done].
Qed.

(** A step that only moves bindings. *)
Lemma wf_bindings_only ns ps s s' :
  wf_but ns ps s ->
  gl_objects s' = gl_objects s -> gl_next s' = gl_next s -> gl_program s' = gl_program s ->
  binding_ok s KFramebuffer (gl_framebuffer s') -> binding_ok s KRenderbuffer (gl_renderbuffer s') ->
  (forall k t, gl_textures s' !! k = Some t -> binding_ok s KTexture t) ->
  (forall k b, gl_buffers s' !! k = Some b -> binding_ok s KBuffer b) ->
  binding_ok s KVertexArray (gl_vertex_array s') ->
  wf_but ns ps s'.
Proof.
  intros Hwf Ho Hn Hp B1 B2 B3 B4 B5. eapply wf_frame_sp; eauto.
  - intros m o. rewrite Ho. eauto.
  - intros m. unfold shader_of. by rewrite Ho.
  - intros m. unfold program_of. by rewrite Ho.
  - repeat split; eauto using binding_ok_same_objects.
Qed.

(** ** The entry points on framebuffers, renderbuffers and textures *)

Section PlainEntryPoints.
Context `{GLDriver} (ns ps : list Z).

(** Close the side conditions of [wf_bindings_only] the step does not touch. *)
Local Ltac wf_keep Hwf :=
  let W := fresh in pose proof Hwf as W; destruct W; simpl; try assumption.

Lemma preserves_glBindFramebuffer t n : preserves (wf_but ns ps) (glBindFramebuffer t n).
Proof.
  intros s Hwf. simpl. destruct (_ && _) eqn:E; [|done]. apply andb_true_iff in E as [_ E].
  eapply wf_bindings_only; eauto; wf_keep Hwf. apply (binding_ok_guard _ _ _ framebuffer_of); eauto with glwf.
Qed.

Lemma preserves_glBindRenderbuffer t n : preserves (wf_but ns ps) (glBindRenderbuffer t n).
Proof.
  intros s Hwf. simpl. destruct (_ && _) eqn:E; [|done]. apply andb_true_iff in E as [_ E].
  eapply wf_bindings_only; eauto; wf_keep Hwf. apply (binding_ok_guard _ _ _ renderbuffer_of); eauto with glwf.
Qed.

Lemma preserves_update_bound_framebuffer f :
  preserves (wf_but ns ps) (modify (update_bound_framebuffer f)).
Proof.
  intros s Hwf. simpl. unfold update_bound_framebuffer.
  destruct (framebuffer_of s _) eqn:E; [|done].
  apply wf_set_plain; eauto with glwf. split; discriminate.
Qed.

Lemma preserves_glFramebufferTexture2D a b c d e :
  preserves (wf_but ns ps) (glFramebufferTexture2D a b c d e).
Proof.
  intros s Hwf. simpl. destruct (_ && _) eqn:E; [|done].
  by apply (preserves_update_bound_framebuffer _ s).
Qed.

Lemma preserves_glFramebufferRenderbuffer a b c d :
  preserves (wf_but ns ps) (glFramebufferRenderbuffer a b c d).
Proof.
  intros s Hwf. simpl. destruct (_ && _) eqn:E; [|done].
  by apply (preserves_update_bound_framebuffer _ s).
Qed.

Lemma preserves_set_bound_renderbuffer st :
  preserves (wf_but ns ps) (modify (set_bound_renderbuffer st)).
Proof.
  intros s Hwf. simpl. unfold set_bound_renderbuffer.
  destruct (renderbuffer_of s _) eqn:E; [|done].
  apply wf_set_plain; eauto with glwf. split; discriminate.
Qed.

Lemma preserves_glRenderbufferStorage t f w h :
  preserves (wf_but ns ps) (glRenderbufferStorage t f w h).
Proof.
  intros s Hwf. simpl. destruct (_ && _) eqn:E; [|done].
  by apply (preserves_set_bound_renderbuffer _ s).
Qed.

Lemma preserves_glRenderbufferStorageMultisample t n f w h :
  preserves (wf_but ns ps) (glRenderbufferStorageMultisample t n f w h).
Proof.
  intros s Hwf. simpl. destruct (_ && _) eqn:E; [|done].
  by apply (preserves_set_bound_renderbuffer _ s).
Qed.

Lemma preserves_update_bound_texture t f :
  preserves (wf_but ns ps) (modify (update_bound_texture t f)).
Proof.
  intros s Hwf. simpl. unfold update_bound_texture.
  destruct (texture_of s _) eqn:E; [|done].
  apply wf_set_plain; eauto with glwf. split; discriminate.
Qed.

Lemma preserves_glTexImage2D a b c d e f g h :
  preserves (wf_but ns ps) (glTexImage2D a b c d e f g h).
Proof.
  intros s Hwf. simpl. destruct (_ && _) eqn:E; [|done].
  by apply (preserves_update_bound_texture _ _ s).
Qed.

Lemma preserves_glTexImage2DMultisample a b c d e f :
  preserves (wf_but ns ps) (glTexImage2DMultisample a b c d e f).
Proof.
  intros s Hwf. simpl. destruct (_ && _) eqn:E; [|done].
  by apply (preserves_update_bound_texture _ _ s).
Qed.

Lemma preserves_glTexParameteri a b c : preserves (wf_but ns ps) (glTexParameteri a b c).
Proof. apply preserves_update_bound_texture. Qed.

Lemma preserves_glBindTexture t n : preserves (wf_but ns ps) (glBindTexture t n).
Proof.
  intros s Hwf. simpl.
  assert (Hb : binding_ok s KTexture n -> wf_but ns ps
     {| s with gl_textures := <[(gl_active_texture s, t) := n]> (gl_textures s) |}).
  { intros Hn. eapply wf_bindings_only; eauto; wf_keep Hwf.
    intros k x. rewrite lookup_insert_Some. intros [[_ <-]|[_ Hx]]; [done|].
    by apply (wf_textures _ _ _ Hwf k). }
  destruct (Z.eqb_spec n 0) as [->|Hn0]; [apply Hb; by left|].
  destruct (texture_of s n) as [tx|] eqn:E; [|done].
  assert (Hk : binding_ok s KTexture n) by (right; eauto with glwf).
  destruct (tx_target tx) as [tg|]; [destruct (tg =? t); auto|].
  apply wf_set_plain; [auto| |split; discriminate]. eauto with glwf.
Qed.
End PlainEntryPoints.

(** ** Deleting framebuffers, renderbuffers and textures *)

Lemma shader_of_del_plain s n m k :
  kind_at s n = Some k -> plain_kind k -> shader_of (del_obj n s) m = shader_of s m.
Proof.
  intros Hk Hp. rewrite shader_of_del_obj. case_decide; [subst|done].
  symmetry. apply shader_of_plain. eauto.
Qed.

Lemma program_of_del_plain s n m k :
  kind_at s n = Some k -> plain_kind k -> program_of (del_obj n s) m = program_of s m.
Proof.
  intros Hk Hp. rewrite program_of_del_obj. case_decide; [subst|done].
  symmetry. apply program_of_plain. eauto.
Qed.

(** [update_bound_framebuffer] changes one framebuffer's attachments. *)
Ltac ubf_case := unfold update_bound_framebuffer; destruct (framebuffer_of _ _) eqn:?; try reflexivity.

Lemma kind_at_ubf f s m : kind_at (update_bound_framebuffer f s) m = kind_at s m.
Proof. ubf_case. apply kind_at_set_same. eauto with glwf. Qed.

Lemma shader_of_ubf f s m : shader_of (update_bound_framebuffer f s) m = shader_of s m.
Proof.
  ubf_case. rewrite shader_of_set_obj. case_decide; [subst|done].
  symmetry. apply shader_of_not_kind. erewrite kind_framebuffer by eauto. discriminate.
Qed.

Lemma program_of_ubf f s m : program_of (update_bound_framebuffer f s) m = program_of s m.
Proof.
  ubf_case. rewrite program_of_set_obj. case_decide; [subst|done].
  symmetry. apply program_of_not_kind. erewrite kind_framebuffer by eauto. discriminate.
Qed.

Lemma ubf_fields f s :
  gl_next (update_bound_framebuffer f s) = gl_next s /\
  gl_program (update_bound_framebuffer f s) = gl_program s /\
  gl_framebuffer (update_bound_framebuffer f s) = gl_framebuffer s /\
  gl_renderbuffer (update_bound_framebuffer f s) = gl_renderbuffer s /\
  gl_textures (update_bound_framebuffer f s) = gl_textures s /\
  gl_buffers (update_bound_framebuffer f s) = gl_buffers s /\
  gl_vertex_array (update_bound_framebuffer f s) = gl_vertex_array s.
Proof. ubf_case; repeat split. Qed.

(** The invariant after deleting the plain object [n]. *)
Lemma wf_del_plain ns ps s s' n k :
  wf_but ns ps s -> kind_at s n = Some k -> plain_kind k ->
  (forall m, kind_at s' m = if decide (n = m) then None else kind_at s m) ->
  (forall m, shader_of s' m = shader_of s m) -> (forall m, program_of s' m = program_of s m) ->
  gl_next s' = gl_next s -> gl_program s' = gl_program s -> bindings_ok s' ->
  wf_but ns ps s'.
Proof.
  intros Hwf Hk Hp Hks Hs Hpr Hn Hprog Hb. eapply wf_frame_sp; eauto.
  intros m o Ho. specialize (Hks m). unfold kind_at in Hks. rewrite Ho in Hks.
  case_decide; [done|]. unfold kind_at in Hks. destruct (gl_objects s !! m); [eauto|done].
Qed.

Lemma kind_at_del_ne s s' n :
  (forall m, kind_at s' m = if decide (n = m) then None else kind_at s m) ->
  forall m, m <> n -> kind_at s' m = kind_at s m.
Proof. intros H m Hm. rewrite H. by case_decide. Qed.

Section PlainDeletes.
Context (ns ps : list Z).

Local Ltac del_keep Hwf Hks Hk :=
  let W := fresh in pose proof Hwf as W; destruct W; simpl;
  repeat match goal with
  | |- forall _ _, _ -> _ => let k := fresh in let x := fresh in let Hx := fresh in
                             intros k x Hx
  | |- binding_ok _ ?kk _ =>
      eapply (binding_ok_del_other _ _ _ kk _ _ (kind_at_del_ne _ _ _ Hks) Hk);
      [discriminate | eauto]
  | |- _ /\ _ => split
  end.

Lemma preserves_glDeleteFramebuffers n : preserves (wf_but ns ps) (glDeleteFramebuffers n).
Proof.
  intros s Hwf. simpl. destruct (framebuffer_of s n) eqn:E; [|done].
  assert (Hk : kind_at s n = Some KFramebuffer) by eauto with glwf.
  assert (Hks : forall m, kind_at (del_obj n s) m = if decide (n = m) then None else kind_at s m)
    by apply kind_at_del_obj.
  assert (Hp : plain_kind KFramebuffer) by (split; discriminate).
  destruct (Z.eqb_spec (gl_framebuffer s) n) as [Hb|Hb].
  - eapply (wf_del_plain _ _ s _ n); eauto.
    + intros m. exact (shader_of_del_plain s n m _ Hk Hp).
    + intros m. exact (program_of_del_plain s n m _ Hk Hp).
    + unfold bindings_ok. simpl. split; [by left|]. del_keep Hwf Hks Hk.
  - eapply (wf_del_plain _ _ s _ n); eauto.
    + intros m. exact (shader_of_del_plain s n m _ Hk Hp).
    + intros m. exact (program_of_del_plain s n m _ Hk Hp).
    + unfold bindings_ok. split.
      * apply (binding_ok_del_ne s _ n); [exact (kind_at_del_ne _ _ _ Hks) | exact Hb |].
        apply (wf_framebuffer _ _ _ Hwf).
      * del_keep Hwf Hks Hk.
Qed.
(** Deleting an image detaches it from the bound framebuffer first. *)
Lemma detach_del_facts s n k :
  kind_at s n = Some k -> plain_kind k ->
  (forall m, kind_at (detach_from_bound n (del_obj n s)) m =
             if decide (n = m) then None else kind_at s m) /\
  (forall m, shader_of (detach_from_bound n (del_obj n s)) m = shader_of s m) /\
  (forall m, program_of (detach_from_bound n (del_obj n s)) m = program_of s m).
Proof.
  intros Hk Hp. unfold detach_from_bound. split; [|split]; intros m.
  - rewrite kind_at_ubf. apply kind_at_del_obj.
  - rewrite shader_of_ubf. exact (shader_of_del_plain s n m _ Hk Hp).
  - rewrite program_of_ubf. exact (program_of_del_plain s n m _ Hk Hp).
Qed.

Lemma preserves_glDeleteRenderbuffers n : preserves (wf_but ns ps) (glDeleteRenderbuffers n).
Proof.
  intros s Hwf. simpl. destruct (renderbuffer_of s n) eqn:E; [|done].
  assert (Hk : kind_at s n = Some KRenderbuffer) by eauto with glwf.
  assert (Hp : plain_kind KRenderbuffer) by (split; discriminate).
  destruct (detach_del_facts s n _ Hk Hp) as (Hks & Hsh & Hpr).
  destruct (ubf_fields (filter (fun '(_, a) => at_name a ≠ n)) (del_obj n s))
    as (F1 & F2 & F3 & F4 & F5 & F6 & F7).
  fold (detach_from_bound n (del_obj n s)) in *.
  destruct (Z.eqb_spec (gl_renderbuffer s) n) as [Hb|Hb];
    (eapply (wf_del_plain _ _ s _ n); [eauto | eauto | eauto | exact Hks | exact Hsh | exact Hpr
                                      | exact F1 | exact F2 |]);
    unfold bindings_ok; simpl; rewrite ?F3, ?F4, ?F5, ?F6, ?F7.
  - split; [del_keep Hwf Hks Hk|]. split; [by left|]. del_keep Hwf Hks Hk.
  - split; [del_keep Hwf Hks Hk|]. split.
    + apply (binding_ok_del_ne s _ n); [exact (kind_at_del_ne _ _ _ Hks) | exact Hb |].
      apply (wf_renderbuffer _ _ _ Hwf).
    + del_keep Hwf Hks Hk.
Qed.

Lemma preserves_glDeleteTextures n : preserves (wf_but ns ps) (glDeleteTextures n).
Proof.
  intros s Hwf. simpl. destruct (texture_of s n) eqn:E; [|done].
  assert (Hk : kind_at s n = Some KTexture) by eauto with glwf.
  assert (Hp : plain_kind KTexture) by (split; discriminate).
  destruct (detach_del_facts s n _ Hk Hp) as (Hks & Hsh & Hpr).
  destruct (ubf_fields (filter (fun '(_, a) => at_name a ≠ n)) (del_obj n s))
    as (F1 & F2 & F3 & F4 & F5 & F6 & F7).
  fold (detach_from_bound n (del_obj n s)) in *.
  eapply (wf_del_plain _ _ s _ n); [eauto | eauto | eauto | exact Hks | exact Hsh | exact Hpr
                                   | exact F1 | exact F2 |].
  unfold bindings_ok; simpl; rewrite ?F3, ?F4, ?F5, ?F6, ?F7.
  split; [del_keep Hwf Hks Hk|]. split; [del_keep Hwf Hks Hk|]. split; [|del_keep Hwf Hks Hk].
  intros k x. rewrite lookup_fmap. change (gl_textures (del_obj n s)) with (gl_textures s). destruct (gl_textures s !! k) as [t0|] eqn:Et; [|done].
  simpl. intros [= <-]. destruct (Z.eqb_spec t0 n) as [->|Hne]; [by left|].
  apply (binding_ok_del_ne s _ n); [exact (kind_at_del_ne _ _ _ Hks) | exact Hne |].
  by apply (wf_textures _ _ _ Hwf k).
Qed.
End PlainDeletes.

(** ** Entry points that touch no object and no binding *)

Lemma preserves_modify_frame ns ps (f : GLState -> GLState) :
  (forall s, gl_objects (f s) = gl_objects s /\ gl_next (f s) = gl_next s /\
             gl_program (f s) = gl_program s /\ gl_framebuffer (f s) = gl_framebuffer s /\
             gl_renderbuffer (f s) = gl_renderbuffer s /\ gl_textures (f s) = gl_textures s /\
             gl_buffers (f s) = gl_buffers s /\ gl_vertex_array (f s) = gl_vertex_array s) ->
  preserves (wf_but ns ps) (modify f).
Proof.
  intros Hf s Hwf. destruct (Hf s) as (H1 & H2 & H3 & H4 & H5 & H6 & H7 & H8).
  by apply (wf_frame_objects ns ps s).
Qed.

Ltac frame_fields := intros ?; repeat match goal with |- context [if ?b then _ else _] => destruct b end;
                     repeat split.

Section FrameEntryPoints.
Context `{GLDriver} (ns ps : list Z).

Lemma preserves_glActiveTexture u : preserves (wf_but ns ps) (glActiveTexture u).
Proof. apply preserves_modify_frame. frame_fields. Qed.

Lemma preserves_glPixelStorei p v : preserves (wf_but ns ps) (glPixelStorei p v).
Proof. apply preserves_modify_frame. frame_fields. Qed.

Lemma preserves_glEnable c : preserves (wf_but ns ps) (glEnable c).
Proof. apply preserves_modify_frame. frame_fields. Qed.

Lemma preserves_glDisable c : preserves (wf_but ns ps) (glDisable c).
Proof. apply preserves_modify_frame. frame_fields. Qed.

Lemma preserves_glBlitFramebuffer a b c d e f g h i j :
  preserves (wf_but ns ps) (glBlitFramebuffer a b c d e f g h i j).
Proof. apply preserves_modify_frame. frame_fields. Qed.

Lemma preserves_sys_stderr_write m : preserves (wf_but ns ps) (sys_stderr_write m).
Proof. apply preserves_modify_frame. frame_fields. Qed.

Lemma preserves_gl_gen_plain o : plain_kind (kind o) -> preserves (wf_but ns ps) (gl_gen o).
Proof. intros [Hs Hp]. apply preserves_gl_gen. destruct o; simpl in *; done. Qed.
Lemma preserves_glMaterialfv f p v : preserves (wf_but ns ps) (glMaterialfv f p v).
Proof. apply preserves_modify_frame. frame_fields. Qed.

Lemma preserves_glLightfv l p v : preserves (wf_but ns ps) (glLightfv l p v).
Proof. apply preserves_modify_frame. frame_fields. Qed.

Lemma preserves_glLightModelfv p v : preserves (wf_but ns ps) (glLightModelfv p v).
Proof. apply preserves_modify_frame. frame_fields. Qed.

Lemma preserves_glColor4f r g b a : preserves (wf_but ns ps) (glColor4f r g b a).
Proof. apply preserves_modify_frame. frame_fields. Qed.

Lemma preserves_glColorMask r g b a : preserves (wf_but ns ps) (glColorMask r g b a).
Proof. apply preserves_modify_frame. frame_fields. Qed.
End FrameEntryPoints.

#[export] Hint Resolve preserves_glBindFramebuffer preserves_glBindRenderbuffer
  preserves_glFramebufferTexture2D preserves_glFramebufferRenderbuffer
  preserves_glRenderbufferStorage preserves_glRenderbufferStorageMultisample
  preserves_glTexImage2D preserves_glTexImage2DMultisample preserves_glTexParameteri
  preserves_glBindTexture preserves_glDeleteFramebuffers preserves_glDeleteRenderbuffers
  preserves_glDeleteTextures preserves_glActiveTexture preserves_glPixelStorei
  preserves_glEnable preserves_glDisable preserves_glBlitFramebuffer
  preserves_sys_stderr_write preserves_glMaterialfv preserves_glLightfv preserves_glLightModelfv
  preserves_glColor4f preserves_glColorMask : glwf.

Section GenEntryPoints.
Context (ns ps : list Z).

Lemma preserves_glGenFramebuffers : preserves (wf_but ns ps) glGenFramebuffers.
Proof. apply preserves_gl_gen. exact I. Qed.

Lemma preserves_glGenRenderbuffers : preserves (wf_but ns ps) glGenRenderbuffers.
Proof. apply preserves_gl_gen. exact I. Qed.

Lemma preserves_glGenTextures : preserves (wf_but ns ps) glGenTextures.
Proof. apply preserves_gl_gen. exact I. Qed.

Lemma preserves_gl_query_int (q : GLM (option Z)) :
  preserves (wf_but ns ps) q -> preserves (wf_but ns ps) (gl_query_int q).
Proof. intros Hq. unfold gl_query_int. eauto with psy. Qed.
End GenEntryPoints.

#[export] Hint Resolve preserves_glGenFramebuffers preserves_glGenRenderbuffers
  preserves_glGenTextures preserves_gl_query_int : glwf.

(** Split a helper into the entry points it calls. *)
Ltac preserves_tac :=
  repeat match goal with
  | |- preserves _ (if ?b then _ else _) => destruct b
  | |- preserves _ (bind _ _) => apply preserves_bind; [|intros ?]
  | |- preserves _ (match ?x with _ => _ end) => destruct x
  | |- preserves _ _ => solve [eauto with psy glwf]
  end.

(** ** Reading back the objects just made *)

Lemma lookup_set_obj_same s n o : gl_objects (set_obj n o s) !! n = Some o.
Proof. apply lookup_insert_eq. Qed.

Lemma framebuffer_of_set_same s n o : framebuffer_of (set_obj n o s) n = as_framebuffer o.
Proof. unfold framebuffer_of. by rewrite lookup_set_obj_same. Qed.
Lemma renderbuffer_of_set_same s n o : renderbuffer_of (set_obj n o s) n = as_renderbuffer o.
Proof. unfold renderbuffer_of. by rewrite lookup_set_obj_same. Qed.
Lemma texture_of_set_same s n o : texture_of (set_obj n o s) n = as_texture o.
Proof. unfold texture_of. by rewrite lookup_set_obj_same. Qed.

(** ** Symbolic execution of the entry points

    [gl_eval] evaluates an entry point on a state given as a record: the
    entry points and the record updates are unfolded, the finite-map
    operations are kept, lookups of a name just written are resolved, and
    the tests the hypotheses decide are rewritten.  [gl_step] runs the
    first statement of a helper with it (see [bind_ex]). *)

Ltac gl_prims_unfold :=
  unfold glGenTextures, glGenRenderbuffers, glGenFramebuffers, gl_gen, glBindTexture,
    glBindRenderbuffer, glBindFramebuffer, glPixelStorei, glTexImage2D,
    glTexImage2DMultisample, glTexParameteri, glRenderbufferStorage,
    glRenderbufferStorageMultisample, set_bound_renderbuffer, gl_query_int,
    glGetIntegerv, glEnable, glDisable, glFramebufferTexture2D, glFramebufferRenderbuffer,
    update_bound_framebuffer, fb_attach, glCheckFramebufferStatus, glBlitFramebuffer,
    glDeleteFramebuffers, glDeleteRenderbuffers, glDeleteTextures, detach_from_bound,
    texture_of, renderbuffer_of, framebuffer_of, update_bound_texture, bound_texture,
    glGenBuffers, glBindBuffer, glBufferData, glGetBufferParameteriv, bound_buffer, buffer_of,
    glIsBuffer, glDeleteBuffers, glGenVertexArrays, glBindVertexArray,
    glDeleteVertexArrays, glEnableVertexAttribArray, glVertexAttribPointer, valid_pointer_size,
    glEnableClientState, gl_client_pointer, glVertexPointer, glTexCoordPointer, glNormalPointer,
    glColorPointer, glDrawArrays, glDrawElements, glFlush,
    glMaterialfv, glLightfv, glLightModelfv, glColor4f, glColorMask,
    modify, gets, ret, raise, bind, set_obj, del_obj, bump, when, lift, try_finally.

Ltac gl_eval :=
  repeat progress (try gl_prims_unfold;
    cbn -[insert lookup delete union difference singleton filter fmap map_to_list];
    rewrite ?lookup_insert_eq, ?orb_true_r, ?andb_true_r; rewrite_bools).

Ltac gl_step :=
  first [ eapply bind_ex; [gl_eval; reflexivity | cbv beta zeta]
        | eapply bind_ex_raise; [gl_eval; reflexivity | ] ].

(** ** Framebuffer completeness

    [framebuffer_status] decides completeness on the list of the
    attachments' storages (head sample count against the others); the
    abstract rule is the set-level one of section 9.4.2: at least one image
    is attached and every attached image has storage, all with one sample
    count. *)

Definition fb_complete_spec (s : GLState) (atts : gmap Z Attachment) : Prop :=
  atts ≠ ∅ /\
  exists smp, map_Forall (fun _ a => exists st, attachment_storage s a = Some st /\ st_samples st = smp) atts.

Lemma Forall2_elem_of_r {A B} (R : A -> B -> Prop) l k y :
  Forall2 R l k -> y ∈ k -> exists x, x ∈ l /\ R x y.
Proof.
  induction 1 as [|x y' l k Hxy _ IH]; [by intros ?%not_elem_of_nil|].
  intros [->|Hy]%elem_of_cons; [exists x; split; [left|done]|].
  destruct (IH Hy) as (x' & Hx' & Hr). exists x'. split; [by right|done].
Qed.

Lemma Forall2_elem_of_l {A B} (R : A -> B -> Prop) l k x :
  Forall2 R l k -> x ∈ l -> exists y, y ∈ k /\ R x y.
Proof.
  induction 1 as [|x' y l k Hxy _ IH]; [by intros ?%not_elem_of_nil|].
  intros [->|Hx]%elem_of_cons; [exists y; split; [left|done]|].
  destruct (IH Hx) as (y' & Hy' & Hr). exists y'. split; [by right|done].
Qed.

Lemma list_status_complete (f : Attachment -> option ImageStorage) (L : list Attachment) :
  match mapM f L with
  | None => GL_FRAMEBUFFER_INCOMPLETE_ATTACHMENT
  | Some [] => GL_FRAMEBUFFER_INCOMPLETE_MISSING_ATTACHMENT
  | Some (st :: sts) =>
      if forallb (fun st' => st_samples st' =? st_samples st) sts
      then GL_FRAMEBUFFER_COMPLETE else GL_FRAMEBUFFER_INCOMPLETE_MULTISAMPLE
  end = GL_FRAMEBUFFER_COMPLETE <->
  L <> [] /\ exists smp, Forall (fun a => exists st, f a = Some st /\ st_samples st = smp) L.
Proof.
  split.
  - destruct (mapM f L) as [[|st sts]|] eqn:E; try discriminate.
    destruct (forallb _ sts) eqn:Ef; [|discriminate]. intros _.
    apply mapM_Some_1 in E. rewrite forallb_forall in Ef. split.
    + intros ->. inversion E.
    + exists (st_samples st). apply Forall_forall. intros a Ha.
      destruct (Forall2_elem_of_l _ _ _ _ E Ha) as (y & Hy & Hfy). exists y. split; [done|].
      apply elem_of_cons in Hy as [->|Hy]; [done|].
      apply Z.eqb_eq, Ef. by apply list_elem_of_In.
  - intros [Hne [smp Hall]].
    destruct (mapM_is_Some_2 f L) as [k E].
    { eapply Forall_impl; [exact Hall|]. intros a (st & Hst & _). simpl. by rewrite Hst. }
    rewrite E. apply mapM_Some_1 in E.
    destruct k as [|st sts]; [inversion E; congruence|].
    assert (Hk : forall y, y ∈ st :: sts -> st_samples y = smp).
    { intros y Hy. destruct (Forall2_elem_of_r _ _ _ _ E Hy) as (x & Hx & Hfx).
      rewrite Forall_forall in Hall. destruct (Hall x Hx) as (st' & Hst' & Hs). congruence. }
    replace (forallb _ sts) with true; [done|]. symmetry. apply forallb_forall.
    intros y Hy%list_elem_of_In. apply Z.eqb_eq. rewrite !Hk; [done|left|by right].
Qed.

Lemma framebuffer_status_spec s n atts :
  n <> 0 -> framebuffer_of s n = Some atts ->
  framebuffer_status s n = GL_FRAMEBUFFER_COMPLETE <-> fb_complete_spec s atts.
Proof.
  intros Hn Ha. unfold framebuffer_status. rewrite (proj2 (Z.eqb_neq _ _) Hn), Ha.
  rewrite list_status_complete. unfold fb_complete_spec.
  rewrite <- map_to_list_empty_iff.
  assert (Hl : map snd (map_to_list atts) <> [] <-> map_to_list atts <> []).
  { split; intros H E; apply H; [by rewrite E | by destruct (map_to_list atts)]. }
  rewrite Hl. apply and_iff_compat_l. split; intros [smp Hsmp]; exists smp.
  - apply map_Forall_to_list. rewrite Forall_map in Hsmp.
    eapply Forall_impl; [exact Hsmp|]. by intros [p a].
  - apply map_Forall_to_list in Hsmp. rewrite Forall_map.
    eapply Forall_impl; [exact Hsmp|]. by intros [p a].
Qed.

(** ** The entry points on buffers and vertex arrays *)

Lemma kind_vertex_array s n : is_vertex_array s n = true -> kind_at s n = Some KVertexArray.
Proof. unfold is_vertex_array. by rewrite bool_decide_eq_true. Qed.

Section BufferEntryPoints.
Context (ns ps : list Z).

Local Ltac wf_keep Hwf :=
  let W := fresh in pose proof Hwf as W; destruct W; simpl; try assumption.

Lemma preserves_glGenBuffers : preserves (wf_but ns ps) glGenBuffers.
Proof. apply preserves_gl_gen. exact I. Qed.

Lemma preserves_glGenVertexArrays : preserves (wf_but ns ps) glGenVertexArrays.
Proof. apply preserves_gl_gen. exact I. Qed.

Lemma preserves_glBindBuffer t n : preserves (wf_but ns ps) (glBindBuffer t n).
Proof.
  intros s Hwf. simpl. destruct (_ && _) eqn:E; [|done]. apply andb_true_iff in E as [_ E].
  eapply wf_bindings_only; eauto; wf_keep Hwf.
  intros k b. rewrite lookup_insert_Some. intros [[_ <-]|[_ Hb]].
  - apply (binding_ok_guard _ _ _ buffer_of); eauto with glwf.
  - by apply (wf_buffers _ _ _ Hwf k).
Qed.

Lemma preserves_glBufferData t size usage : preserves (wf_but ns ps) (glBufferData t size usage).
Proof.
  intros s Hwf. simpl. destruct (_ && _) eqn:E; [|done].
  apply andb_true_iff in E as [_ E]. destruct (buffer_of s _) eqn:Eb; [|done].
  apply wf_set_plain; eauto with glwf. split; discriminate.
Qed.

Lemma preserves_glBindVertexArray n : preserves (wf_but ns ps) (glBindVertexArray n).
Proof.
  intros s Hwf. simpl. destruct (_ || _) eqn:E; [|done].
  eapply wf_bindings_only; eauto; wf_keep Hwf.
  apply orb_true_iff in E as [E|E]; [left; lia|right; by apply kind_vertex_array].
Qed.

Lemma preserves_glDeleteBuffers n : preserves (wf_but ns ps) (glDeleteBuffers n).
Proof.
  intros s Hwf. simpl. destruct (buffer_of s n) eqn:E; [|done].
  assert (Hk : kind_at s n = Some KBuffer) by eauto with glwf.
  assert (Hp : plain_kind KBuffer) by (split; discriminate).
  assert (Hks : forall m, kind_at (del_obj n s) m = if decide (n = m) then None else kind_at s m)
    by apply kind_at_del_obj.
  eapply (wf_del_plain _ _ s _ n); [eauto | eauto | eauto | exact Hks | | | reflexivity | reflexivity |].
  - intros m. exact (shader_of_del_plain s n m _ Hk Hp).
  - intros m. exact (program_of_del_plain s n m _ Hk Hp).
  - pose proof Hwf as W; destruct W. unfold bindings_ok; simpl.
    split; [eapply (binding_ok_del_other _ _ _ _ _ _ (kind_at_del_ne _ _ _ Hks) Hk); [discriminate|done]|].
    split; [eapply (binding_ok_del_other _ _ _ _ _ _ (kind_at_del_ne _ _ _ Hks) Hk); [discriminate|done]|].
    split; [intros k t Ht; eapply (binding_ok_del_other _ _ _ _ _ _ (kind_at_del_ne _ _ _ Hks) Hk);
            [discriminate|eauto]|].
    split; [|eapply (binding_ok_del_other _ _ _ _ _ _ (kind_at_del_ne _ _ _ Hks) Hk); [discriminate|done]].
    intros k x. rewrite lookup_fmap. change (gl_buffers (del_obj n s)) with (gl_buffers s).
    destruct (gl_buffers s !! k) as [b0|] eqn:Eb; [|done]. simpl. intros [= <-].
    destruct (Z.eqb_spec b0 n) as [->|Hne]; [by left|].
    apply (binding_ok_del_ne s _ n); [exact (kind_at_del_ne _ _ _ Hks) | exact Hne |]. eauto.
Qed.

Lemma preserves_glDeleteVertexArrays n : preserves (wf_but ns ps) (glDeleteVertexArrays n).
Proof.
  intros s Hwf. simpl. destruct (is_vertex_array s n) eqn:E; [|done].
  apply kind_vertex_array in E as Hk.
  assert (Hp : plain_kind KVertexArray) by (split; discriminate).
  assert (Hks : forall m, kind_at (del_obj n s) m = if decide (n = m) then None else kind_at s m)
    by apply kind_at_del_obj.
  pose proof Hwf as W; destruct W.
  assert (Hb : forall k, k <> KVertexArray -> forall m, binding_ok s k m ->
            binding_ok (del_obj n s) k m).
  { intros k Hkk m. eapply (binding_ok_del_other _ _ _ _ _ _ (kind_at_del_ne _ _ _ Hks) Hk). congruence. }
  destruct (Z.eqb_spec (gl_vertex_array s) n) as [Hv|Hv];
    (eapply (wf_del_plain _ _ s _ n); [eauto | eauto | eauto | exact Hks | | | reflexivity | reflexivity |]);
    try (intros m; exact (shader_of_del_plain s n m _ Hk Hp));
    try (intros m; exact (program_of_del_plain s n m _ Hk Hp));
    unfold bindings_ok; simpl; (split; [apply Hb; [discriminate|done]|]);
    (split; [apply Hb; [discriminate|done]|]);
    (split; [intros k t Ht; apply Hb; [discriminate|eauto]|]);
    (split; [intros k b Hb'; apply Hb; [discriminate|eauto]|]).
  - by left.
  - apply (binding_ok_del_ne s _ n); [exact (kind_at_del_ne _ _ _ Hks) | exact Hv | done].
Qed.

Lemma preserves_glEnableVertexAttribArray i : preserves (wf_but ns ps) (glEnableVertexAttribArray i).
Proof. apply preserves_modify_frame. frame_fields. Qed.

Lemma preserves_glVertexAttribPointer a b c d e f :
  preserves (wf_but ns ps) (glVertexAttribPointer a b c d e f).
Proof. apply preserves_modify_frame. frame_fields. Qed.

Lemma preserves_glEnableClientState c : preserves (wf_but ns ps) (glEnableClientState c).
Proof. apply preserves_modify_frame. frame_fields. Qed.

Lemma preserves_gl_client_pointer a b c d : preserves (wf_but ns ps) (gl_client_pointer a b c d).
Proof. apply preserves_modify_frame. frame_fields. Qed.

Lemma preserves_glDrawArrays a b c : preserves (wf_but ns ps) (glDrawArrays a b c).
Proof. apply preserves_modify_frame. frame_fields. Qed.

Lemma preserves_glDrawElements a b c : preserves (wf_but ns ps) (glDrawElements a b c).
Proof. apply preserves_modify_frame. frame_fields. Qed.

Lemma preserves_glFlush : preserves (wf_but ns ps) glFlush.
Proof. apply preserves_modify_frame. frame_fields. Qed.
End BufferEntryPoints.

#[export] Hint Resolve preserves_glGenBuffers preserves_glGenVertexArrays preserves_glBindBuffer
  preserves_glBufferData preserves_glBindVertexArray preserves_glDeleteBuffers
  preserves_glDeleteVertexArrays preserves_glEnableVertexAttribArray preserves_glVertexAttribPointer
  preserves_glEnableClientState preserves_gl_client_pointer preserves_glDrawArrays
  preserves_glDrawElements preserves_glFlush : glwf.
