(* ===== verification/ShaderWf.v ===== *)
(** * Deferred deletion of shaders and programs keeps the context well formed

    OpenGL 4.6, 7.3 and 7.9: deleting a shader that is still attached, or
    the program in use, only flags it; the object is freed when it is
    detached from its last program, or when another program is made
    current.  This file shows that every shader and program entry point of
    [GLContext] ([glCreateShader] to [glUseProgram], the deferred deletion
    included) preserves the invariant [wf_but] of [GLWf]. *)

From S2P Require Import Prelude GLContext GLWf.
Import GL.
Open Scope Z_scope.

(** ** Weakening the exemptions *)

Lemma wf_but_weaken ns ps ns' ps' s :
  ns ⊆ ns' -> ps ⊆ ps' -> wf_but ns ps s -> wf_but ns' ps' s.
Proof.
  intros Hn Hp Hwf. constructor; try apply Hwf.
  - intros n sh Hn' Hs Hd. apply (wf_shader_pending _ _ _ Hwf n sh); [set_solver|done|done].
  - intros p pr Hp' Hs Hd. apply (wf_program_pending _ _ _ Hwf p pr); [set_solver|done|done].
Qed.

(** ** Freeing orphaned shaders *)

Lemma lookup_release l s m :
  gl_objects (release_shaders l s) !! m =
    match gl_objects s !! m with
    | Some o => if bool_decide (m ∈ l) && orphan s m o then None else Some o
    | None => None
    end.
Proof.
  unfold release_shaders. simpl. rewrite map_lookup_filter.
  destruct (gl_objects s !! m) as [o|]; simpl; [|done].
  destruct (bool_decide (m ∈ l) && orphan s m o); by simpl.
Qed.

Lemma program_of_release l s m : program_of (release_shaders l s) m = program_of s m.
Proof.
  unfold program_of. rewrite lookup_release.
  destruct (gl_objects s !! m) as [[]|]; simpl; rewrite ?andb_false_r; try done; by destruct (_ && _).
Qed.

Lemma attached_anywhere_release l s n :
  attached_anywhere (release_shaders l s) n = attached_anywhere s n.
Proof. apply attached_anywhere_ext. apply program_of_release. Qed.

Lemma shader_of_release l s m :
  shader_of (release_shaders l s) m =
    match shader_of s m with
    | Some sh => if bool_decide (m ∈ l) && sh_delete_pending sh && negb (attached_anywhere s m)
                 then None else Some sh
    | None => None
    end.
Proof.
  unfold shader_of. rewrite lookup_release.
  destruct (gl_objects s !! m) as [[]|]; simpl; rewrite ?andb_false_r; try done.
  by rewrite andb_assoc; destruct (_ && _ && _).
Qed.

Lemma kind_at_release_other l s m k :
  kind_at s m = Some k -> k <> KShader -> kind_at (release_shaders l s) m = Some k.
Proof.
  unfold kind_at. rewrite lookup_release. destruct (gl_objects s !! m) as [o|]; [|done].
  intros [= <-] Hk. destruct o; simpl in *; rewrite ?andb_false_r; [congruence|..]; reflexivity.
Qed.

Lemma binding_ok_release l s k n :
  k <> KShader -> binding_ok s k n -> binding_ok (release_shaders l s) k n.
Proof. intros Hk [->|H]; [by left | right; by apply kind_at_release_other]. Qed.

(** Releasing the orphans among [l] discharges the exemption of [l]. *)
Lemma wf_release ns ps l s : wf_but (l ++ ns) ps s -> wf_but ns ps (release_shaders l s).
Proof.
  intros Hwf.
  assert (Hb : forall k n, k <> KShader -> binding_ok s k n -> binding_ok (release_shaders l s) k n)
    by (intros; by apply binding_ok_release).
  constructor; try (apply Hb; [discriminate|apply Hwf]).
  - apply Hwf.
  - intros n o Ho. rewrite lookup_release in Ho.
    destruct (gl_objects s !! n) eqn:E; [exact (wf_names _ _ _ Hwf _ _ E)|done].
  - intros k t Ht. apply Hb; [discriminate|eapply (wf_textures _ _ _ Hwf); eauto].
  - intros k b Hbk. apply Hb; [discriminate|eapply (wf_buffers _ _ _ Hwf); eauto].
  - intros p pr sh Hp Hin. rewrite program_of_release in Hp.
    rewrite shader_of_release.
    destruct (wf_attached _ _ _ Hwf p pr sh Hp Hin) as [x Hx]. rewrite Hx.
    assert (attached_anywhere s sh = true) by (apply attached_anywhere_spec; eauto).
    rewrite H, andb_false_r. eauto.
  - intros n sh Hn Hs Hd. rewrite attached_anywhere_release.
    rewrite shader_of_release in Hs. destruct (shader_of s n) as [sh0|] eqn:E; [|done].
    destruct (decide (n ∈ l)) as [Hl|Hl].
    + rewrite bool_decide_true in Hs by done.
      destruct (sh_delete_pending sh0) eqn:?, (attached_anywhere s n); simpl in Hs; congruence.
    + rewrite bool_decide_false in Hs by done. simpl in Hs. injection Hs as ->.
      apply (wf_shader_pending _ _ _ Hwf n sh); [set_solver|done|done].
  - intros p pr Hp Hs Hd. rewrite program_of_release in Hs. eapply (wf_program_pending _ _ _ Hwf); eauto.
Qed.

(** ** Changing one shader or one program *)

Lemma kind_at_set_shader s n sh sh' :
  shader_of s n = Some sh -> forall m, kind_at (set_obj n (OShader sh') s) m = kind_at s m.
Proof. intros E. apply kind_at_set_same. simpl. eauto with glwf. Qed.

Lemma program_of_set_shader s n sh sh' :
  shader_of s n = Some sh -> forall m, program_of (set_obj n (OShader sh') s) m = program_of s m.
Proof.
  intros E m. rewrite program_of_set_obj. case_decide; [subst|done].
  symmetry. apply program_of_not_kind. erewrite kind_shader by eauto. discriminate.
Qed.

Lemma shader_of_set_program s p pr pr' :
  program_of s p = Some pr -> forall m, shader_of (set_obj p (OProgram pr') s) m = shader_of s m.
Proof.
  intros E m. rewrite shader_of_set_obj. case_decide; [subst|done].
  symmetry. apply shader_of_not_kind. erewrite kind_program by eauto. discriminate.
Qed.

Lemma names_set_same ns ps s n o :
  wf_but ns ps s -> is_Some (gl_objects s !! n) ->
  forall m o', gl_objects (set_obj n o s) !! m = Some o' -> 0 < m < gl_next (set_obj n o s).
Proof.
  intros Hwf [o0 E] m o' Hm. rewrite lookup_set_obj in Hm. case_decide; subst.
  - exact (wf_names _ _ _ Hwf _ _ E).
  - exact (wf_names _ _ _ Hwf _ _ Hm).
Qed.

(** The bindings of a context whose kinds did not change. *)
Ltac wf_same_kinds Hwf Hk :=
  first [ eapply (binding_ok_kinds _ _ _ _ Hk); apply Hwf
        | intros ???; eapply (binding_ok_kinds _ _ _ _ Hk); eapply Hwf; eauto ].

(** Replacing shader [n]: a flag set on it must be backed by an attachment. *)
Lemma wf_set_shader ns ps s n sh sh' :
  wf_but ns ps s -> shader_of s n = Some sh ->
  (sh_delete_pending sh' = true -> n ∉ ns -> attached_anywhere s n = true) ->
  wf_but ns ps (set_obj n (OShader sh') s).
Proof.
  intros Hwf E Hflag.
  pose proof (kind_at_set_shader s n sh sh' E) as Hk.
  pose proof (program_of_set_shader s n sh sh' E) as Hp.
  assert (Ha : forall m, attached_anywhere (set_obj n (OShader sh') s) m = attached_anywhere s m)
    by (intros; by apply attached_anywhere_ext).
  assert (Hn : is_Some (gl_objects s !! n))
    by (unfold shader_of in E; destruct (gl_objects s !! n); [eauto|done]).
  constructor; try wf_same_kinds Hwf Hk.
  - apply Hwf.
  - exact (names_set_same _ _ _ _ _ Hwf Hn).
  - intros p pr x Hpr Hin. rewrite Hp in Hpr. rewrite shader_of_set_obj.
    case_decide; [by eexists|]. exact (wf_attached _ _ _ Hwf _ _ _ Hpr Hin).
  - intros m x Hm Hs Hd. rewrite Ha. rewrite shader_of_set_obj in Hs. case_decide.
    + subst. injection Hs as ->. auto.
    + exact (wf_shader_pending _ _ _ Hwf _ _ Hm Hs Hd).
  - intros p pr Hps Hpr Hd. rewrite Hp in Hpr. exact (wf_program_pending _ _ _ Hwf _ _ Hps Hpr Hd).
Qed.

(** Replacing program [p]: its new attachments are live shaders, a shader
    it drops is exempted ([ns']) until released, and a flag set on it is
    allowed only on the current program. *)
Lemma wf_set_program ns ns' ps s p pr pr' :
  wf_but ns ps s -> program_of s p = Some pr -> ns ⊆ ns' ->
  (forall sh, sh ∈ pr_attached pr' -> is_Some (shader_of s sh)) ->
  (forall m, m ∈ pr_attached pr -> m ∉ pr_attached pr' -> m ∈ ns') ->
  (pr_delete_pending pr' = true -> p ∉ ps -> p = gl_program s) ->
  wf_but ns' ps (set_obj p (OProgram pr') s).
Proof.
  intros Hwf E Hns Hatt Hdrop Hflag.
  assert (Hk : forall m, kind_at (set_obj p (OProgram pr') s) m = kind_at s m)
    by (apply kind_at_set_same; simpl; eauto with glwf).
  pose proof (shader_of_set_program s p pr pr' E) as Hs.
  assert (Hn : is_Some (gl_objects s !! p))
    by (unfold program_of in E; destruct (gl_objects s !! p); [eauto|done]).
  constructor; try wf_same_kinds Hwf Hk.
  - apply Hwf.
  - exact (names_set_same _ _ _ _ _ Hwf Hn).
  - intros q qr x Hq Hin. rewrite Hs. rewrite program_of_set_obj in Hq. case_decide.
    + subst. injection Hq as <-. auto.
    + exact (wf_attached _ _ _ Hwf _ _ _ Hq Hin).
  - intros m x Hm Hx Hd. rewrite Hs in Hx.
    assert (Hm' : m ∉ ns) by set_solver.
    pose proof (wf_shader_pending _ _ _ Hwf _ _ Hm' Hx Hd) as Ha.
    apply attached_anywhere_spec in Ha as (q & qr & Hq & Hin).
    apply attached_anywhere_spec. destruct (decide (q = p)) as [->|Hne].
    + rewrite E in Hq. injection Hq as <-. exists p, pr'. split; [apply program_of_set_program|].
      destruct (decide (m ∈ pr_attached pr')); [done|]. exfalso. apply Hm. auto.
    + exists q, qr. split; [|done]. rewrite program_of_set_obj, decide_False; auto.
  - intros q qr Hq Hqr Hd. rewrite program_of_set_obj in Hqr. case_decide.
    + subst. injection Hqr as <-. auto.
    + exact (wf_program_pending _ _ _ Hwf _ _ Hq Hqr Hd).
Qed.

(** ** Deleting a shader or a program *)

Lemma kind_at_del_only s n : forall m, m <> n -> kind_at (del_obj n s) m = kind_at s m.
Proof. intros m Hm. rewrite kind_at_del_obj. by case_decide; [subst|]. Qed.

(** The bindings of a context where only the object [n], of kind [k'], went away. *)
Ltac wf_del_bindings Hwf Hkn :=
  first [ eapply (binding_ok_del_other _ _ _ _ _ _ (kind_at_del_only _ _) Hkn); [discriminate|apply Hwf]
        | intros ???; eapply (binding_ok_del_other _ _ _ _ _ _ (kind_at_del_only _ _) Hkn);
          [discriminate|eapply Hwf; eauto] ].

Lemma names_del ns ps s n :
  wf_but ns ps s -> forall m o, gl_objects (del_obj n s) !! m = Some o -> 0 < m < gl_next (del_obj n s).
Proof.
  intros Hwf m o Hm. rewrite lookup_del_obj in Hm. case_decide; [done|].
  exact (wf_names _ _ _ Hwf _ _ Hm).
Qed.

(** A shader attached nowhere goes away at once. *)
Lemma wf_del_shader ns ps s n sh :
  wf_but ns ps s -> shader_of s n = Some sh -> attached_anywhere s n = false ->
  wf_but ns ps (del_obj n s).
Proof.
  intros Hwf E Hna. pose proof (kind_shader _ _ _ E) as Hkn.
  assert (Hp : forall m, program_of (del_obj n s) m = program_of s m).
  { intros m. rewrite program_of_del_obj. case_decide; [subst|done].
    symmetry. apply program_of_not_kind. rewrite Hkn. discriminate. }
  pose proof (attached_anywhere_false _ _ Hna) as Hnone.
  constructor; try (wf_del_bindings Hwf Hkn).
  - apply Hwf.
  - exact (names_del _ _ _ n Hwf).
  - intros p pr x Hpr Hin. rewrite Hp in Hpr. rewrite shader_of_del_obj. case_decide.
    + subst. exfalso. exact (Hnone _ _ Hpr Hin).
    + exact (wf_attached _ _ _ Hwf _ _ _ Hpr Hin).
  - intros m x Hm Hs Hd. rewrite (attached_anywhere_ext s) by done.
    rewrite shader_of_del_obj in Hs. case_decide; [done|].
    exact (wf_shader_pending _ _ _ Hwf _ _ Hm Hs Hd).
  - intros q qr Hq Hqr Hd. rewrite Hp in Hqr. exact (wf_program_pending _ _ _ Hwf _ _ Hq Hqr Hd).
Qed.

(** Deleting program [p], not the current one, exempts its shaders until
    they are released. *)
Lemma wf_del_program ns ps s p pr :
  wf_but ns (p :: ps) s -> program_of s p = Some pr -> p <> gl_program s ->
  wf_but (pr_attached pr ++ ns) ps (del_obj p s).
Proof.
  intros Hwf E Hcur. pose proof (kind_program _ _ _ E) as Hkn.
  assert (Hs : forall m, shader_of (del_obj p s) m = shader_of s m).
  { intros m. rewrite shader_of_del_obj. case_decide; [subst|done].
    symmetry. apply shader_of_not_kind. rewrite Hkn. discriminate. }
  constructor; try (wf_del_bindings Hwf Hkn).
  - apply Hwf.
  - exact (names_del _ _ _ p Hwf).
  - change (gl_program (del_obj p s)) with (gl_program s).
    destruct (wf_program _ _ _ Hwf) as [->|Hk]; [by left|right].
    rewrite kind_at_del_only; auto.
  - intros q qr x Hq Hin. rewrite Hs. rewrite program_of_del_obj in Hq. case_decide; [done|].
    exact (wf_attached _ _ _ Hwf _ _ _ Hq Hin).
  - intros m x Hm Hx Hd. rewrite Hs in Hx.
    assert (Hm' : m ∉ ns) by set_solver.
    pose proof (wf_shader_pending _ _ _ Hwf _ _ Hm' Hx Hd) as Ha.
    apply attached_anywhere_spec in Ha as (q & qr & Hq & Hin). apply attached_anywhere_spec.
    exists q, qr. rewrite program_of_del_obj. case_decide; [subst|done].
    rewrite E in Hq. injection Hq as <-. set_solver.
  - intros q qr Hq Hqr Hd. rewrite program_of_del_obj in Hqr. case_decide; [done|].
    apply (wf_program_pending _ _ _ Hwf q qr); [set_solver|done|done].
Qed.

Lemma wf_but_unexempt_program ns ps s p :
  program_of s p = None -> wf_but ns (p :: ps) s -> wf_but ns ps s.
Proof.
  intros Hp Hwf. constructor; try apply Hwf.
  intros q qr Hq Hqr Hd. destruct (decide (q = p)) as [->|Hne]; [congruence|].
  apply (wf_program_pending _ _ _ Hwf q qr); [set_solver|done|done].
Qed.

Lemma wf_free_program ns ps s p :
  wf_but ns (p :: ps) s -> p <> gl_program s -> wf_but ns ps (free_program p s).
Proof.
  intros Hwf Hcur. unfold free_program. destruct (program_of s p) as [pr|] eqn:E.
  - apply wf_release. by apply wf_del_program.
  - by apply (wf_but_unexempt_program _ _ _ p).
Qed.

(** Making [p] current: every flagged program must be [p] afterwards,
    except the exempted ones [ps']. *)
Lemma wf_set_current ns ps ps' s p :
  wf_but ns ps s -> binding_ok s KProgram p ->
  (forall q pr, q ∉ ps' -> program_of s q = Some pr -> pr_delete_pending pr = true -> q = p) ->
  wf_but ns ps' {| s with gl_program := p |}.
Proof.
  intros Hwf Hb Hflag. constructor; try apply Hwf; try exact Hb; simpl; auto.
Qed.

(** ** The shader and program entry points *)

Section ShaderEntryPoints.
Context `{GLDriver} (ns ps : list Z).

Lemma preserves_glCreateShader ty : preserves (wf_but ns ps) (glCreateShader ty).
Proof. by apply preserves_gl_gen. Qed.

Lemma preserves_glCreateProgram : preserves (wf_but ns ps) glCreateProgram.
Proof. by apply preserves_gl_gen. Qed.

Lemma preserves_glShaderSource n srcs : preserves (wf_but ns ps) (glShaderSource n srcs).
Proof. by apply preserves_update_shader. Qed.

Lemma preserves_glCompileShader n : preserves (wf_but ns ps) (glCompileShader n).
Proof. apply preserves_update_shader. intros sh. by destruct (drv_compile _ _). Qed.

Lemma preserves_glLinkProgram p : preserves (wf_but ns ps) (glLinkProgram p).
Proof. apply preserves_update_program. intros s pr. by destruct (drv_link _) as [[[? ?] ?] ?]. Qed.

Lemma preserves_glValidateProgram p : preserves (wf_but ns ps) (glValidateProgram p).
Proof. apply preserves_update_program. intros s pr. by destruct (drv_validate _ _). Qed.

Lemma preserves_glDeleteShader n : preserves (wf_but ns ps) (glDeleteShader n).
Proof.
  apply preserves_modify. intros s Hwf. destruct (shader_of s n) as [sh|] eqn:E; [|done].
  destruct (attached_anywhere s n) eqn:Ha.
  - by apply (wf_set_shader _ _ _ _ sh).
  - by apply (wf_del_shader _ _ _ _ sh).
Qed.

Lemma preserves_glDeleteProgram p : preserves (wf_but ns ps) (glDeleteProgram p).
Proof.
  apply preserves_modify. intros s Hwf. destruct (program_of s p) as [pr|] eqn:E; [|done].
  destruct (Z.eqb_spec p (gl_program s)) as [Hp|Hp].
  - apply (wf_set_program ns ns _ _ _ pr); auto.
    + intros sh Hin. exact (wf_attached _ _ _ Hwf _ _ _ E Hin).
    + intros m Hin Hnin. by exfalso.
  - apply wf_free_program; [|done]. eapply wf_but_weaken; [| |exact Hwf]; set_solver.
Qed.

Lemma preserves_glAttachShader p sh : preserves (wf_but ns ps) (glAttachShader p sh).
Proof.
  apply preserves_modify. intros s Hwf.
  destruct (program_of s p) as [pr|] eqn:E; [|done]. destruct (shader_of s sh) as [x|] eqn:Ex; [|done].
  case_bool_decide; [done|]. apply (wf_set_program ns ns _ _ _ pr); auto.
  - intros y Hin. apply elem_of_app in Hin as [Hin|Hin].
    + exact (wf_attached _ _ _ Hwf _ _ _ E Hin).
    + apply list_elem_of_singleton in Hin as ->. eauto.
  - intros m Hin Hnin. exfalso. apply Hnin. simpl. set_solver.
  - intros Hd Hps. exact (wf_program_pending _ _ _ Hwf _ _ Hps E Hd).
Qed.

Lemma preserves_glDetachShader p sh : preserves (wf_but ns ps) (glDetachShader p sh).
Proof.
  apply preserves_modify. intros s Hwf.
  destruct (program_of s p) as [pr|] eqn:E; [|done]. case_bool_decide; [|done].
  apply wf_release. apply (wf_set_program ns _ _ _ _ pr); auto.
  - set_solver.
  - intros y Hin. simpl in Hin. apply list_elem_of_filter in Hin as [_ Hin].
    exact (wf_attached _ _ _ Hwf _ _ _ E Hin).
  - intros m Hin Hnin. simpl in Hnin. destruct (decide (m = sh)) as [->|Hne]; [set_solver|].
    exfalso. apply Hnin. by apply list_elem_of_filter.
  - intros Hd Hps. exact (wf_program_pending _ _ _ Hwf _ _ Hps E Hd).
Qed.

Lemma preserves_glUseProgram p : preserves (wf_but ns ps) (glUseProgram p).
Proof.
  apply preserves_modify. intros s Hwf. cbv zeta.
  destruct ((p =? 0) || _) eqn:Hok; [|done].
  assert (Hb : binding_ok s KProgram p).
  { apply orb_true_iff in Hok as [Hz|Hl]; [left; lia|right].
    destruct (program_of s p) eqn:Ep; [eauto with glwf|done]. }
  set (prev := gl_program s).
  assert (Hold : forall q qr, q ∉ ps -> program_of s q = Some qr -> pr_delete_pending qr = true -> q = prev)
    by (intros; eapply wf_program_pending; eauto).
  destruct (program_of s prev) as [pr|] eqn:E.
  - destruct (pr_delete_pending pr && negb (prev =? p)) eqn:Hc.
    + apply andb_true_iff in Hc as [Hd Hne]. apply negb_true_iff, Z.eqb_neq in Hne.
      apply wf_free_program; [|simpl; auto].
      apply (wf_set_current ns ps); auto.
      intros q qr Hq Hqr Hdq. exfalso. apply Hq. rewrite (Hold q qr) by set_solver. set_solver.
    + apply (wf_set_current ns ps); auto. intros q qr Hq Hqr Hdq.
      pose proof (Hold q qr Hq Hqr Hdq) as ->. rewrite E in Hqr. injection Hqr as ->.
      rewrite Hdq in Hc. simpl in Hc. apply negb_false_iff, Z.eqb_eq in Hc. done.
  - apply (wf_set_current ns ps); auto. intros q qr Hq Hqr Hdq.
    pose proof (Hold q qr Hq Hqr Hdq) as ->. congruence.
Qed.

Lemma preserves_glDeleteObjectARB n : preserves (wf_but ns ps) (glDeleteObjectARB n).
Proof. apply preserves_bind; [apply preserves_glDeleteShader | intros; apply preserves_glDeleteProgram]. Qed.
End ShaderEntryPoints.

#[export] Hint Resolve preserves_glCreateShader preserves_glCreateProgram preserves_glShaderSource
  preserves_glCompileShader preserves_glLinkProgram preserves_glValidateProgram
  preserves_glDeleteShader preserves_glDeleteProgram preserves_glAttachShader
  preserves_glDetachShader preserves_glUseProgram preserves_glDeleteObjectARB : glwf.
