(* ===== verification/Images.v ===== *)
(** * Renderbuffers and textures ([gltools.py], lines 1149-1494)

    The descriptors ([Renderbuffer], [TexImage2D], [TexImage2DMultisample]
    namedtuples) as records, and the helpers that create and delete the
    images: [createRenderbuffer], [deleteRenderbuffer], [createTexImage2D],
    [createTexImage2DMultisample], [deleteTexture], with the integer query
    [getIntegerv] (line 2482) they use.  The [userData] field of every
    descriptor is a fresh empty dict no helper reads; it is left out.  Pixel
    data passed to [createTexImage2D] is not modelled (only the storage
    metadata is). *)

From S2P Require Import Prelude GLContext GLWf.
Import GL.
Open Scope Z_scope.

Record Renderbuffer := mkRenderbuffer {
  rb_id : Z; rb_target : Z; rb_width : Z; rb_height : Z;
  rb_internalFormat : Z; rb_samples : Z; rb_multiSample : bool
}.

Record TexImage2D := mkTexImage2D {
  ti_id : Z; ti_target : Z; ti_width : Z; ti_height : Z;
  ti_internalFormat : Z; ti_pixelFormat : Z; ti_dataType : Z;
  ti_unpackAlignment : Z; ti_samples : Z; ti_multisample : bool
}.

Record TexImage2DMultisample := mkTexImage2DMultisample {
  tm_id : Z; tm_target : Z; tm_width : Z; tm_height : Z;
  tm_internalFormat : Z; tm_samples : Z; tm_multisample : bool
}.

(** What the image helpers accept: one of the descriptors, or a value of
    another type (a bare integer name). *)
Inductive ImageBuffer :=
| IBTexImage2D (t : TexImage2D)
| IBTexImage2DMultisample (t : TexImage2DMultisample)
| IBRenderbuffer (r : Renderbuffer)
| IBName (n : Z).

Section Images.
Context `{GLDriver}.

Definition getIntegerv (parName : Z) : GLM Z := gl_query_int (glGetIntegerv parName).

(** The sample-count check shared by [createRenderbuffer] and
    [createTexImage2DMultisample]: [samples & (samples - 1)] is Python's
    [&] on unbounded two's complement integers. *)
Definition samples_pow2 (samples : Z) : bool := Z.land samples (samples - 1) =? 0.

Definition invalid_samples_msg (maxSamples : Z) : string :=
  "Invalid number of samples, must be <" ++ pretty maxSamples ++ ".".

Definition createRenderbuffer (width height internalFormat samples : Z) : GLM Renderbuffer :=
  do rbId <- glGenRenderbuffers;
  do! glBindRenderbuffer GL_RENDERBUFFER rbId;
  do! (if 1 <? samples then
         do maxSamples <- getIntegerv GL_MAX_SAMPLES;
         if negb (samples_pow2 samples) then
           raise (ValueError "Invalid number of samples, must be power-of-two.")
         else if maxSamples <? samples then
           raise (ValueError (invalid_samples_msg maxSamples))
         else glRenderbufferStorageMultisample GL_RENDERBUFFER samples internalFormat width height
       else glRenderbufferStorage GL_RENDERBUFFER internalFormat width height);
  do! glBindRenderbuffer GL_RENDERBUFFER 0;
  ret (mkRenderbuffer rbId GL_RENDERBUFFER width height internalFormat samples (1 <? samples)).

Definition deleteRenderbuffer (renderBuffer : Renderbuffer) : GLM unit :=
  glDeleteRenderbuffers (rb_id renderBuffer).

Definition invalid_dims_msg (width height : Z) : string :=
  "Invalid image dimensions " ++ pretty width ++ " x " ++ pretty height ++ ".".

(** [for pname, param in texParameters: glTexParameteri(target, pname, param)] *)
Definition apply_tex_parameters (target : Z) (texParameters : list (Z * Z)) : GLM unit :=
  py_for texParameters (fun '(pname, param) => glTexParameteri target pname param).

Definition createTexImage2D (width height target level internalFormat pixelFormat dataType
    unpackAlignment : Z) (texParameters : list (Z * Z)) : GLM TexImage2D :=
  if (width <=? 0) || (height <=? 0) then raise (ValueError (invalid_dims_msg width height)) else
  do! (if target =? GL_TEXTURE_RECTANGLE then
         if negb (level =? 0) then
           raise (ValueError "Invalid level for target GL_TEXTURE_RECTANGLE, must be 0.")
         else glEnable GL_TEXTURE_RECTANGLE
       else ret tt);
  do colorTexId <- glGenTextures;
  do! glBindTexture target colorTexId;
  do! glPixelStorei GL_UNPACK_ALIGNMENT unpackAlignment;
  do! glTexImage2D target level internalFormat width height 0 pixelFormat dataType;
  do! apply_tex_parameters target texParameters;
  do! glBindTexture target 0;
  ret (mkTexImage2D colorTexId target width height internalFormat pixelFormat dataType
         unpackAlignment 1 false).

Definition createTexImage2DMultisample (width height target samples internalFormat : Z)
    (texParameters : list (Z * Z)) : GLM TexImage2DMultisample :=
  if (width <=? 0) || (height <=? 0) then raise (ValueError (invalid_dims_msg width height)) else
  do maxSamples <- getIntegerv GL_MAX_SAMPLES;
  if negb (samples_pow2 samples) then
    raise (ValueError "Invalid number of samples, must be power-of-two.") else
  if (samples <=? 0) || (maxSamples <? samples) then
    raise (ValueError (invalid_samples_msg maxSamples)) else
  do colorTexId <- glGenTextures;
  do! glBindTexture target colorTexId;
  do! glTexImage2DMultisample target samples internalFormat width height GL_TRUE;
  do! apply_tex_parameters target texParameters;
  do! glBindTexture target 0;
  ret (mkTexImage2DMultisample colorTexId target width height internalFormat samples true).

(** [texture.id]: a bare name has no attribute [id]. *)
Definition image_id (b : ImageBuffer) : Result Z :=
  match b with
  | IBTexImage2D t => Ok (ti_id t)
  | IBTexImage2DMultisample t => Ok (tm_id t)
  | IBRenderbuffer r => Ok (rb_id r)
  | IBName _ => Raise (AttributeError "'int' object has no attribute 'id'")
  end.

Definition deleteTexture (texture : ImageBuffer) : GLM unit :=
  do n <- lift (image_id texture);
  glDeleteTextures n.
End Images.

(** The parameter map [glTexParameteri] leaves after the loop over
    [texParameters] (a later pair overrides an earlier one). *)
Definition set_params (l : list (Z * Z)) (m : gmap Z Z) : gmap Z Z :=
  foldl (fun m '(p, v) => <[p := v]> m) m l.

(** ** Evaluation lemmas *)

Lemma set_obj_id s n o : gl_objects s !! n = Some o -> set_obj n o s = s.
Proof. intros E. unfold set_obj. destruct s; simpl in *. f_equal. by apply insert_id. Qed.

Lemma texture_of_lookup s n t : texture_of s n = Some t -> gl_objects s !! n = Some (OTexture t).
Proof. unfold texture_of. destruct (gl_objects s !! n) as [[]|]; simpl; congruence. Qed.

Lemma update_bound_texture_run s target f t :
  texture_of s (bound_texture s target) = Some t ->
  update_bound_texture target f s = set_obj (bound_texture s target) (OTexture (f t)) s.
Proof. intros E. unfold update_bound_texture. by rewrite E. Qed.

Lemma apply_tex_parameters_run s target l t :
  texture_of s (bound_texture s target) = Some t ->
  apply_tex_parameters target l s =
    (Ok tt, set_obj (bound_texture s target)
              (OTexture {| t with tx_params := set_params l (tx_params t) |}) s).
Proof.
  revert s t. induction l as [|[p v] l IH]; intros s t Ht.
  - unfold apply_tex_parameters, py_for, ret. rewrite set_obj_id; [done|].
    apply texture_of_lookup in Ht. rewrite Ht. by destruct t.
  - change (apply_tex_parameters target ((p, v) :: l) s) with
      (bind (glTexParameteri target p v) (fun _ => apply_tex_parameters target l) s).
    unfold bind, glTexParameteri, modify. rewrite (update_bound_texture_run _ _ _ _ Ht).
    rewrite (IH _ {| t with tx_params := <[p := v]> (tx_params t) |}).
    + f_equal. apply set_obj_set_obj.
    + exact (texture_of_set_same _ _ _).
Qed.


(** ** Properties of the image helpers *)

(** Run the next statement of an image helper ([apply_tex_parameters] is
    run by its own lemma). *)
Ltac img_step :=
  lazymatch goal with
  | |- exists _, bind (apply_tex_parameters _ _) _ _ = _ /\ _ =>
      eapply bind_ex; [apply apply_tex_parameters_run; gl_eval; reflexivity | cbv beta]
  | |- exists _, bind _ _ _ = _ /\ _ => gl_step
  | |- exists _, (if _ then _ else _) _ = _ /\ _ => progress (rewrite_bools; cbn [negb andb orb])
  end.

(** Close a run: the final [return] and the observations of the final state. *)
Ltac img_done := eexists; split; [reflexivity|]; gl_eval; repeat split; auto.

Section ImageProperties.
Context `{GLDriver}.

(** C6: [createRenderbuffer] generates and binds the renderbuffer before
    checking [samples]: with an invalid sample count (more than one, not a
    power of two or above [GL_MAX_SAMPLES]) it raises [ValueError] and
    leaves behind a live renderbuffer without storage that is still bound
    to [GL_RENDERBUFFER]. *)
Lemma createRenderbuffer_bad_samples s w h f samples :
  1 < samples -> samples_pow2 samples = false \/ drv_max_samples < samples ->
  exists s', createRenderbuffer w h f samples s =
    (Raise (ValueError (if samples_pow2 samples then invalid_samples_msg drv_max_samples
                        else "Invalid number of samples, must be power-of-two.")), s') /\
  renderbuffer_of s' (gl_next s) = Some None /\ gl_renderbuffer s' = gl_next s /\
  gl_next s' = gl_next s + 1.
Proof.
  intros H1 Hbad. assert (E1 : (1 <? samples) = true) by lia.
  unfold createRenderbuffer, getIntegerv. rewrite E1. gl_step. gl_step.
  destruct (samples_pow2 samples) eqn:Ep.
  - assert (E2 : (drv_max_samples <? samples) = true) by (destruct Hbad; [done|lia]).
    gl_step. gl_eval. auto.
  - gl_step. gl_eval. auto.
Qed.
(** C7: with a valid sample count (at most one, or a power of two not above
    [GL_MAX_SAMPLES]) and non-negative dimensions, [createRenderbuffer]
    returns the descriptor of a fresh renderbuffer whose storage has the
    requested format and size (multisampled when [samples > 1]), unbinds it,
    and changes no other object. *)
Lemma createRenderbuffer_ok s w h f samples :
  samples <= 1 \/ (samples_pow2 samples = true /\ samples <= drv_max_samples) ->
  0 <= w -> 0 <= h ->
  exists s', createRenderbuffer w h f samples s =
    (Ok (mkRenderbuffer (gl_next s) GL_RENDERBUFFER w h f samples (1 <? samples)), s') /\
  renderbuffer_of s' (gl_next s) =
    Some (Some (mkStorage f w h (if 1 <? samples then samples else 0))) /\
  gl_renderbuffer s' = 0 /\ gl_next s' = gl_next s + 1 /\
  (forall m, m <> gl_next s -> gl_objects s' !! m = gl_objects s !! m).
Proof.
  intros Hs Hw Hh. assert (Ew : (0 <=? w) = true) by lia. assert (Eh : (0 <=? h) = true) by lia.
  unfold createRenderbuffer, getIntegerv.
  destruct (Z.ltb_spec 1 samples) as [H1|H1].
  - destruct Hs as [Hs|[Hp Hm]]; [lia|].
    assert (E : (drv_max_samples <? samples) = false) by lia.
    assert (E' : (samples <=? drv_max_samples) = true) by lia.
    assert (E0 : (0 <=? samples) = true) by lia.
    repeat gl_step. img_done.
    intros m Hm'. by rewrite !lookup_insert_ne by congruence.
  - repeat gl_step. img_done.
    intros m Hm'. by rewrite !lookup_insert_ne by congruence.
Qed.

(** C8: for positive dimensions, a non-negative level, and level 0 when the
    target is [GL_TEXTURE_RECTANGLE], [createTexImage2D] returns the
    descriptor of a fresh texture holding one image of the requested format
    and size at [level], with the [texParameters] applied in order, and
    leaves 0 bound to [target] on the active unit. *)
Lemma createTexImage2D_ok s w h target level ifmt pfmt dtype ua params :
  gl_wf s -> 0 < w -> 0 < h -> 0 <= level ->
  target <> GL_TEXTURE_RECTANGLE \/ level = 0 ->
  exists s', createTexImage2D w h target level ifmt pfmt dtype ua params s =
    (Ok (mkTexImage2D (gl_next s) target w h ifmt pfmt dtype ua 1 false), s') /\
  texture_of s' (gl_next s) =
    Some (mkTex (Some target) {[level := mkStorage ifmt w h 0]} (set_params params ∅)) /\
  bound_texture s' target = 0 /\ gl_next s' = gl_next s + 1.
Proof.
  intros Hwf Hw Hh Hl Ht. pose proof (wf_next _ _ _ Hwf) as Hn.
  assert (E0 : (gl_next s =? 0) = false) by lia.
  assert (E1 : (w <=? 0) || (h <=? 0) = false) by lia.
  assert (Ew : (0 <=? w) = true) by lia. assert (Eh : (0 <=? h) = true) by lia.
  assert (El : (0 <=? level) = true) by lia.
  unfold createTexImage2D. rewrite E1.
  destruct (Z.eqb_spec target GL_TEXTURE_RECTANGLE) as [->|Hne].
  - destruct Ht as [Ht| ->]; [done|].
    destruct (decide (ua ∈ [1; 2; 4; 8])); repeat img_step; img_done.
  - assert (Er : (target =? GL_TEXTURE_RECTANGLE) = false) by (by apply Z.eqb_neq).
    destruct (decide (ua ∈ [1; 2; 4; 8])); repeat img_step; img_done.
Qed.

(** [createTexImage2D] checks its arguments before touching the
    context: non-positive dimensions raise [ValueError] naming them, and a
    non-zero level for [GL_TEXTURE_RECTANGLE] raises [ValueError]; in both
    cases the context is unchanged. *)
Lemma createTexImage2D_errors s w h target level ifmt pfmt dtype ua params :
  ((w <= 0 \/ h <= 0) ->
   createTexImage2D w h target level ifmt pfmt dtype ua params s =
     (Raise (ValueError (invalid_dims_msg w h)), s)) /\
  (0 < w -> 0 < h -> target = GL_TEXTURE_RECTANGLE -> level <> 0 ->
   createTexImage2D w h target level ifmt pfmt dtype ua params s =
     (Raise (ValueError "Invalid level for target GL_TEXTURE_RECTANGLE, must be 0."), s)).
Proof.
  unfold createTexImage2D. split.
  - intros Hd. assert (E : (w <=? 0) || (h <=? 0) = true) by lia. by rewrite E.
  - intros Hw Hh -> Hl. assert (E : (w <=? 0) || (h <=? 0) = false) by lia.
    assert (El : (level =? 0) = false) by lia. rewrite E. py_simpl. by rewrite Z.eqb_refl, El.
Qed.

(** C9: [createTexImage2DMultisample] validates [samples] before generating
    a texture: a count that is not a power of two, not positive, or above
    [GL_MAX_SAMPLES] raises [ValueError] (0 passes the power-of-two test
    and is reported as above the maximum) and the context is unchanged. *)
Lemma createTexImage2DMultisample_bad_samples s w h target samples ifmt params :
  0 < w -> 0 < h ->
  samples_pow2 samples = false \/ samples <= 0 \/ drv_max_samples < samples ->
  createTexImage2DMultisample w h target samples ifmt params s =
    (Raise (ValueError (if samples_pow2 samples then invalid_samples_msg drv_max_samples
                        else "Invalid number of samples, must be power-of-two.")), s).
Proof.
  intros Hw Hh Hbad. assert (E : (w <=? 0) || (h <=? 0) = false) by lia.
  unfold createTexImage2DMultisample, getIntegerv. rewrite E. py_simpl.
  destruct (samples_pow2 samples) eqn:Ep; [|reflexivity]. simpl.
  assert (E2 : (samples <=? 0) || (drv_max_samples <? samples) = true)
    by (destruct Hbad as [?|[?|?]]; [done|lia|lia]).
  by rewrite E2.
Qed.

(** with positive dimensions and a power-of-two sample count not above
    [GL_MAX_SAMPLES], [createTexImage2DMultisample] returns the descriptor
    of a fresh texture holding one multisample image at level 0, with the
    parameters applied, and unbinds it. *)
Lemma createTexImage2DMultisample_ok s w h target samples ifmt params :
  gl_wf s -> 0 < w -> 0 < h -> 0 < samples -> samples_pow2 samples = true ->
  samples <= drv_max_samples ->
  exists s', createTexImage2DMultisample w h target samples ifmt params s =
    (Ok (mkTexImage2DMultisample (gl_next s) target w h ifmt samples true), s') /\
  texture_of s' (gl_next s) =
    Some (mkTex (Some target) {[0 := mkStorage ifmt w h samples]} (set_params params ∅)) /\
  bound_texture s' target = 0 /\ gl_next s' = gl_next s + 1.
Proof.
  intros Hwf Hw Hh Hs Hp Hm. pose proof (wf_next _ _ _ Hwf) as Hn.
  assert (E0 : (gl_next s =? 0) = false) by lia.
  assert (E1 : (w <=? 0) || (h <=? 0) = false) by lia.
  assert (E2 : (samples <=? 0) || (drv_max_samples <? samples) = false) by lia.
  assert (E3 : (0 <? samples) && (samples <=? drv_max_samples) && (0 <=? w) && (0 <=? h) = true)
    by lia.
  unfold createTexImage2DMultisample, getIntegerv. rewrite E1.
  repeat img_step. img_done.
Qed.

Lemma apply_tex_parameters_wf ns ps target l :
  preserves (wf_but ns ps) (apply_tex_parameters target l).
Proof. apply preserves_for. intros [p v]. apply preserves_glTexParameteri. Qed.

#[local] Hint Resolve apply_tex_parameters_wf : glwf.

Lemma createRenderbuffer_wf ns ps w h f samples :
  preserves (wf_but ns ps) (createRenderbuffer w h f samples).
Proof. unfold createRenderbuffer, getIntegerv. preserves_tac. Qed.

Lemma deleteRenderbuffer_wf ns ps r : preserves (wf_but ns ps) (deleteRenderbuffer r).
Proof. unfold deleteRenderbuffer. preserves_tac. Qed.

Lemma createTexImage2D_wf ns ps w h target level f pf dt ua params :
  preserves (wf_but ns ps) (createTexImage2D w h target level f pf dt ua params).
Proof. unfold createTexImage2D. preserves_tac. Qed.

Lemma createTexImage2DMultisample_wf ns ps w h target samples f params :
  preserves (wf_but ns ps) (createTexImage2DMultisample w h target samples f params).
Proof. unfold createTexImage2DMultisample, getIntegerv. preserves_tac. Qed.

Lemma deleteTexture_wf ns ps t : preserves (wf_but ns ps) (deleteTexture t).
Proof. unfold deleteTexture. preserves_tac. Qed.

End ImageProperties.

(** ** Runs on the example driver ([GL_MAX_SAMPLES] = 8) *)

Lemma createRenderbuffer_bad_samples_witness :
  1 < 3 /\ (samples_pow2 3 = false \/ @drv_max_samples example_driver < 3) /\
  exists s', @createRenderbuffer example_driver 800 600 GL_RGBA8 3 gl_init =
    (Raise (ValueError "Invalid number of samples, must be power-of-two."), s') /\
  renderbuffer_of s' 1 = Some None /\ gl_renderbuffer s' = 1 /\ gl_next s' = 2.
Proof.
  split; [lia|]. split; [left; reflexivity|].
  apply (@createRenderbuffer_bad_samples example_driver gl_init 800 600 GL_RGBA8 3);
    [lia | left; reflexivity].
Defined.

Lemma createRenderbuffer_ok_witness :
  (4 <= 1 \/ (samples_pow2 4 = true /\ 4 <= @drv_max_samples example_driver)) /\
  exists s', @createRenderbuffer example_driver 800 600 GL_DEPTH24_STENCIL8 4 gl_init =
    (Ok (mkRenderbuffer 1 GL_RENDERBUFFER 800 600 GL_DEPTH24_STENCIL8 4 true), s') /\
  renderbuffer_of s' 1 = Some (Some (mkStorage GL_DEPTH24_STENCIL8 800 600 4)) /\
  gl_renderbuffer s' = 0 /\ gl_next s' = 2 /\
  (forall m, m <> 1 -> gl_objects s' !! m = gl_objects gl_init !! m).
Proof.
  split; [right; split; [reflexivity|simpl; lia]|].
  apply (@createRenderbuffer_ok example_driver gl_init 800 600 GL_DEPTH24_STENCIL8 4);
    [right; split; [reflexivity|simpl; lia] | lia | lia].
Defined.

Lemma createTexImage2D_ok_witness :
  gl_wf gl_init /\
  exists s', createTexImage2D 1024 1024 GL_TEXTURE_2D 0 GL_RGBA8 GL_RGBA GL_FLOAT 4
               [(GL_TEXTURE_MAG_FILTER, GL_LINEAR); (GL_TEXTURE_MIN_FILTER, GL_LINEAR)] gl_init =
    (Ok (mkTexImage2D 1 GL_TEXTURE_2D 1024 1024 GL_RGBA8 GL_RGBA GL_FLOAT 4 1 false), s') /\
  texture_of s' 1 = Some (mkTex (Some GL_TEXTURE_2D) {[0 := mkStorage GL_RGBA8 1024 1024 0]}
    (set_params [(GL_TEXTURE_MAG_FILTER, GL_LINEAR); (GL_TEXTURE_MIN_FILTER, GL_LINEAR)] ∅)) /\
  bound_texture s' GL_TEXTURE_2D = 0 /\ gl_next s' = 2.
Proof.
  split; [exact gl_wf_init|].
  apply createTexImage2D_ok; [exact gl_wf_init | lia | lia | lia | left; discriminate].
Defined.

Lemma createTexImage2D_errors_witness :
  (0 <= 0 \/ 600 <= 0) /\ 0 < 800 /\ 0 < 600 /\ GL_TEXTURE_RECTANGLE <> 0 /\
  createTexImage2D 0 600 GL_TEXTURE_2D 0 GL_RGBA8 GL_RGBA GL_FLOAT 4 [] gl_init =
    (Raise (ValueError (invalid_dims_msg 0 600)), gl_init) /\
  createTexImage2D 800 600 GL_TEXTURE_RECTANGLE 1 GL_RGBA8 GL_RGBA GL_FLOAT 4 [] gl_init =
    (Raise (ValueError "Invalid level for target GL_TEXTURE_RECTANGLE, must be 0."), gl_init).
Proof.
  split; [left; lia|]. split; [lia|]. split; [lia|]. split; [discriminate|].
  destruct (createTexImage2D_errors gl_init 0 600 GL_TEXTURE_2D 0
              GL_RGBA8 GL_RGBA GL_FLOAT 4 []) as [E1 _].
  destruct (createTexImage2D_errors gl_init 800 600 GL_TEXTURE_RECTANGLE 1
              GL_RGBA8 GL_RGBA GL_FLOAT 4 []) as [_ E2].
  split; [apply E1; left; lia | apply E2; [lia | lia | reflexivity | lia]].
Defined.

Lemma createTexImage2DMultisample_bad_samples_witness :
  @createTexImage2DMultisample example_driver 800 600 GL_TEXTURE_2D_MULTISAMPLE 0 GL_RGBA8 [] gl_init =
    (Raise (ValueError (invalid_samples_msg 8)), gl_init) /\
  @createTexImage2DMultisample example_driver 800 600 GL_TEXTURE_2D_MULTISAMPLE 6 GL_RGBA8 [] gl_init =
    (Raise (ValueError "Invalid number of samples, must be power-of-two."), gl_init).
Proof.
  split.
  - apply (@createTexImage2DMultisample_bad_samples example_driver); [lia | lia | right; left; lia].
  - apply (@createTexImage2DMultisample_bad_samples example_driver); [lia | lia | left; reflexivity].
Defined.

Lemma createTexImage2DMultisample_ok_witness :
  samples_pow2 4 = true /\
  exists s', @createTexImage2DMultisample example_driver 800 600 GL_TEXTURE_2D_MULTISAMPLE 4
               GL_RGBA8 [] gl_init =
    (Ok (mkTexImage2DMultisample 1 GL_TEXTURE_2D_MULTISAMPLE 800 600 GL_RGBA8 4 true), s') /\
  texture_of s' 1 = Some (mkTex (Some GL_TEXTURE_2D_MULTISAMPLE)
                                {[0 := mkStorage GL_RGBA8 800 600 4]} (set_params [] ∅)) /\
  bound_texture s' GL_TEXTURE_2D_MULTISAMPLE = 0 /\ gl_next s' = 2.
Proof.
  split; [reflexivity|].
  apply (@createTexImage2DMultisample_ok example_driver);
    [exact gl_wf_init | lia | lia | lia | reflexivity | simpl; lia].
Defined.
