(* ===== verification/Materials.v ===== *)
(** * Materials and lights ([gltools.py], lines 1975-2233 and 2587-2746)

    [createMaterial] and [createLight] build descriptors whose parameter
    dicts hold ctypes float arrays; [useMaterial], [useLights] and
    [setAmbientLight] pass them to the fixed-function entry points
    ([glMaterialfv], [glLightfv], [glLightModelfv] of [GLContext]).  A dict
    is an association list in insertion order ([dict_set] of [Prelude]), so
    the order in which [useMaterial] sends the parameters is the code's.
    Numbers are rationals: the rounding to single precision that
    [GLfloat] performs is not modelled.  The [userData] dicts, always
    empty, are left out. *)

From S2P Require Import Prelude GLContext GLWf Images.
From Stdlib Require Import QArith.
Import GL.
Open Scope Z_scope.

(** A Python number or a tuple of numbers, as passed to the helpers. *)
Inductive PyNum := PNum (q : Q) | PSeq (l : list Q).

(** A ctypes value: [(GLfloat * n)( *l)] or [GLfloat(x)]. *)
Inductive CFloats := CArray (vals : list Q) | CFloat (v : Q).

(** The floats a pointer to the value reads. *)
Definition cfloats_values (c : CFloats) : list Q :=
  match c with CArray l => l | CFloat v => [v] end.

(** [(GLfloat * n)( *p)]: missing components are 0, extra ones raise. *)
Definition float_array (n : nat) (p : PyNum) : Result CFloats :=
  match p with
  | PSeq l => if (length l <=? n)%nat then Ok (CArray (l ++ replicate (n - length l) 0%Q))
              else Raise (IndexError "invalid index")
  | PNum _ => Raise (TypeError "argument after * must be an iterable, not float")
  end.

(** [GLfloat(p)] *)
Definition c_float (p : PyNum) : Result CFloats :=
  match p with
  | PNum q => Ok (CFloat q)
  | PSeq _ => Raise (TypeError "must be real number, not tuple")
  end.

(** [Material = namedtuple('Material', ['face', 'params', 'textures', 'userData'])] *)
Record Material := mkMaterial {
  mat_face : Z;
  mat_params : list (Z * option CFloats);
  mat_textures : list (Z * TexImage2D)
}.

Definition material_modes : list Z := [GL_AMBIENT; GL_DIFFUSE; GL_SPECULAR; GL_EMISSION; GL_SHININESS].

(** [(GL.GLfloat * 4)( *param) if mode != GL.GL_SHININESS else GL.GLfloat(param)] *)
Definition material_param (mode : Z) (param : PyNum) : Result CFloats :=
  if negb (mode =? GL_SHININESS) then float_array 4 param else c_float param.

(** The loop [for mode, param in params: matDesc.params[mode] = ...]. *)
Fixpoint set_material_params (d : list (Z * option CFloats)) (params : list (Z * PyNum))
    : Result (list (Z * option CFloats)) :=
  match params with
  | [] => Ok d
  | (mode, param) :: rest =>
      match material_param mode param with
      | Ok v => set_material_params (dict_set d mode (Some v)) rest
      | Raise e => Raise e
      end
  end.

Definition empty_slots (modes : list Z) : list (Z * option CFloats) := map (fun m => (m, None)) modes.

(** [Light = namedtuple('Light', ['params', 'userData'])] *)
Record Light := mkLight { light_params : list (Z * option CFloats) }.





(** The module-level [defaultMaterial] (line 2742), the material of the
    OpenGL specification. *)
Definition defaultMaterial_spec : list (Z * PyNum) :=
  [(GL_AMBIENT, PSeq [0.2; 0.2; 0.2; 1.0]%Q); (GL_DIFFUSE, PSeq [0.8; 0.8; 0.8; 1.0]%Q);
   (GL_SPECULAR, PSeq [0.0; 0.0; 0.0; 1.0]%Q); (GL_EMISSION, PSeq [0.0; 0.0; 0.0; 1.0]%Q);
   (GL_SHININESS, PNum 0)].

Definition defaultMaterial : Material :=
  mkMaterial GL_FRONT_AND_BACK
    (match set_material_params (empty_slots material_modes) defaultMaterial_spec with
     | Ok d => d | Raise _ => [] end) [].






Section Materials.
Context `{GLDriver}.

Definition createMaterial (params : list (Z * PyNum)) (textures : list (Z * TexImage2D)) (face : Z)
    : GLM Material :=
  do ps <- lift (set_material_params (empty_slots material_modes) params);
  match textures with
  | [] => ret (mkMaterial face ps [])
  | _ :: _ =>
      do maxTexUnits <- getIntegerv GL_MAX_COMBINED_TEXTURE_IMAGE_UNITS;
      do texs <- py_foldl (fun acc '(unit, texDesc) =>
                   if unit <=? GL_TEXTURE0 + (maxTexUnits - 1) then ret (dict_set acc unit texDesc)
                   else raise (ValueError "Invalid texture unit enum.")) [] textures;
      ret (mkMaterial face ps texs)
  end.

Definition bind_material_texture (ut : Z * TexImage2D) : GLM unit :=
  let '(unit, desc) := ut in
  do! glActiveTexture unit;
  do! glColor4f 1 1 1 1;
  do! glColorMask true true true true;
  glBindTexture GL_TEXTURE_2D (ti_id desc).

Definition useMaterial (material : option Material) (useTextures : bool) : GLM unit :=
  match material with
  | Some m =>
      do! py_for (mat_params m) (fun '(mode, param) =>
            match param with
            | Some v => glMaterialfv (mat_face m) mode (cfloats_values v)
            | None => ret tt
            end);
      if useTextures && py_nonempty (mat_textures m) then
        do! glEnable GL_TEXTURE_2D;
        py_for (mat_textures m) bind_material_texture
      else ret tt
  | None =>
      do! py_for (mat_params defaultMaterial) (fun '(mode, param) =>
            glMaterialfv GL_FRONT_AND_BACK mode (default [] (cfloats_values <$> param)));
      when useTextures
        (do! glActiveTexture GL_TEXTURE0;
         do! glBindTexture GL_TEXTURE_2D 0;
         glDisable GL_TEXTURE_2D)
  end.

Definition set_light (enumLight : Z) (light : Light) : GLM unit :=
  py_for (light_params light) (fun '(mode, value) =>
    match value with
    | Some v => glLightfv enumLight mode (cfloats_values v)
    | None => ret tt
    end).

Definition useLights (lights : option (list Light)) (setupOnly : bool) : GLM unit :=
  match lights with
  | Some ls =>
      do maxLights <- getIntegerv GL_MAX_LIGHTS;
      if maxLights <? Z.of_nat (length ls) then
        raise (IndexError "Number of lights specified > GL_MAX_LIGHTS.") else
      do! glEnable GL_NORMALIZE;
      do! py_for (py_enumerate ls) (fun '(index, light) =>
            let enumLight := GL_LIGHT0 + index in
            do! set_light enumLight light;
            when (negb setupOnly) (glEnable enumLight));
      when (negb setupOnly) (glEnable GL_LIGHTING)
  | None =>
      when (negb setupOnly)
        (do maxLights <- getIntegerv GL_MAX_LIGHTS;
         do! py_for (py_range maxLights) (fun enumLight => glDisable (GL_LIGHT0 + enumLight));
         do! glDisable GL_NORMALIZE;
         glDisable GL_LIGHTING)
  end.

Definition setAmbientLight (color : PyNum) : GLM unit :=
  do c <- lift (float_array 4 color);
  glLightModelfv GL_LIGHT_MODEL_AMBIENT (cfloats_values c).
End Materials.
(** ** Properties of the material and light helpers *)

Lemma defaultMaterial_params :
  mat_params defaultMaterial =
    [(GL_AMBIENT, Some (CArray [0.2; 0.2; 0.2; 1.0]%Q)); (GL_DIFFUSE, Some (CArray [0.8; 0.8; 0.8; 1.0]%Q));
     (GL_SPECULAR, Some (CArray [0.0; 0.0; 0.0; 1.0]%Q)); (GL_EMISSION, Some (CArray [0.0; 0.0; 0.0; 1.0]%Q));
     (GL_SHININESS, Some (CFloat 0))].
Proof. reflexivity. Qed.

Section MaterialProperties.
Context `{GLDriver}.

(** The material table after [useMaterial(None)]. *)
Lemma useMaterial_None_run s :
  (GL_TEXTURE0 <? GL_TEXTURE0 + drv_max_combined_texture_image_units) = true ->
  let s1 := fold_left (fun s x => {| s with gl_material :=
               material_update GL_FRONT_AND_BACK x.1 (default [] (cfloats_values <$> x.2)) (gl_material s) |})
              (mat_params defaultMaterial) s in
  useMaterial None true s =
    (Ok tt, {| s1 with gl_active_texture := GL_TEXTURE0;
                       gl_textures := <[(GL_TEXTURE0, GL_TEXTURE_2D) := 0]> (gl_textures s1);
                       gl_enabled := gl_enabled s1 ∖ {[GL_TEXTURE_2D]} |}).
Proof.
  intros E s1. unfold useMaterial.
  unfold bind at 1. rewrite (py_for_run _ _ (fun x s => {| s with gl_material :=
               material_update GL_FRONT_AND_BACK x.1 (default [] (cfloats_values <$> x.2)) (gl_material s) |}))
    by (intros [m p] s0; reflexivity).
  fold s1. unfold when, glActiveTexture, glBindTexture, glDisable, modify, bind, ret.
  cbn [fst snd gl_active_texture gl_textures gl_enabled]. rewrite Z.leb_refl, E. reflexivity.
Qed.

(** C28: [useMaterial(None)] with textures resets both faces' ambient,
    diffuse, specular, emission and shininess to OpenGL's initial values
    (the [defaultMaterial] parameters are the ones of the OpenGL
    specification), makes [GL_TEXTURE0] active with no 2D texture bound
    and disables [GL_TEXTURE_2D]. *)
Theorem useMaterial_default s :
  1 <= drv_max_combined_texture_image_units ->
  exists s', useMaterial None true s = (Ok tt, s') /\
  (forall face pname, face ∈ [GL_FRONT; GL_BACK] -> pname ∈ material_modes ->
     material_value s' face pname = material_value gl_init face pname) /\
  gl_active_texture s' = GL_TEXTURE0 /\
  gl_textures s' !! (GL_TEXTURE0, GL_TEXTURE_2D) = Some 0 /\ GL_TEXTURE_2D ∉ gl_enabled s'.
Proof.
  intros Hmax. assert (E : (GL_TEXTURE0 <? GL_TEXTURE0 + drv_max_combined_texture_image_units) = true)
    by (apply Z.ltb_lt; lia).
  eexists. split; [exact (useMaterial_None_run s E)|]. cbn [gl_active_texture gl_textures gl_enabled].
  split_and!; [|done|by rewrite lookup_insert_eq|set_solver].
  intros face pname Hf Hp. unfold material_value. rewrite defaultMaterial_params.
  cbn [fold_left gl_material fst snd]. unfold material_modes in Hp. elem_cases; cbn -[insert lookup];
    by simplify_map_eq.
Qed.

(** ** Lights *)

Lemma getIntegerv_max_lights s : getIntegerv GL_MAX_LIGHTS s = (Ok drv_max_lights, s).
Proof. reflexivity. Qed.

(** Folds of updates of the enabled set. *)
Lemma fold_enabled {A} (l : list A) (h : A -> gset Z -> gset Z) s s' :
  s' = fold_left (fun s x => {| s with gl_enabled := h x (gl_enabled s) |}) l s ->
  gl_enabled s' = fold_left (fun e x => h x e) l (gl_enabled s) /\
  gl_lights s' = gl_lights s /\ gl_objects s' = gl_objects s /\ gl_material s' = gl_material s.
Proof. intros ->. revert s. induction l as [|x l IH]; intros s; simpl; [done|]. exact (IH _). Qed.

Lemma elem_of_fold_difference (f : Z -> Z) (l : list Z) (e : gset Z) c :
  c ∈ fold_left (fun e i => e ∖ {[f i]}) l e <-> c ∈ e /\ c ∉ f <$> l.
Proof.
  revert e. induction l as [|i l IH]; intros e; simpl.
  - split; [intros; split; [done|apply not_elem_of_nil] | by intros []].
  - rewrite IH, elem_of_difference, elem_of_singleton, elem_of_cons. tauto.
Qed.

(** The lights [useLights(None)] switches off: [GL_LIGHT0 + i] for
    [i < GL_MAX_LIGHTS], and the [GL_NORMALIZE] and [GL_LIGHTING] flags. *)
Definition lighting_caps (maxLights : Z) (c : Z) : Prop :=
  c = GL_NORMALIZE \/ c = GL_LIGHTING \/ (GL_LIGHT0 <= c < GL_LIGHT0 + maxLights).

(** [useLights(None)] disables every light below [GL_MAX_LIGHTS],
    [GL_NORMALIZE] and [GL_LIGHTING] and leaves every other capability,
    the light parameters, the objects and the material as they were. *)
Theorem useLights_off s :
  exists s', useLights None false s = (Ok tt, s') /\
  (forall c, c ∈ gl_enabled s' <-> c ∈ gl_enabled s /\ ~ lighting_caps drv_max_lights c) /\
  gl_lights s' = gl_lights s /\ gl_objects s' = gl_objects s /\ gl_material s' = gl_material s.
Proof.
  unfold useLights, when. cbn [negb]. unfold bind at 1. rewrite getIntegerv_max_lights.
  unfold bind at 1.
  rewrite (py_for_run _ _ (fun i s => {| s with gl_enabled := gl_enabled s ∖ {[GL_LIGHT0 + i]} |}))
    by reflexivity.
  eexists. split; [reflexivity|].
  destruct (fold_enabled (py_range drv_max_lights) (fun i e => e ∖ {[GL_LIGHT0 + i]}) s _ eq_refl)
    as (He & Hl & Ho & Hm).
  cbn [gl_enabled gl_lights gl_objects gl_material]. split_and!; [|done|done|done].
  intros c. rewrite !elem_of_difference, !elem_of_singleton, He, elem_of_fold_difference.
  unfold lighting_caps, py_range. split.
  - intros [[[Hc Hn] Hnorm] Hlight]. split; [done|]. intros [->|[->|Hr]]; [done|done|].
    apply Hn. apply list_elem_of_fmap. exists (c - GL_LIGHT0). split; [lia|]. apply elem_of_seqZ. lia.
  - intros [Hc Hn]. split_and!; [done| |intros ->; apply Hn; auto..].
    intros Hin. apply list_elem_of_fmap in Hin as (i & -> & Hi). apply elem_of_seqZ in Hi.
    apply Hn. right; right. lia.
Qed.

(** The light table after [set_light]. *)
Definition set_light_table (L : Z) (light : Light) (m : gmap (Z * Z) (list Q)) : gmap (Z * Z) (list Q) :=
  fold_left (fun m '(mode, value) =>
               match value with Some v => light_update L mode (cfloats_values v) m | None => m end)
            (light_params light) m.

Lemma fold_lights_enabled {A} (l : list A) (u : A -> gmap (Z * Z) (list Q) -> gmap (Z * Z) (list Q))
    (h : A -> gset Z -> gset Z) s :
  fold_left (fun s x => {| s with gl_lights := u x (gl_lights s); gl_enabled := h x (gl_enabled s) |}) l s =
  {| s with gl_lights := fold_left (fun m x => u x m) l (gl_lights s);
            gl_enabled := fold_left (fun e x => h x e) l (gl_enabled s) |}.
Proof. revert s. induction l as [|x l IH]; intros s; simpl; [by destruct s|]. by rewrite IH. Qed.

Lemma set_light_run L light s :
  set_light L light s = (Ok tt, {| s with gl_lights := set_light_table L light (gl_lights s) |}).
Proof.
  pose (u := fun (x : Z * option CFloats) (m : gmap (Z * Z) (list Q)) =>
               let '(mode, value) := x in
               match value with Some v => light_update L mode (cfloats_values v) m | None => m end).
  unfold set_light.
  rewrite (py_for_run _ _ (fun x s => {| s with gl_lights := u x (gl_lights s);
                                              gl_enabled := id (gl_enabled s) |}))
    by (intros [m [v|]] s0; [reflexivity|by destruct s0]).
  rewrite (fold_lights_enabled _ u (fun _ => id)). do 2 f_equal.
  clear u. generalize (gl_enabled s). induction (light_params light); simpl; auto.
Qed.

Lemma useLights_Some_run ls s :
  Z.of_nat (length ls) <= drv_max_lights ->
  let s0 := {| s with gl_enabled := {[GL_NORMALIZE]} ∪ gl_enabled s |} in
  let s1 := {| s0 with
      gl_lights := fold_left (fun m x => set_light_table (GL_LIGHT0 + x.1) x.2 m)
                     (py_enumerate ls) (gl_lights s0);
      gl_enabled := fold_left (fun e x => {[GL_LIGHT0 + x.1]} ∪ e) (py_enumerate ls) (gl_enabled s0) |} in
  useLights (Some ls) false s = (Ok tt, {| s1 with gl_enabled := {[GL_LIGHTING]} ∪ gl_enabled s1 |}).
Proof.
  intros Hlen s0 s1. unfold useLights. unfold bind at 1. rewrite getIntegerv_max_lights.
  rewrite (proj2 (Z.ltb_ge _ _) Hlen). unfold bind at 1. cbn [glEnable modify].
  unfold bind at 1.
  rewrite (py_for_run _ _ (fun x s =>
             {| s with gl_lights := set_light_table (GL_LIGHT0 + x.1) x.2 (gl_lights s);
                       gl_enabled := {[GL_LIGHT0 + x.1]} ∪ gl_enabled s |}))
    by (intros [i light] s2; unfold bind; rewrite set_light_run; reflexivity).
  rewrite (fold_lights_enabled _ (fun x => set_light_table (GL_LIGHT0 + x.1) x.2)
             (fun x e => {[GL_LIGHT0 + x.1]} ∪ e)).
  reflexivity.
Qed.

(** Where [useLights] writes: light [L] only touches the keys [(L, _)]. *)
Lemma light_update_lookup_ne L mode vals m L' p :
  (L', p) <> (L, mode) -> light_update L mode vals m !! (L', p) = m !! (L', p).
Proof.
  intros Hne. unfold light_update. destruct (light_size mode); [|done].
  destruct (_ && _ && _); [|done]. by rewrite lookup_insert_ne by congruence.
Qed.

Lemma set_light_table_other L light m L' p :
  L' <> L -> set_light_table L light m !! (L', p) = m !! (L', p).
Proof.
  intros Hne. unfold set_light_table. revert m.
  induction (light_params light) as [|[mode [v|]] l IH]; intros m; simpl; [done| |apply IH].
  rewrite IH. apply light_update_lookup_ne. congruence.
Qed.

Lemma params_fold_absent L (l : list (Z * option CFloats)) m mode :
  mode ∉ l.*1 ->
  fold_left (fun m '(mode, value) =>
               match value with Some v => light_update L mode (cfloats_values v) m | None => m end) l m
    !! (L, mode) = m !! (L, mode).
Proof.
  revert m. induction l as [|[mode' [v|]] l IH]; intros m Hn; simpl in *; [done| |].
  - rewrite IH by set_solver. apply light_update_lookup_ne. intros [= ->]. set_solver.
  - apply IH. set_solver.
Qed.

Lemma params_fold_lookup L (l : list (Z * option CFloats)) m mode v k :
  NoDup l.*1 -> dict_get l mode = Some (Some v) -> light_size mode = Some k ->
  (GL_LIGHT0 <=? L) && (L <? GL_LIGHT0 + drv_max_lights) && light_value_ok mode (cfloats_values v) = true ->
  fold_left (fun m '(mode, value) =>
               match value with Some v => light_update L mode (cfloats_values v) m | None => m end) l m
    !! (L, mode) = Some (take k (cfloats_values v)).
Proof.
  intros Hnd Hget Hk Hg. revert m. induction l as [|[mode' value] l IH]; intros m; [done|].
  simpl in Hnd, Hget. apply NoDup_cons in Hnd as [Hn Hnd]. simpl.
  destruct (decide (mode = mode')) as [<-|Hne].
  - injection Hget as ->. rewrite params_fold_absent by done.
    unfold light_update. rewrite Hk, Hg. apply lookup_insert_eq.
  - by rewrite IH.
Qed.

Definition lights_table (a : Z) (ls : list Light) (m : gmap (Z * Z) (list Q)) : gmap (Z * Z) (list Q) :=
  fold_left (fun m x => set_light_table (GL_LIGHT0 + x.1) x.2 m) (enumerate_from a ls) m.

Lemma lights_table_below a ls m L p :
  L < GL_LIGHT0 + a -> lights_table a ls m !! (L, p) = m !! (L, p).
Proof.
  unfold lights_table. revert a m. induction ls as [|x ls IH]; intros a m HL; simpl; [done|].
  rewrite IH by lia. apply set_light_table_other. simpl. lia.
Qed.

Lemma lights_table_lookup a ls i light m mode v k :
  ls !! i = Some light -> NoDup (light_params light).*1 ->
  dict_get (light_params light) mode = Some (Some v) -> light_size mode = Some k ->
  0 <= a -> a + Z.of_nat (length ls) <= drv_max_lights -> light_value_ok mode (cfloats_values v) = true ->
  lights_table a ls m !! (GL_LIGHT0 + (a + Z.of_nat i), mode) = Some (take k (cfloats_values v)).
Proof.
  revert a i m. induction ls as [|x ls IH]; intros a i m Hi Hnd Hget Hk Ha Hlen Hok; [done|].
  unfold lights_table. simpl. destruct i as [|i]; simpl in Hi.
  - injection Hi as ->. fold (lights_table (a + 1) ls (set_light_table (GL_LIGHT0 + a) light m)).
    rewrite lights_table_below by lia. rewrite Z.add_0_r.
    apply params_fold_lookup; auto. rewrite Hok, andb_true_r.
    simpl in Hlen. apply andb_true_intro; split; [apply Z.leb_le | apply Z.ltb_lt]; lia.
  - replace (a + Z.of_nat (S i)) with ((a + 1) + Z.of_nat i) by lia.
    apply (IH (a + 1) i); auto; simpl in Hlen; lia.
Qed.

Lemma elem_of_lights_enabled a (ls : list Light) (e : gset Z) c :
  c ∈ fold_left (fun e x => {[GL_LIGHT0 + x.1]} ∪ e) (enumerate_from a ls) e <->
  c ∈ e \/ GL_LIGHT0 + a <= c < GL_LIGHT0 + a + Z.of_nat (length ls).
Proof.
  revert a e. induction ls as [|x ls IH]; intros a e; simpl.
  - split; [by left | intros [Hc|Hc]; [done|lia]].
  - rewrite IH, elem_of_union, elem_of_singleton. split.
    + intros [[Hc|Hc]|Hc]; [right; lia | by left | right; lia].
    + intros [Hc|Hc]; [by left; right|].
      destruct (decide (c = GL_LIGHT0 + a)); [left; by left | right; lia].
Qed.

(** C30: [useLights(lights)] with at most [GL_MAX_LIGHTS] lights, not
    [setupOnly], enables [GL_NORMALIZE], [GL_LIGHTING] and the lights
    [GL_LIGHT0 + i] for the [i] below the number of lights, and gives light
    [i] every parameter its descriptor sets (within the range OpenGL
    accepts): the descriptor's [i]-th light configures OpenGL's. *)
Theorem useLights_on ls s :
  Z.of_nat (length ls) <= drv_max_lights ->
  exists s', useLights (Some ls) false s = (Ok tt, s') /\
  (forall c, c ∈ gl_enabled s' <->
     c ∈ gl_enabled s \/ c = GL_NORMALIZE \/ c = GL_LIGHTING \/
     GL_LIGHT0 <= c < GL_LIGHT0 + Z.of_nat (length ls)) /\
  (forall i light mode v k,
     ls !! i = Some light -> NoDup (light_params light).*1 ->
     dict_get (light_params light) mode = Some (Some v) -> light_size mode = Some k ->
     light_value_ok mode (cfloats_values v) = true ->
     gl_lights s' !! (GL_LIGHT0 + Z.of_nat i, mode) = Some (take k (cfloats_values v))).
Proof.
  intros Hlen. eexists. split; [exact (useLights_Some_run ls s Hlen)|].
  cbn [gl_enabled gl_lights]. split.
  - intros c. rewrite elem_of_union, elem_of_singleton. unfold py_enumerate.
    rewrite elem_of_lights_enabled, elem_of_union, elem_of_singleton. split.
    + intros [Hc|[[Hc|Hc]|Hc]]; [right; right; by left | right; by left | by left | right; right; right; lia].
    + intros [Hc|[Hc|[Hc|Hc]]]; [right; left; by right | right; left; by left | by left | right; right; lia].
  - intros i light mode v k Hi Hnd Hget Hk Hok.
    exact (lights_table_lookup 0 ls i light (gl_lights s) mode v k Hi Hnd Hget Hk ltac:(lia) ltac:(lia) Hok).
Qed.

(** [useLights] with more lights than [GL_MAX_LIGHTS] raises
    [IndexError] before any OpenGL call. *)
Theorem useLights_too_many ls setupOnly s :
  drv_max_lights < Z.of_nat (length ls) ->
  useLights (Some ls) setupOnly s = (Raise (IndexError "Number of lights specified > GL_MAX_LIGHTS."), s).
Proof.
  intros Hlt. unfold useLights, bind at 1. rewrite getIntegerv_max_lights.
  by rewrite (proj2 (Z.ltb_lt _ _) Hlt).
Qed.

Definition texture_unit_ok (u : Z) : bool := u <=? GL_TEXTURE0 + (drv_max_combined_texture_image_units - 1).

Lemma createMaterial_textures_run params textures face ps s :
  set_material_params (empty_slots material_modes) params = Ok ps -> textures <> [] ->
  createMaterial params textures face s =
    (match fold_left (fun ot x => ot ≫= fun acc =>
                        if texture_unit_ok x.1 then Some (dict_set acc x.1 x.2) else None)
             textures (Some []) with
     | Some texs => Ok (mkMaterial face ps texs)
     | None => Raise (ValueError "Invalid texture unit enum.")
     end, s).
Proof.
  intros Hps Hne. unfold createMaterial. unfold bind at 1. cbn [lift]. rewrite Hps.
  destruct textures as [|ut textures]; [done|]. unfold bind at 1, getIntegerv, gl_query_int.
  unfold bind at 1, glGetIntegerv, gets. cbn -[py_foldl fold_left texture_unit_ok]. unfold bind.
  rewrite (py_foldl_stateless _ (fun acc x => if texture_unit_ok x.1 then Some (dict_set acc x.1 x.2) else None)
             (ValueError "Invalid texture unit enum."))
    by (intros acc [u t]; unfold texture_unit_ok; simpl; by destruct (_ <=? _)).
  by destruct (fold_left _ _ _).
Qed.

Lemma fold_texture_none (l : list (Z * TexImage2D)) :
  fold_left (fun ot x => ot ≫= fun acc => if texture_unit_ok x.1 then Some (dict_set acc x.1 x.2) else None)
    l None = None.
Proof. by induction l. Qed.

(** C29: [createMaterial] keeps the textures in a dict by unit when every
    unit is at most [GL_TEXTURE0 + GL_MAX_COMBINED_TEXTURE_IMAGE_UNITS - 1],
    and raises [ValueError] otherwise; the test has no lower bound, so a
    unit below [GL_TEXTURE0] is kept. *)
Theorem createMaterial_textures params textures face ps s :
  set_material_params (empty_slots material_modes) params = Ok ps -> textures <> [] ->
  ((forall u t, (u, t) ∈ textures -> texture_unit_ok u = true) ->
   createMaterial params textures face s =
     (Ok (mkMaterial face ps (fold_left (fun acc x => dict_set acc x.1 x.2) textures [])), s)) /\
  ((exists u t, (u, t) ∈ textures /\ texture_unit_ok u = false) ->
   createMaterial params textures face s = (Raise (ValueError "Invalid texture unit enum."), s)).
Proof.
  intros Hps Hne. rewrite (createMaterial_textures_run _ _ _ _ _ Hps Hne). split.
  - intros Hok. do 2 f_equal. generalize (@nil (Z * TexImage2D)). clear Hne.
    induction textures as [|[u t] l IH]; intros acc; [done|]. simpl.
    rewrite (Hok u t) by (by left). apply IH. intros u' t' Hin. apply (Hok u' t'). by right.
  - intros (u & t & Hin & Hbad). generalize (@nil (Z * TexImage2D)).
    clear Hne. induction textures as [|[u' t'] l IH]; intros acc; [by apply not_elem_of_nil in Hin|].
    simpl. apply elem_of_cons in Hin as [[= -> ->]|Hin].
    + rewrite Hbad. by rewrite fold_texture_none.
    + destruct (texture_unit_ok u'); [by apply IH|]. by rewrite fold_texture_none.
Qed.
End MaterialProperties.

(** ** The descriptors built by [createLight] *)





(** ** The material libraries *)






(** ** The helpers keep the context well formed *)

Section MaterialWf.
Context `{GLDriver}.

Lemma createMaterial_wf ns ps params textures face :
  preserves (wf_but ns ps) (createMaterial params textures face).
Proof.
  unfold createMaterial. apply preserves_bind; [eauto with psy|intros ?].
  destruct textures; [eauto with psy|]. apply preserves_bind; [eauto with psy glwf|intros ?].
  apply preserves_bind; [apply preserves_foldl; intros ? [? ?]; preserves_tac | eauto with psy].
Qed.

Lemma useMaterial_wf ns ps material useTextures : preserves (wf_but ns ps) (useMaterial material useTextures).
Proof.
  unfold useMaterial, bind_material_texture.
  destruct material; preserves_tac; apply preserves_for; intros [? ?]; preserves_tac.
Qed.

Lemma useLights_wf ns ps lights setupOnly : preserves (wf_but ns ps) (useLights lights setupOnly).
Proof.
  unfold useLights, set_light. destruct lights; preserves_tac;
    try (apply preserves_when; preserves_tac); apply preserves_for; intros; preserves_tac;
    try (apply preserves_for; intros [? ?]; preserves_tac).
Qed.

Lemma setAmbientLight_wf ns ps color : preserves (wf_but ns ps) (setAmbientLight color).
Proof. unfold setAmbientLight. preserves_tac. Qed.
End MaterialWf.

(** ** The helpers on the example driver *)

Section MaterialWitnesses.
#[local] Existing Instance example_driver.

Definition example_light : Light := mkLight [(GL_DIFFUSE, Some (CArray [1; 1; 1; 1]%Q))].

Definition example_texture : TexImage2D :=
  mkTexImage2D 1 GL_TEXTURE_2D 64 64 GL_RGBA GL_RGBA GL_UNSIGNED_BYTE 4 1 false.

Lemma useMaterial_default_witness :
  1 <= drv_max_combined_texture_image_units /\ exists s', useMaterial None true gl_init = (Ok tt, s') /\ gl_active_texture s' = GL_TEXTURE0.
Proof.
  assert (Hm : 1 <= drv_max_combined_texture_image_units) by (cbn; lia). split; [exact Hm|].
  destruct (useMaterial_default gl_init Hm) as (s' & Hrun & _ & Hact & _). eauto.
Defined.

Lemma useLights_on_witness :
  exists s', useLights (Some [example_light]) false gl_init = (Ok tt, s') /\ gl_lights s' !! (GL_LIGHT0, GL_DIFFUSE) = Some [1; 1; 1; 1]%Q.
Proof.
  assert (Hm : Z.of_nat (length [example_light]) <= drv_max_lights) by (cbn; lia).
  destruct (useLights_on [example_light] gl_init Hm) as (s' & Hrun & _ & Hl).
  exists s'. split; [done|].
  exact (Hl 0%nat example_light GL_DIFFUSE (CArray [1; 1; 1; 1]%Q) 4%nat eq_refl
           ltac:(vm_compute; repeat constructor; set_solver) eq_refl eq_refl eq_refl).
Defined.

Lemma useLights_too_many_witness :
  useLights (Some (repeat example_light 9)) false gl_init =
    (Raise (IndexError "Number of lights specified > GL_MAX_LIGHTS."), gl_init).
Proof. apply useLights_too_many. cbn; lia. Defined.

(** Unit [0] is below [GL_TEXTURE0] and is accepted; unit
    [GL_TEXTURE0 + 16] is past the last unit and is refused. *)
Lemma createMaterial_textures_witness :
  createMaterial [] [(0, example_texture)] GL_FRONT_AND_BACK gl_init =
    (Ok (mkMaterial GL_FRONT_AND_BACK (empty_slots material_modes) [(0, example_texture)]), gl_init) /\ createMaterial [] [(GL_TEXTURE0 + 16, example_texture)] GL_FRONT_AND_BACK gl_init =
    (Raise (ValueError "Invalid texture unit enum."), gl_init).
Proof.
  split.
  - destruct (createMaterial_textures [] [(0, example_texture)] GL_FRONT_AND_BACK _ gl_init eq_refl)
      as [Hok _]; [discriminate|].
    apply Hok. intros u t Hin. apply list_elem_of_singleton in Hin as [= -> ->]. reflexivity.
  - destruct (createMaterial_textures [] [(GL_TEXTURE0 + 16, example_texture)] GL_FRONT_AND_BACK _ gl_init
                eq_refl) as [_ Hbad]; [discriminate|].
    apply Hbad. exists (GL_TEXTURE0 + 16), example_texture. split; [by left|reflexivity].
Defined.
End MaterialWitnesses.


