(* ===== verification/ShaderDefs.v ===== *)
(** * GLSL preprocessor definitions ([gltools.py], [embedShaderSourceDefs], lines 272-383)

    A pure string transformation: one [#define] line per entry of [defs]
    (in the dict's insertion order, an association list here), inserted
    after the line of the [#version] directive or prepended when there is
    none.  Python's [str.find] is [String.index] (both give the first
    position at or after the start), slices are [String.substring].

    Values: [int] and [bool] become [str(int(v))]; a [float] is a rational
    here and [int()] truncates it toward zero; [bytes] are modelled by their
    decoded text (decoding errors of malformed UTF-8 are not modelled). *)

From S2P Require Import Prelude.
From Stdlib Require Import QArith.
Open Scope string_scope.
Open Scope Z_scope.

(** A dict key: a [str] or a value of another type. *)
Inductive DefKey :=
| KeyStr (name : string)
| KeyOther.

Inductive DefValue :=
| VInt (z : Z)
| VBool (b : bool)
| VFloat (q : Q)
| VBytes (decoded : string)
| VStr (s : string)
| VOther.

Definition dq : string := String (Ascii.ascii_of_nat 34) EmptyString.

(** [int(x)] of a float: truncation toward zero. *)
Definition py_int_of_float (q : Q) : Z := Z.quot (Qnum q) (Zpos (Qden q)).

(** The text of one value, or the exception raised for it. *)
Definition def_value_text (varName : string) (v : DefValue) : Result string :=
  match v with
  | VInt z => Ok (pretty z)
  | VBool b => Ok (if b then "1" else "0")
  | VFloat q => Ok (pretty (py_int_of_float q))
  | VBytes s => Ok s
  | VStr s => Ok s
  | VOther => Raise (TypeError ("Invalid type for value of `" ++ varName ++ "`."))
  end.

(** [#define {n} "{v}"\n] *)
Definition define_line (n v : string) : string :=
  "#define " ++ n ++ " " ++ dq ++ v ++ dq ++ nl.

(** The loop building [glslDefSrc]. *)
Fixpoint gen_defs (defs : list (DefKey * DefValue)) (acc : string) : Result string :=
  match defs with
  | [] => Ok acc
  | (KeyOther, _) :: _ => Raise (ValueError "Definition name must be type `str`.")
  | (KeyStr n, v) :: defs' =>
      match def_value_text n v with
      | Ok t => gen_defs defs' (acc ++ define_line n t)
      | Raise e => Raise e
      end
  end.

(** [s.find(sub, start)] *)
Definition py_find (s sub : string) (start : nat) : Z :=
  match String.index start sub s with Some i => Z.of_nat i | None => -1 end.

Definition embedShaderSourceDefs (shaderSrc : string) (defs : list (DefKey * DefValue)) : Result string :=
  match gen_defs defs "" with
  | Raise e => Raise e
  | Ok glslDefSrc =>
      let versionDirIdx := py_find shaderSrc "#version" 0 in
      if negb (versionDirIdx =? -1) then
        let srcSplitIdx := Z.to_nat (py_find shaderSrc nl (Z.to_nat versionDirIdx) + 1) in
        Ok (String.substring 0 srcSplitIdx shaderSrc ++ glslDefSrc ++
            String.substring srcSplitIdx (String.length shaderSrc - srcSplitIdx) shaderSrc)
      else Ok (glslDefSrc ++ shaderSrc)
  end.

(** ** String search lemmas *)

(** [String.append] is [simpl never] under stdpp; its equations hold by
    conversion. *)
Lemma str_app_cons x (a b : string) : String x a ++ b = String x (a ++ b).
Proof. reflexivity. Qed.

Lemma str_app_nil_r (a : string) : a ++ "" = a.
Proof. induction a as [|x a IH]; [reflexivity|]. rewrite str_app_cons. by rewrite IH. Qed.







(** No occurrence from 0 means no occurrence from any later start. *)
Lemma index_none_from p s n : String.index 0 p s = None -> p <> "" -> String.index n p s = None.
Proof.
  revert n. induction s as [|c s IH]; intros n H Hp; cbn [String.index] in H |- *.
  - destruct n; [destruct p; done|done].
  - destruct n; [done|].
    destruct (String.prefix p (String c s)); [done|].
    destruct (String.index 0 p s) eqn:E; [done|]. by rewrite IH.
Qed.






(** ** The [#define] lines *)

(** An entry the loop accepts, with the name and the text it writes. *)
Definition def_entry_ok (kv : DefKey * DefValue) (nt : string * string) : Prop :=
  kv.1 = KeyStr nt.1 /\ def_value_text nt.1 kv.2 = Ok nt.2.


Definition define_lines (L : list (string * string)) : string :=
  foldr (fun nt r => define_line nt.1 nt.2 ++ r) "" L.

Lemma gen_defs_ok defs L acc :
  Forall2 def_entry_ok defs L -> gen_defs defs acc = Ok (acc ++ define_lines L).
Proof.
  intros HL. revert acc. induction HL as [|[k v] [n t] defs L [Hk Hv] _ IH]; intros acc; simpl in *.
  - by rewrite str_app_nil_r.
  - subst k. rewrite Hv, IH. by rewrite str_app_assoc.
Qed.

(** ** Properties of [embedShaderSourceDefs] *)



(** Without a [#version] directive the generated lines are
    prepended to the source. *)
Theorem embedShaderSourceDefs_no_version src defs L :
  String.index 0 "#version" src = None -> Forall2 def_entry_ok defs L ->
  embedShaderSourceDefs src defs = Ok (define_lines L ++ src).
Proof.
  intros Hv HL. unfold embedShaderSourceDefs, py_find.
  rewrite (gen_defs_ok _ _ _ HL), Hv. reflexivity.
Qed.

(** C17: when no newline follows the [#version] directive (a source whose
    last line is the directive), [find] answers -1, the split index is 0,
    and the generated lines land before [#version], which GLSL requires to
    come first. *)
Theorem embedShaderSourceDefs_version_last_line src defs L :
  (exists i, String.index 0 "#version" src = Some i) -> String.index 0 nl src = None ->
  Forall2 def_entry_ok defs L ->
  embedShaderSourceDefs src defs = Ok (define_lines L ++ src).
Proof.
  intros [i Hi] Hnl HL. unfold embedShaderSourceDefs, py_find.
  rewrite (gen_defs_ok _ _ _ HL), Hi. change ("" ++ define_lines L) with (define_lines L).
  assert (Hne : (Z.of_nat i =? -1) = false) by (apply Z.eqb_neq; lia). rewrite Hne. simpl negb. cbv iota.
  rewrite Nat2Z.id, (index_none_from _ _ _ Hnl) by discriminate. simpl.
  rewrite Nat.sub_0_r, substring_full. by destruct src.
Qed.

(** ** Runs *)

Definition example_defs : list (DefKey * DefValue) :=
  [(KeyStr "MAX_LIGHTS", VInt 8); (KeyStr "NORMAL_MAP", VBool false); (KeyStr "GAIN", VFloat (Qmake (-27) 10))].

Definition example_lines : list (string * string) :=
  [("MAX_LIGHTS", "8"); ("NORMAL_MAP", "0"); ("GAIN", "-2")].



Lemma embedShaderSourceDefs_no_version_witness :
  embedShaderSourceDefs "void main() {}" example_defs =
    Ok (define_lines example_lines ++ "void main() {}").
Proof.
  apply embedShaderSourceDefs_no_version; [reflexivity|]. repeat constructor; reflexivity.
Defined.

Lemma embedShaderSourceDefs_version_last_line_witness :
  embedShaderSourceDefs "#version 330 core" example_defs =
    Ok (define_lines example_lines ++ "#version 330 core").
Proof.
  apply embedShaderSourceDefs_version_last_line; [exists 0%nat; reflexivity | reflexivity |].
  repeat constructor; reflexivity.
Defined.
