(* ===== verification/Framebuffers.v ===== *)
(** * Framebuffer helpers ([gltools.py], lines 866-1147)

    The [Framebuffer] namedtuple, [createFBO], [attach], [isComplete],
    [deleteFBO], [blitFBO] and the [useFBO] context manager.  [useFBO] is a
    generator-based context manager; a [with useFBO(fbo) as name: body]
    statement is the combinator [useFBO fbo body]: the binding is read, the
    framebuffer bound, and the previous binding restored in the [finally]
    clause on every outcome of [body]. *)

From S2P Require Import Prelude GLContext GLWf Images.
Import GL.
Open Scope Z_scope.

Record Framebuffer := mkFramebuffer { fb_id : Z; fb_target : Z }.

(** [fbo] arguments: a descriptor or a bare integer name. *)
Inductive FboArg :=
| FboDesc (f : Framebuffer)
| FboName (n : Z).

(** [fbo.id if isinstance(fbo, Framebuffer) else int(fbo)] *)
Definition fbo_name (fbo : FboArg) : Z :=
  match fbo with FboDesc f => fb_id f | FboName n => n end.

Section Framebuffers.
Context `{GLDriver}.

Definition useFBO {A} (fbo : FboArg) (body : Z -> GLM A) : GLM A :=
  do prevFBO <- gl_query_int (glGetIntegerv GL_FRAMEBUFFER_BINDING);
  let toBind := fbo_name fbo in
  do! glBindFramebuffer GL_FRAMEBUFFER toBind;
  try_finally (body toBind) (glBindFramebuffer GL_FRAMEBUFFER prevFBO).

Definition attach (attachPoint : Z) (imageBuffer : ImageBuffer) : GLM unit :=
  match imageBuffer with
  | IBTexImage2D t =>
      glFramebufferTexture2D GL_FRAMEBUFFER attachPoint (ti_target t) (ti_id t) 0
  | IBTexImage2DMultisample t =>
      glFramebufferTexture2D GL_FRAMEBUFFER attachPoint (tm_target t) (tm_id t) 0
  | IBRenderbuffer r =>
      glFramebufferRenderbuffer GL_FRAMEBUFFER attachPoint (rb_target r) (rb_id r)
  | IBName _ => ret tt
  end.

(** [for attachPoint, imageBuffer in attachments: attach(...)] *)
Definition attach_all (attachments : list (Z * ImageBuffer)) : GLM unit :=
  py_for attachments (fun '(attachPoint, imageBuffer) => attach attachPoint imageBuffer).

Definition createFBO (attachments : list (Z * ImageBuffer)) : GLM Framebuffer :=
  do fboId <- glGenFramebuffers;
  let fboDesc := mkFramebuffer fboId GL_FRAMEBUFFER in
  do! (match attachments with
       | [] => ret tt
       | _ :: _ => useFBO (FboDesc fboDesc) (fun _ => attach_all attachments)
       end);
  ret fboDesc.

Definition isComplete : GLM bool :=
  do status <- glCheckFramebufferStatus GL_FRAMEBUFFER;
  ret (status =? GL_FRAMEBUFFER_COMPLETE).

(** [glDeleteFramebuffers] takes a [GLuint *]: ctypes passes a descriptor's
    [GLuint] by reference but refuses a Python [int]. *)
Definition deleteFBO (fbo : FboArg) : GLM unit :=
  match fbo with
  | FboDesc f => glDeleteFramebuffers (fb_id f)
  | FboName _ => raise uint_pointer_error
  end.

Definition blitFBO (srcRect : list Z) (dstRect : option (list Z)) (filter : Z) : GLM unit :=
  let dstRect := default srcRect dstRect in
  do x0 <- lift (py_getitem srcRect 0); do y0 <- lift (py_getitem srcRect 1);
  do x1 <- lift (py_getitem srcRect 2); do y1 <- lift (py_getitem srcRect 3);
  do u0 <- lift (py_getitem dstRect 0); do v0 <- lift (py_getitem dstRect 1);
  do u1 <- lift (py_getitem dstRect 2); do v1 <- lift (py_getitem dstRect 3);
  glBlitFramebuffer x0 y0 x1 y1 u0 v0 u1 v1 GL_COLOR_BUFFER_BIT filter.
End Framebuffers.

(** The attachments [attach] makes on the bound framebuffer. *)
Definition attach_image (p : Z) (b : ImageBuffer) (atts : gmap Z Attachment) : gmap Z Attachment :=
  match b with
  | IBTexImage2D t => fb_attach p (ti_target t) (ti_id t) atts
  | IBTexImage2DMultisample t => fb_attach p (tm_target t) (tm_id t) atts
  | IBRenderbuffer r => fb_attach p (rb_target r) (rb_id r) atts
  | IBName _ => atts
  end.

Definition attach_map (l : list (Z * ImageBuffer)) (atts : gmap Z Attachment) : gmap Z Attachment :=
  foldl (fun m '(p, b) => attach_image p b m) atts l.

(** The image names a live image of its kind (or is 0): the condition under
    which the [glFramebuffer*] call [attach] makes is valid. *)
Definition image_ok (s : GLState) (b : ImageBuffer) : bool :=
  match b with
  | IBTexImage2D t => (ti_id t =? 0) || is_some (texture_of s (ti_id t))
  | IBTexImage2DMultisample t => (tm_id t =? 0) || is_some (texture_of s (tm_id t))
  | IBRenderbuffer r =>
      (rb_target r =? GL_RENDERBUFFER) && ((rb_id r =? 0) || is_some (renderbuffer_of s (rb_id r)))
  | IBName _ => true
  end.

Definition images_ok (s : GLState) (l : list (Z * ImageBuffer)) : bool :=
  forallb (fun '(_, b) => image_ok s b) l.

(** ** Properties of the framebuffer helpers *)

Lemma framebuffer_of_kind s n :
  kind_at s n = Some KFramebuffer -> is_Some (framebuffer_of s n).
Proof.
  unfold framebuffer_of, kind_at. destruct (gl_objects s !! n) as [[]|]; simpl; try discriminate; eauto.
Qed.

(** The bind at the end of [useFBO] succeeds on a live name. *)
Lemma fb_guard_true s n :
  binding_ok s KFramebuffer n -> (n =? 0) || is_some (framebuffer_of s n) = true.
Proof.
  intros [->|Hk]; [done|]. destruct (framebuffer_of_kind _ _ Hk) as [a Ha].
  rewrite Ha. apply orb_true_r.
Qed.

Lemma glBindFramebuffer_ok s n :
  binding_ok s KFramebuffer n ->
  glBindFramebuffer GL_FRAMEBUFFER n s = (Ok tt, {| s with gl_framebuffer := n |}).
Proof. intros Hb. unfold glBindFramebuffer, modify. by rewrite Z.eqb_refl, (fb_guard_true _ _ Hb). Qed.

Section FramebufferProperties.
Context `{GLDriver}.

(** C10: [useFBO] restores the framebuffer binding it found, whatever the
    body returns or raises, as long as the previously bound framebuffer
    still exists when the body ends; the outcome of the [with] block is the
    outcome of the body. *)
Lemma useFBO_restores {A} s fbo (body : Z -> GLM A) :
  binding_ok (snd (body (fbo_name fbo) (snd (glBindFramebuffer GL_FRAMEBUFFER (fbo_name fbo) s))))
             KFramebuffer (gl_framebuffer s) ->
  fst (useFBO fbo body s) =
    fst (body (fbo_name fbo) (snd (glBindFramebuffer GL_FRAMEBUFFER (fbo_name fbo) s))) /\
  gl_framebuffer (snd (useFBO fbo body s)) = gl_framebuffer s.
Proof.
  intros Hb. unfold useFBO, gl_query_int, glGetIntegerv. py_simpl.
  destruct (glBindFramebuffer GL_FRAMEBUFFER (fbo_name fbo) s) as [r1 s1] eqn:E1.
  assert (r1 = Ok tt) as -> by (revert E1; unfold glBindFramebuffer, modify; congruence).
  simpl in *. destruct (body (fbo_name fbo) s1) as [r2 s2]. simpl in *.
  rewrite (fb_guard_true _ _ Hb). done.
Qed.
End FramebufferProperties.

(** ** Running [attach] and [useFBO] *)

Lemma texture_of_set_fb s f a n :
  is_Some (framebuffer_of s f) -> texture_of (set_obj f (OFramebuffer a) s) n = texture_of s n.
Proof.
  intros [a0 Ha]. unfold texture_of. rewrite lookup_set_obj. case_decide; [subst|done].
  unfold framebuffer_of in Ha. destruct (gl_objects s !! n) as [[]|]; simpl in *; congruence.
Qed.

Lemma renderbuffer_of_set_fb s f a n :
  is_Some (framebuffer_of s f) ->
  renderbuffer_of (set_obj f (OFramebuffer a) s) n = renderbuffer_of s n.
Proof.
  intros [a0 Ha]. unfold renderbuffer_of. rewrite lookup_set_obj. case_decide; [subst|done].
  unfold framebuffer_of in Ha. destruct (gl_objects s !! n) as [[]|]; simpl in *; congruence.
Qed.

Lemma image_ok_set_fb s f a b :
  is_Some (framebuffer_of s f) -> image_ok (set_obj f (OFramebuffer a) s) b = image_ok s b.
Proof.
  intros Hf. destruct b; simpl; by rewrite ?texture_of_set_fb, ?renderbuffer_of_set_fb.
Qed.

Lemma images_ok_set_fb s f a l :
  is_Some (framebuffer_of s f) -> images_ok (set_obj f (OFramebuffer a) s) l = images_ok s l.
Proof.
  intros Hf. unfold images_ok. induction l as [|[p b] l IH]; simpl; [done|].
  by rewrite image_ok_set_fb, IH.
Qed.

Lemma attach_run s p b atts :
  framebuffer_of s (gl_framebuffer s) = Some atts -> image_ok s b = true ->
  attach p b s = (Ok tt, set_obj (gl_framebuffer s) (OFramebuffer (attach_image p b atts)) s).
Proof.
  intros Hf Hb. destruct b as [t|t|r|n]; simpl in *.
  - unfold glFramebufferTexture2D, modify, update_bound_framebuffer.
    rewrite Z.eqb_refl, Hb. simpl. by rewrite Hf.
  - unfold glFramebufferTexture2D, modify, update_bound_framebuffer.
    rewrite Z.eqb_refl, Hb. simpl. by rewrite Hf.
  - unfold glFramebufferRenderbuffer, modify, update_bound_framebuffer.
    rewrite Z.eqb_refl. simpl. rewrite Hb. by rewrite Hf.
  - rewrite set_obj_id; [done|]. unfold framebuffer_of in Hf.
    destruct (gl_objects s !! gl_framebuffer s) as [[]|]; simpl in *; congruence.
Qed.

Lemma attach_all_run s l atts :
  framebuffer_of s (gl_framebuffer s) = Some atts -> images_ok s l = true ->
  attach_all l s = (Ok tt, set_obj (gl_framebuffer s) (OFramebuffer (attach_map l atts)) s).
Proof.
  revert s atts. induction l as [|[p b] l IH]; intros s atts Hf Hl.
  - unfold attach_all, py_for, ret. rewrite set_obj_id; [done|]. unfold framebuffer_of in Hf.
    destruct (gl_objects s !! gl_framebuffer s) as [[]|]; simpl in *; congruence.
  - simpl in Hl. apply andb_true_iff in Hl as [Hb Hl].
    change (attach_all ((p, b) :: l) s) with (bind (attach p b) (fun _ => attach_all l) s).
    unfold bind. rewrite (attach_run _ _ _ _ Hf Hb).
    rewrite (IH _ (attach_image p b atts)).
    + f_equal. apply set_obj_set_obj.
    + exact (framebuffer_of_set_same _ _ _).
    + rewrite images_ok_set_fb; [done|]. eauto.
Qed.

Section FboRun.
Context `{GLDriver}.

Lemma useFBO_run {A} s fbo (body : Z -> GLM A) r s2 :
  binding_ok s KFramebuffer (fbo_name fbo) ->
  body (fbo_name fbo) {| s with gl_framebuffer := fbo_name fbo |} = (r, s2) ->
  binding_ok s2 KFramebuffer (gl_framebuffer s) ->
  useFBO fbo body s = (r, {| s2 with gl_framebuffer := gl_framebuffer s |}).
Proof.
  intros Hb Hbody Hb2.
  assert (Hq : gl_query_int (glGetIntegerv GL_FRAMEBUFFER_BINDING) s = (Ok (gl_framebuffer s), s))
    by reflexivity.
  unfold useFBO, bind at 1. rewrite Hq. unfold bind. rewrite (glBindFramebuffer_ok _ _ Hb).
  unfold try_finally. rewrite Hbody. by rewrite (glBindFramebuffer_ok _ _ Hb2).
Qed.
End FboRun.

(** Images named in a well-formed context survive the creation of a new
    object under the next name. *)
Lemma image_ok_fresh ns ps s o b :
  wf_but ns ps s -> image_ok s b = true -> image_ok (set_obj (gl_next s) o (bump s)) b = true.
Proof.
  intros Hwf Hb.
  assert (Ht : forall n, is_some (texture_of s n) = true ->
            texture_of (set_obj (gl_next s) o (bump s)) n = texture_of s n).
  { intros n Hn. unfold texture_of in *. rewrite lookup_set_obj, decide_False; [done|].
    intros <-. rewrite (wf_next_free _ _ _ Hwf) in Hn. done. }
  assert (Hr : forall n, is_some (renderbuffer_of s n) = true ->
            renderbuffer_of (set_obj (gl_next s) o (bump s)) n = renderbuffer_of s n).
  { intros n Hn. unfold renderbuffer_of in *. rewrite lookup_set_obj, decide_False; [done|].
    intros <-. rewrite (wf_next_free _ _ _ Hwf) in Hn. done. }
  destruct b as [t|t|r|n]; simpl in *; [| |apply andb_true_iff in Hb as [Hb1 Hb]; rewrite Hb1|done];
    apply orb_true_iff in Hb as [Hb|Hb]; rewrite ?Hb; simpl; auto;
    rewrite ?Ht, ?Hr, ?Hb by done; apply orb_true_r.
Qed.

Lemma images_ok_fresh ns ps s o l :
  wf_but ns ps s -> images_ok s l = true -> images_ok (set_obj (gl_next s) o (bump s)) l = true.
Proof.
  intros Hwf. unfold images_ok. induction l as [|[p b] l IH]; simpl; [done|].
  rewrite !andb_true_iff. intros [Hb Hl]. split; [by eapply image_ok_fresh|auto].
Qed.

Section CreateFBO.
Context `{GLDriver}.

(** C11: on a well-formed context and attachments that name live images,
    [createFBO] returns the descriptor of a fresh framebuffer holding
    exactly the requested attachments (a later attachment at the same
    point replaces an earlier one), restores the framebuffer binding it
    found, and changes no other object. *)
Lemma createFBO_ok s l :
  gl_wf s -> images_ok s l = true ->
  exists s', createFBO l s = (Ok (mkFramebuffer (gl_next s) GL_FRAMEBUFFER), s') /\
  framebuffer_of s' (gl_next s) = Some (attach_map l ∅) /\
  gl_framebuffer s' = gl_framebuffer s /\ gl_next s' = gl_next s + 1 /\
  (forall m, m <> gl_next s -> gl_objects s' !! m = gl_objects s !! m).
Proof.
  intros Hwf Hl. unfold createFBO, glGenFramebuffers, bind at 1. rewrite gl_gen_run. cbv beta.
  set (n := gl_next s). set (s1 := set_obj n (OFramebuffer ∅) (bump s)).
  assert (Hother : forall s2 m, m <> n -> gl_objects s2 = <[n := OFramebuffer (attach_map l ∅)]> (gl_objects s1) ->
            gl_objects s2 !! m = gl_objects s !! m).
  { intros s2 m Hm ->. unfold s1, set_obj. simpl. by rewrite !lookup_insert_ne by congruence. }
  destruct l as [|x l'].
  - eexists. split; [reflexivity|]. split; [apply framebuffer_of_set_same|].
    split; [done|]. split; [done|]. intros m Hm. unfold s1, set_obj. simpl.
    by rewrite lookup_insert_ne by congruence.
  - set (s2 := set_obj n (OFramebuffer (attach_map (x :: l') ∅)) {| s1 with gl_framebuffer := n |}).
    unfold bind. rewrite (useFBO_run s1 (FboDesc (mkFramebuffer n GL_FRAMEBUFFER)) _ (Ok tt) s2).
    + eexists. split; [reflexivity|]. split; [exact (framebuffer_of_set_same _ _ _)|].
      split; [done|]. split; [done|]. intros m Hm. by apply Hother.
    + right. unfold s1. rewrite kind_at_set_obj, decide_True; done.
    + apply attach_all_run; [exact (framebuffer_of_set_same _ _ _)|].
      exact (images_ok_fresh _ _ _ _ _ Hwf Hl).
    + destruct (wf_framebuffer _ _ _ Hwf) as [Hz|Hk]; [by left|right].
      pose proof (kind_at_below _ _ _ _ _ Hwf Hk) as Hlt.
      change (gl_framebuffer s1) with (gl_framebuffer s). unfold s2.
      rewrite kind_at_set_obj, decide_False by (unfold n; lia).
      change (kind_at s1 (gl_framebuffer s) = Some KFramebuffer). unfold s1.
      rewrite kind_at_set_obj, decide_False by (unfold n; lia). exact Hk.
Qed.
End CreateFBO.

Section FramebufferTheorems.
Context `{GLDriver}.


(** C13: [deleteFBO] deletes the framebuffer of a descriptor (binding 0 if
    it was bound), but a bare integer name, which the code means to accept
    ([int(fbo)]), is refused by ctypes: [glDeleteFramebuffers] expects a
    [GLuint] pointer, and the call raises [ctypes.ArgumentError] with the
    context unchanged. *)
Theorem deleteFBO_spec s f n a :
  (framebuffer_of s (fb_id f) = Some a ->
   exists s', deleteFBO (FboDesc f) s = (Ok tt, s') /\
   framebuffer_of s' (fb_id f) = None /\
   gl_framebuffer s' = (if gl_framebuffer s =? fb_id f then 0 else gl_framebuffer s)) /\
  deleteFBO (FboName n) s = (Raise uint_pointer_error, s).
Proof.
  split; [|reflexivity]. intros Ha. unfold deleteFBO, glDeleteFramebuffers, modify.
  rewrite Ha. eexists. split; [reflexivity|].
  unfold framebuffer_of. destruct (Z.eqb_spec (gl_framebuffer s) (fb_id f)); simpl;
    (split; [by rewrite lookup_delete_eq|done]).
Qed.

(** C14: [blitFBO] sends one blit of the colour buffer from [srcRect] to
    [dstRect] (to [srcRect] again when [dstRect] is [None]) with the given
    filter and changes nothing else; a rectangle with fewer than four
    coordinates raises [IndexError] before anything is sent. *)
Theorem blitFBO_spec s x0 y0 x1 y1 dst filter :
  (blitFBO [x0; y0; x1; y1] None filter s =
     (Ok tt, {| s with gl_commands := CmdBlit (x0, y0, x1, y1) (x0, y0, x1, y1)
                                      GL_COLOR_BUFFER_BIT filter :: gl_commands s |})) /\
  (forall u0 v0 u1 v1, dst = [u0; v0; u1; v1] ->
   blitFBO [x0; y0; x1; y1] (Some dst) filter s =
     (Ok tt, {| s with gl_commands := CmdBlit (x0, y0, x1, y1) (u0, v0, u1, v1)
                                      GL_COLOR_BUFFER_BIT filter :: gl_commands s |})) /\
  (forall src, (length src < 4)%nat ->
   blitFBO src (Some dst) filter s = (Raise (IndexError "list index out of range"), s) /\
   blitFBO src None filter s = (Raise (IndexError "list index out of range"), s)).
Proof.
  split; [reflexivity|]. split; [by intros ???? ->|].
  intros src Hl. destruct src as [|a [|b [|c [|d src]]]]; simpl in Hl; try lia; split; reflexivity.
Qed.
Lemma attach_wf ns ps p b : preserves (wf_but ns ps) (attach p b).
Proof. destruct b; simpl; eauto with psy glwf. Qed.

Lemma attach_all_wf ns ps l : preserves (wf_but ns ps) (attach_all l).
Proof. apply preserves_for. intros [p b]. apply attach_wf. Qed.

Lemma useFBO_wf {A} ns ps fbo (body : Z -> GLM A) :
  (forall n, preserves (wf_but ns ps) (body n)) -> preserves (wf_but ns ps) (useFBO fbo body).
Proof. intros Hb. unfold useFBO. preserves_tac. Qed.

#[local] Hint Resolve attach_wf attach_all_wf useFBO_wf : glwf.

Lemma createFBO_wf ns ps l : preserves (wf_but ns ps) (createFBO l).
Proof. unfold createFBO. preserves_tac. Qed.

Lemma deleteFBO_wf ns ps fbo : preserves (wf_but ns ps) (deleteFBO fbo).
Proof. unfold deleteFBO. preserves_tac. Qed.

Lemma blitFBO_wf ns ps src dst filter : preserves (wf_but ns ps) (blitFBO src dst filter).
Proof. unfold blitFBO. preserves_tac. Qed.

Lemma isComplete_wf ns ps : preserves (wf_but ns ps) isComplete.
Proof. unfold isComplete. preserves_tac. Qed.
End FramebufferTheorems.

(** ** Runs on the example driver *)

(** A context with one 4x4 texture (name 1). *)
Definition tex_example : GLState :=
  snd (createTexImage2D 4 4 GL_TEXTURE_2D 0 GL_RGBA8 GL_RGBA GL_FLOAT 4 [] gl_init).

Definition tex_example_desc : TexImage2D :=
  mkTexImage2D 1 GL_TEXTURE_2D 4 4 GL_RGBA8 GL_RGBA GL_FLOAT 4 1 false.

(** ... and a framebuffer (name 2) with the texture as colour attachment,
    bound. *)
Definition fbo_example : GLState :=
  snd ((do fb <- @createFBO example_driver [(GL_COLOR_ATTACHMENT0, IBTexImage2D tex_example_desc)];
        glBindFramebuffer GL_FRAMEBUFFER (fb_id fb)) tex_example).

Definition fbo_example_atts : gmap Z Attachment :=
  {[GL_COLOR_ATTACHMENT0 := mkAttachment GL_TEXTURE_2D 1]}.

Lemma useFBO_restores_witness :
  binding_ok (snd ((fun _ : Z => @raise GLState unit (RuntimeError "draw failed")) 1
                     (snd (glBindFramebuffer GL_FRAMEBUFFER 1 (snd (glGenFramebuffers gl_init))))))
             KFramebuffer 0 /\
  fst (@useFBO example_driver unit (FboName 1) (fun _ => raise (RuntimeError "draw failed"))
         (snd (glGenFramebuffers gl_init))) = Raise (RuntimeError "draw failed") /\
  gl_framebuffer (snd (@useFBO example_driver unit (FboName 1)
                         (fun _ => raise (RuntimeError "draw failed"))
                         (snd (glGenFramebuffers gl_init)))) = 0.
Proof.
  split; [by left|].
  apply (@useFBO_restores example_driver unit (snd (glGenFramebuffers gl_init)) (FboName 1)
           (fun _ => raise (RuntimeError "draw failed"))).
  by left.
Defined.

Lemma createFBO_ok_witness :
  gl_wf tex_example /\
  images_ok tex_example [(GL_COLOR_ATTACHMENT0, IBTexImage2D tex_example_desc)] = true /\
  exists s', @createFBO example_driver [(GL_COLOR_ATTACHMENT0, IBTexImage2D tex_example_desc)]
               tex_example = (Ok (mkFramebuffer 2 GL_FRAMEBUFFER), s') /\
  framebuffer_of s' 2 = Some fbo_example_atts /\ gl_framebuffer s' = 0 /\ gl_next s' = 3 /\
  (forall m, m <> 2 -> gl_objects s' !! m = gl_objects tex_example !! m).
Proof.
  assert (Hwf : gl_wf tex_example).
  { apply createTexImage2D_wf, gl_wf_init. }
  split; [exact Hwf|]. split; [vm_compute; reflexivity|].
  apply (@createFBO_ok example_driver tex_example); [exact Hwf | vm_compute; reflexivity].
Defined.


Lemma deleteFBO_spec_witness :
  framebuffer_of fbo_example 2 = Some fbo_example_atts /\
  (exists s', deleteFBO (FboDesc (mkFramebuffer 2 GL_FRAMEBUFFER)) fbo_example =
     (Ok tt, s') /\ framebuffer_of s' 2 = None /\
     gl_framebuffer s' = (if gl_framebuffer fbo_example =? 2 then 0 else gl_framebuffer fbo_example)) /\
  deleteFBO (FboName 2) fbo_example = (Raise uint_pointer_error, fbo_example).
Proof.
  assert (Ha : framebuffer_of fbo_example 2 = Some fbo_example_atts) by (vm_compute; reflexivity).
  split; [exact Ha|].
  destruct (deleteFBO_spec fbo_example (mkFramebuffer 2 GL_FRAMEBUFFER) 2
              fbo_example_atts) as [H1 H2].
  split; [exact (H1 Ha) | exact H2].
Defined.

Lemma blitFBO_spec_witness :
  blitFBO [0; 0; 800; 600] (Some [0; 0; 400; 300]) GL_LINEAR gl_init =
    (Ok tt, {| gl_init with gl_commands := [CmdBlit (0, 0, 800, 600) (0, 0, 400, 300)
                                              GL_COLOR_BUFFER_BIT GL_LINEAR] |}) /\
  blitFBO [0; 0; 800] None GL_LINEAR gl_init =
    (Raise (IndexError "list index out of range"), gl_init).
Proof.
  destruct (blitFBO_spec gl_init 0 0 800 600 [0; 0; 400; 300] GL_LINEAR)
    as (_ & H2 & H3).
  split; [exact (H2 0 0 400 300 eq_refl) | exact (proj2 (H3 [0; 0; 800] ltac:(simpl; lia)))].
Defined.
