(* ===== verification/Buffers.v ===== *)
(** * Vertex buffers and vertex arrays ([gltools.py], lines 1495-1970)

    [VertexBufferInfo] (a class with [__slots__]) and its methods
    [hasBuffer] and [validate]; [createVBO], [setVertexAttribPointer],
    [deleteVBO]; [createVAO], [drawVAO] and [deleteVAO].

    numpy arrays are modelled by their shape (the helpers read only
    [data.size] and [data.shape]); the [GL_COMPAT_TYPES] table by the byte
    size of the ctypes type of each OpenGL type.  Names are Python [int]s or
    ctypes [GLuint] objects ([CName]): the difference decides what ctypes
    accepts and what [==] answers.  [deleteVBO] assigns [vbo.name]; the
    model returns the updated descriptor.  [createVAO] reads the attributes
    [id], [size], [dtype] and [indices] of the descriptors it receives, which
    [VertexBufferInfo] does not have; the descriptors that have them (the
    [VertexBufferObject] namedtuple commented out above the class) are
    [LegacyVBO]. *)

From S2P Require Import Prelude GLContext GLWf.
Import GL.
Open Scope Z_scope.

Inductive CName :=
| PyInt (n : Z)
| CUInt (n : Z).

Definition cname_value (c : CName) : Z := match c with PyInt n => n | CUInt n => n end.

(** [name == z]: a ctypes object is never equal to an [int]. *)
Definition cname_eq_int (c : CName) (z : Z) : bool :=
  match c with PyInt n => n =? z | CUInt _ => false end.

(** The [GLuint *] argument of [glDelete*]. *)
Definition uint_pointer (c : CName) : Result Z :=
  match c with CUInt n => Ok n | PyInt _ => Raise uint_pointer_error end.

(** [GL_COMPAT_TYPES[dataType][1]], as [ctypes.sizeof] of the type. *)
Definition gl_compat_sizeof (dataType : Z) : option Z :=
  if dataType =? GL_FLOAT then Some 4
  else if dataType =? GL_DOUBLE then Some 8
  else if dataType =? GL_UNSIGNED_SHORT then Some 2
  else if dataType =? GL_UNSIGNED_INT then Some 4
  else if dataType =? GL_INT then Some 4
  else if dataType =? GL_SHORT then Some 2
  else if dataType =? GL_HALF_FLOAT then Some 2
  else if dataType =? GL_UNSIGNED_BYTE then Some 1
  else if dataType =? GL_BYTE then Some 1
  else None.

Definition compat_type (dataType : Z) : Result Z :=
  match gl_compat_sizeof dataType with
  | Some n => Ok n
  | None => Raise (KeyError (pretty dataType))
  end.

(** [shape[i]] of a numpy shape tuple. *)
Definition shape_getitem (shape : list Z) (i : Z) : Result Z :=
  match py_getitem shape i with
  | Ok x => Ok x
  | Raise _ => Raise (IndexError "tuple index out of range")
  end.

(** [data.size] *)
Definition shape_size (shape : list Z) : Z := foldr Z.mul 1 shape.

Record VertexBufferInfo := mkVertexBufferInfo {
  vb_name : CName; vb_target : Z; vb_usage : Z; vb_dataType : Z;
  vb_size : Z; vb_stride : Z; vb_shape : list Z
}.

Inductive UserDataArg := UDNone | UDDict | UDOther.

(** [VertexBufferInfo.__init__] *)
Definition VertexBufferInfo_init (name : CName) (target usage dataType size stride : Z)
    (shape : list Z) (userData : UserDataArg) : Result VertexBufferInfo :=
  match userData with
  | UDOther => Raise (TypeError "Invalid type for `userData`.")
  | _ => Ok (mkVertexBufferInfo name target usage dataType size stride shape)
  end.

(** The descriptor [createVAO] and [drawVAO] expect: the attributes of the
    [VertexBufferObject] namedtuple. *)
Record LegacyVBO := mkLegacyVBO {
  lv_id : Z; lv_size : Z; lv_count : Z; lv_indices : Z; lv_usage : Z; lv_dtype : Z
}.

Inductive VertexBuffer :=
| VBInfo (v : VertexBufferInfo)
| VBLegacy (v : LegacyVBO).

Definition no_attribute (a : string) : PyExc :=
  AttributeError ("'VertexBufferInfo' object has no attribute '" ++ a ++ "'").

Definition vbo_attr (a : string) (f : LegacyVBO -> Z) (v : VertexBuffer) : Result Z :=
  match v with VBInfo _ => Raise (no_attribute a) | VBLegacy l => Ok (f l) end.

(** The [VertexArrayObject] [drawVAO] reads ([id], [indices], [isIndexed]);
    no such class is defined in the module. *)
Record VertexArrayObject := mkVertexArrayObject {
  vao_id : CName; vao_indices : Z; vao_isIndexed : bool
}.

Section Buffers.
Context `{GLDriver}.

Definition hasBuffer (vbo : VertexBufferInfo) : GLM bool :=
  if negb (cname_eq_int (vb_name vbo) 0) then glIsBuffer (cname_value (vb_name vbo)) else ret false.

(** [self.usage == actualUsage]: [actualUsage] is a ctypes [GLint] object. *)
Definition int_eq_glint (_ _ : Z) : bool := false.

Definition validate (vbo : VertexBufferInfo) : GLM bool :=
  if cname_eq_int (vb_name vbo) 0 then ret false else
  do isBuffer <- glIsBuffer (cname_value (vb_name vbo));
  if negb isBuffer then ret false else
  do bindTarget <-
    (if vb_target vbo =? GL_VERTEX_ARRAY then ret GL_VERTEX_ARRAY_BINDING
     else if vb_target vbo =? GL_ELEMENT_ARRAY_BUFFER then ret GL_ELEMENT_ARRAY_BUFFER_BINDING
     else raise (ValueError "Invalid `target` type."));
  do currentVBO <- gl_query_int (glGetIntegerv bindTarget);
  do! glBindBuffer (vb_target vbo) (cname_value (vb_name vbo));
  do actualSize <- gl_query_int (glGetBufferParameteriv (vb_target vbo) GL_BUFFER_SIZE);
  do actualUsage <- gl_query_int (glGetBufferParameteriv (vb_target vbo) GL_BUFFER_USAGE);
  let isValid := int_eq_glint (vb_usage vbo) actualUsage && int_eq_glint (vb_size vbo) actualSize in
  (* [glBindBuffer(self.target, currentVBO)]: a [GLint] for a [GLuint] *)
  do! raise (A := unit) uint_wrong_type_error;
  ret isValid.

Definition createVBO (shape : list Z) (target dataType usage : Z) : GLM VertexBufferInfo :=
  do glTypeSize <- lift (compat_type dataType);
  let bufferSize := shape_size shape * glTypeSize in
  do rowLength <- lift (shape_getitem shape 1);
  let bufferStride := rowLength * glTypeSize in
  do bufferName <- glGenBuffers;
  do! glBindBuffer target bufferName;
  do! glBufferData target bufferSize usage;
  do! glBindBuffer target 0;
  ret (mkVertexBufferInfo (CUInt bufferName) target usage dataType bufferSize bufferStride shape).

Definition setVertexAttribPointer (index : Z) (vboInfo : VertexBufferInfo) (offset : Z)
    (normalize enable : bool) : GLM unit :=
  if negb (vb_target vboInfo =? GL_ARRAY_BUFFER) then
    raise (ValueError "VBO must have `target` type `GL_ARRAY_BUFFER`.") else
  do glTypeSize <- lift (compat_type (vb_dataType vboInfo));
  do! glBindBuffer GL_ARRAY_BUFFER (cname_value (vb_name vboInfo));
  do! when enable (glEnableVertexAttribArray index);
  do rowLength <- lift (shape_getitem (vb_shape vboInfo) 1);
  do! glVertexAttribPointer index rowLength (vb_dataType vboInfo)
        (if normalize then GL_TRUE else GL_FALSE) (vb_stride vboInfo) (offset * glTypeSize);
  glBindBuffer GL_ARRAY_BUFFER 0.

(** Returns the descriptor after [vbo.name = GL.GLuint(0)]. *)
Definition deleteVBO (vbo : VertexBufferInfo) : GLM VertexBufferInfo :=
  do isBuffer <- glIsBuffer (cname_value (vb_name vbo));
  if isBuffer then
    do n <- lift (uint_pointer (vb_name vbo));
    do! glDeleteBuffers n;
    ret {| vbo with vb_name := CUInt 0 |}
  else ret vbo.

(** One iteration of the attribute loop of [createVAO], on the pair
    [(nIndices, hasVertexArray)]. *)
Definition vao_attrib (acc : Z * bool) (av : Z * VertexBuffer) : GLM (Z * bool) :=
  let '(nIndices, hasVertexArray) := acc in
  let '(attr, vbo) := av in
  do vboId <- lift (vbo_attr "id" lv_id vbo);
  do! glBindBuffer GL_ARRAY_BUFFER vboId;
  if attr =? GL_VERTEX_ARRAY then
    do size <- lift (vbo_attr "size" lv_size vbo);
    do dtype <- lift (vbo_attr "dtype" lv_dtype vbo);
    do! glVertexPointer size dtype 0;
    do! glEnableClientState GL_VERTEX_ARRAY;
    do indices <- lift (vbo_attr "indices" lv_indices vbo);
    ret (Z.quot indices 3, true)
  else if attr =? GL_TEXTURE_COORD_ARRAY then
    do size <- lift (vbo_attr "size" lv_size vbo);
    do dtype <- lift (vbo_attr "dtype" lv_dtype vbo);
    do! glTexCoordPointer size dtype 0;
    do! glEnableClientState GL_TEXTURE_COORD_ARRAY;
    ret (nIndices, hasVertexArray)
  else if attr =? GL_NORMAL_ARRAY then
    do dtype <- lift (vbo_attr "dtype" lv_dtype vbo);
    do! glNormalPointer dtype 0;
    do! glEnableClientState GL_NORMAL_ARRAY;
    ret (nIndices, hasVertexArray)
  else if attr =? GL_COLOR_ARRAY then
    do size <- lift (vbo_attr "size" lv_size vbo);
    do dtype <- lift (vbo_attr "dtype" lv_dtype vbo);
    do! glColorPointer size dtype 0;
    do! glEnableClientState GL_COLOR_ARRAY;
    ret (nIndices, hasVertexArray)
  else
    do size <- lift (vbo_attr "size" lv_size vbo);
    do! glVertexAttribPointer attr size GL_FLOAT GL_FALSE 0 0;
    do! glEnableVertexAttribArray attr;
    ret (nIndices, hasVertexArray).

Definition createVAO (vertexBuffers : list (Z * VertexBuffer)) (indexBuffer : option VertexBuffer)
    : GLM VertexArrayObject :=
  match vertexBuffers with
  | [] => raise (ValueError "No buffers specified.")
  | _ :: _ =>
    do vaoId <- glGenVertexArrays;
    do! glBindVertexArray vaoId;
    do '(nIndices, hasVertexArray) <- py_foldl vao_attrib (0, false) vertexBuffers;
    if negb hasVertexArray then
      do! glBindVertexArray 0;
      do! glDeleteVertexArrays vaoId;
      raise (RuntimeError "Failed to create VAO, no vertex data specified.")
    else
    do nIndices <-
      (match indexBuffer with
       | None => ret nIndices
       | Some ib =>
           do ibId <- lift (vbo_attr "id" lv_id ib);
           do! glBindBuffer GL_ELEMENT_ARRAY_BUFFER ibId;
           lift (vbo_attr "indices" lv_indices ib)
       end);
    do! glBindVertexArray 0;
    (* [return VertexArrayObject(vaoId, nIndices, ...)]: the name is undefined *)
    raise (NameError "name 'VertexArrayObject' is not defined")
  end.

Definition drawVAO (vao : VertexArrayObject) (mode : Z) (flush : bool) : GLM unit :=
  do! glBindVertexArray (cname_value (vao_id vao));
  do! (if vao_isIndexed vao then glDrawElements mode (vao_indices vao) GL_UNSIGNED_INT
       else glDrawArrays mode 0 (vao_indices vao));
  do! when flush glFlush;
  glBindVertexArray 0.

Definition deleteVAO (vao : VertexArrayObject) : GLM unit :=
  do n <- lift (uint_pointer (vao_id vao));
  glDeleteVertexArrays n.
End Buffers.

(** ** Properties of the buffer and vertex array helpers *)

Lemma shape_getitem_1 d0 d1 ds : shape_getitem (d0 :: d1 :: ds) 1 = Ok d1.
Proof.
  unfold shape_getitem, py_getitem, py_index_norm. cbn [length Z.ltb Z.compare andb].
  replace (1 <? Z.of_nat (S (S (length ds)))) with true by (symmetry; apply Z.ltb_lt; lia).
  reflexivity.
Qed.

Section BufferProperties.
Context `{GLDriver}.

(** C22: [createVAO] never returns: an empty list raises [ValueError];
    otherwise the loop reads attributes a [VertexBufferInfo] does not have
    ([AttributeError]), or no vertex array is given ([RuntimeError]), or
    the final [return] names the undefined class [VertexArrayObject]
    ([NameError]). *)
Theorem createVAO_always_raises vertexBuffers indexBuffer :
  always_raises (createVAO vertexBuffers indexBuffer).
Proof. unfold createVAO. raises_tac. Qed.

(** [createVAO] on a [VertexBufferInfo] (what [createVBO] returns)
    raises [AttributeError] on [vbo.id] after generating and binding a
    vertex array, which stays live and bound. *)
Theorem createVAO_vertexBufferInfo s attr v rest indexBuffer :
  exists s', createVAO ((attr, VBInfo v) :: rest) indexBuffer s = (Raise (no_attribute "id"), s') /\
  is_vertex_array s' (gl_next s) = true /\ gl_vertex_array s' = gl_next s /\
  gl_next s' = gl_next s + 1.
Proof.
  unfold createVAO. repeat gl_step. gl_eval. unfold is_vertex_array, kind_at. gl_eval. auto.
Qed.

(** C20: [VertexBufferInfo.validate] never answers [True]: the sizes it
    compares are ctypes [GLint] objects, never equal to an [int], and the
    final [glBindBuffer(self.target, currentVBO)] passes a [GLint] object
    for a [GLuint] parameter, which ctypes refuses. *)
Theorem validate_never_true vbo s : fst (validate vbo s) <> Ok true.
Proof.
  unfold validate. destruct (cname_eq_int _ 0); [discriminate|].
  unfold bind at 1, glIsBuffer, gets.
  destruct (is_some (buffer_of s (cname_value (vb_name vbo)))); [|discriminate].
  cbn [negb]. apply always_raises_not_ok. raises_tac.
Qed.

(** C21: on a live buffer whose descriptor has the default target
    [GL_ARRAY_BUFFER] (what [createVBO] makes by default), [validate]
    raises [ValueError('Invalid `target` type.')]: only [GL_VERTEX_ARRAY]
    and [GL_ELEMENT_ARRAY_BUFFER] are handled, although the docstring of
    the class gives [GL_VERTEX_ARRAY] as default and the code
    [GL_ARRAY_BUFFER]. *)
Theorem validate_array_buffer vbo s b :
  vb_target vbo = GL_ARRAY_BUFFER -> (exists n, vb_name vbo = CUInt n /\ buffer_of s n = Some b) ->
  validate vbo s = (Raise (ValueError "Invalid `target` type."), s).
Proof.
  intros Ht (n & Hn & Hb). unfold validate. rewrite Hn, Ht.
  unfold bind at 1, glIsBuffer, gets. cbn [cname_eq_int cname_value]. rewrite Hb. reflexivity.
Qed.
(** C18: for a known data type, a buffer target, and an array with at
    least two dimensions, [createVBO] returns the descriptor of a fresh
    buffer of [data.size * sizeof(type)] bytes with the given usage, row
    stride [shape[1] * sizeof(type)], and unbinds the target. *)
Theorem createVBO_ok s d0 d1 ds target dataType usage sz :
  gl_wf s -> gl_compat_sizeof dataType = Some sz -> buffer_target target = true ->
  0 <= shape_size (d0 :: d1 :: ds) ->
  exists s', createVBO (d0 :: d1 :: ds) target dataType usage s =
    (Ok (mkVertexBufferInfo (CUInt (gl_next s)) target usage dataType
           (shape_size (d0 :: d1 :: ds) * sz) (d1 * sz) (d0 :: d1 :: ds)), s') /\
  buffer_of s' (gl_next s) = Some (Some (mkBuf (shape_size (d0 :: d1 :: ds) * sz) usage)) /\
  bound_buffer s' target = 0 /\ gl_next s' = gl_next s + 1.
Proof.
  intros Hwf Hsz Ht Hsize. pose proof (wf_next _ _ _ Hwf) as Hn.
  assert (E0 : (gl_next s =? 0) = false) by (apply Z.eqb_neq; lia).
  assert (Hsz' : 0 < sz) by (unfold gl_compat_sizeof in Hsz; repeat case_match; simplify_eq; lia).
  assert (E1 : (0 <=? shape_size (d0 :: d1 :: ds) * sz) = true) by (apply Z.leb_le; nia).
  unfold createVBO, compat_type. rewrite Hsz, shape_getitem_1.
  remember (shape_size (d0 :: d1 :: ds)) as n eqn:En; clear En.
  repeat gl_step. eexists. split; [reflexivity|]. gl_eval. repeat split; auto.
Qed.

(** C19: [createVBO] raises [KeyError] for a data type missing from
    [GL_COMPAT_TYPES], and [IndexError] for an array with fewer than two
    dimensions (a flat list of numbers), before any OpenGL call. *)
Theorem createVBO_errors s shape target dataType usage :
  (gl_compat_sizeof dataType = None ->
   createVBO shape target dataType usage s = (Raise (KeyError (pretty dataType)), s)) /\
  (is_Some (gl_compat_sizeof dataType) -> (length shape < 2)%nat ->
   createVBO shape target dataType usage s = (Raise (IndexError "tuple index out of range"), s)).
Proof.
  unfold createVBO, compat_type. split; [intros ->; reflexivity|].
  intros [sz ->] Hl. destruct shape as [|d0 [|d1 ds]]; simpl in Hl; try lia; reflexivity.
Qed.
(** C23: [setVertexAttribPointer] on an array-buffer descriptor of a live
    buffer [n] points attribute [index] at [n] with [shape[1]] components,
    the descriptor's stride and the offset scaled by the type size, enables
    the attribute when asked, and leaves [GL_ARRAY_BUFFER] unbound. *)
Theorem setVertexAttribPointer_ok s index vbo n sz d0 d1 ds offset (normalize enable : bool) :
  vb_target vbo = GL_ARRAY_BUFFER -> vb_name vbo = CUInt n -> is_some (buffer_of s n) = true ->
  gl_compat_sizeof (vb_dataType vbo) = Some sz -> vb_shape vbo = d0 :: d1 :: ds ->
  0 <= index -> valid_pointer_size d1 = true -> 0 <= vb_stride vbo ->
  exists s', setVertexAttribPointer index vbo offset normalize enable s = (Ok tt, s') /\
  gl_attrib_pointers s' !! index =
    Some (mkPointer n d1 (vb_dataType vbo) normalize (vb_stride vbo) (offset * sz)) /\
  (enable = true -> index ∈ gl_attrib_enabled s') /\ bound_buffer s' GL_ARRAY_BUFFER = 0.
Proof.
  intros Ht Hn Hb Hsz Hsh Hi Hp Hst.
  assert (E0 : (0 <=? index) = true) by (apply Z.leb_le; lia).
  assert (E1 : (0 <=? vb_stride vbo) = true) by (apply Z.leb_le; lia).
  unfold setVertexAttribPointer, compat_type. rewrite Ht, Hsz, Hsh, shape_getitem_1, Hn.
  cbn [cname_value]. unfold buffer_of in Hb. unfold valid_pointer_size in Hp.
  repeat gl_step. destruct enable; repeat gl_step;
    (eexists; split; [reflexivity|]); gl_eval; destruct normalize; repeat split; auto;
    intros; try discriminate; set_solver.
Qed.
(** C24: [deleteVBO] deletes a live buffer named by a [GLuint], unbinds it
    from every target and returns the descriptor renamed to [GLuint(0)];
    with a live buffer named by a plain [int] it raises the ctypes
    [ArgumentError] of [glDeleteBuffers(1, name)] and changes nothing; and a
    descriptor of no buffer is returned as it is. *)
Theorem deleteVBO_spec s vbo :
  (forall n, vb_name vbo = CUInt n -> is_some (buffer_of s n) = true ->
     exists s', deleteVBO vbo s = (Ok {| vbo with vb_name := CUInt 0 |}, s') /\
       buffer_of s' n = None /\
       forall t, bound_buffer s' t = if bound_buffer s t =? n then 0 else bound_buffer s t) /\
  (forall n, vb_name vbo = PyInt n -> is_some (buffer_of s n) = true ->
     deleteVBO vbo s = (Raise uint_pointer_error, s)) /\
  (is_some (buffer_of s (cname_value (vb_name vbo))) = false -> deleteVBO vbo s = (Ok vbo, s)).
Proof.
  unfold deleteVBO, glIsBuffer, gets, bind. split; [|split].
  - intros n Hn Hb. rewrite Hn in *. cbn [cname_value uint_pointer lift]. rewrite Hb.
    unfold glDeleteBuffers, modify, ret. destruct (buffer_of s n) eqn:E; [|discriminate].
    eexists. split; [reflexivity|]. unfold buffer_of, bound_buffer. cbn [gl_objects gl_buffers].
    rewrite lookup_del_obj, decide_True by reflexivity. split; [reflexivity|].
    intros t. change (gl_buffers (del_obj n s)) with (gl_buffers s). rewrite lookup_fmap. destruct (gl_buffers s !! t); simpl; [|destruct n]; reflexivity.
  - intros n Hn Hb. rewrite Hn in *. cbn [cname_value uint_pointer lift]. rewrite Hb. reflexivity.
  - intros Hb. rewrite Hb. reflexivity.
Qed.

Definition vao_draw_command (vao : VertexArrayObject) (mode : Z) : GLCommand :=
  if vao_isIndexed vao then CmdDrawElements (cname_value (vao_id vao)) mode (vao_indices vao) GL_UNSIGNED_INT
  else CmdDrawArrays (cname_value (vao_id vao)) mode 0 (vao_indices vao).

(** C25: [drawVAO] on a live vertex array issues one draw command on it
    ([glDrawElements] when indexed, [glDrawArrays] from vertex 0 otherwise),
    followed by [glFlush] when asked, and unbinds the vertex array; nothing
    else of the context changes. *)
Theorem drawVAO_spec s vao mode (flush : bool) :
  is_vertex_array s (cname_value (vao_id vao)) = true -> 0 <= vao_indices vao ->
  drawVAO vao mode flush s =
    (Ok tt, {| s with gl_vertex_array := 0;
                      gl_commands := (if flush then [CmdFlush] else []) ++
                                     vao_draw_command vao mode :: gl_commands s |}).
Proof.
  intros Hv Hi. assert (E : (0 <=? vao_indices vao) = true) by (apply Z.leb_le; lia).
  unfold drawVAO, vao_draw_command, glBindVertexArray, glDrawElements, glDrawArrays, glFlush,
    when, bind, modify, ret.
  cbn [fst snd gl_vertex_array gl_commands orb andb Z.eqb]. rewrite Hv, orb_true_r.
  cbn [gl_vertex_array gl_commands]. rewrite E.
  destruct (vao_isIndexed vao), flush; reflexivity.
Qed.
(** ** Every helper keeps the context well formed *)

Lemma vertexPointers_wf ns ps size type stride :
  preserves (wf_but ns ps) (glVertexPointer size type stride) /\
  preserves (wf_but ns ps) (glTexCoordPointer size type stride) /\
  preserves (wf_but ns ps) (glNormalPointer type stride) /\
  preserves (wf_but ns ps) (glColorPointer size type stride).
Proof. refine (conj _ (conj _ (conj _ _))); apply preserves_gl_client_pointer. Qed.

Lemma when_wf ns ps (b : bool) (m : GLM unit) :
  preserves (wf_but ns ps) m -> preserves (wf_but ns ps) (when b m).
Proof. destruct b; simpl; eauto with psy. Qed.

#[local] Hint Resolve when_wf : glwf.
#[local] Hint Extern 1 (preserves _ (glVertexPointer _ _ _)) => apply vertexPointers_wf : glwf.
#[local] Hint Extern 1 (preserves _ (glTexCoordPointer _ _ _)) => apply vertexPointers_wf : glwf.
#[local] Hint Extern 1 (preserves _ (glNormalPointer _ _)) => apply vertexPointers_wf : glwf.
#[local] Hint Extern 1 (preserves _ (glColorPointer _ _ _)) => apply vertexPointers_wf : glwf.

Lemma createVBO_wf ns ps shape target dataType usage :
  preserves (wf_but ns ps) (createVBO shape target dataType usage).
Proof. unfold createVBO. preserves_tac. Qed.

Lemma setVertexAttribPointer_wf ns ps index vbo offset normalize enable :
  preserves (wf_but ns ps) (setVertexAttribPointer index vbo offset normalize enable).
Proof. unfold setVertexAttribPointer. preserves_tac. Qed.

Lemma deleteVBO_wf ns ps vbo : preserves (wf_but ns ps) (deleteVBO vbo).
Proof. unfold deleteVBO. preserves_tac. Qed.

Lemma validate_wf ns ps vbo : preserves (wf_but ns ps) (validate vbo).
Proof. unfold validate. preserves_tac. Qed.

Lemma vao_attrib_wf ns ps acc av : preserves (wf_but ns ps) (vao_attrib acc av).
Proof. destruct acc, av. unfold vao_attrib. preserves_tac. Qed.

Lemma createVAO_wf ns ps vbs ib : preserves (wf_but ns ps) (createVAO vbs ib).
Proof.
  unfold createVAO. destruct vbs; [eauto with psy|].
  apply preserves_bind; [eauto with glwf|intros ?].
  apply preserves_bind; [eauto with glwf|intros ?].
  apply preserves_bind; [apply preserves_foldl; intros; apply vao_attrib_wf|intros [? []]];
    preserves_tac.
Qed.

Lemma drawVAO_wf ns ps vao mode flush : preserves (wf_but ns ps) (drawVAO vao mode flush).
Proof. unfold drawVAO. preserves_tac. Qed.

Lemma deleteVAO_wf ns ps vao : preserves (wf_but ns ps) (deleteVAO vao).
Proof. unfold deleteVAO. preserves_tac. Qed.

End BufferProperties.

(** ** Witnesses: a 3x2 float array uploaded from the initial context *)

#[local] Existing Instance example_driver.

Definition vbo_example : VertexBufferInfo :=
  mkVertexBufferInfo (CUInt 1) GL_ARRAY_BUFFER GL_STATIC_DRAW GL_FLOAT 24 8 [3; 2].

Definition vbo_example_state : GLState :=
  snd (createVBO [3; 2] GL_ARRAY_BUFFER GL_FLOAT GL_STATIC_DRAW gl_init).

Definition vao_example : VertexArrayObject := mkVertexArrayObject (CUInt 2) 3 false.

Definition vao_example_state : GLState :=
  snd (glBindBuffer GL_ARRAY_BUFFER 0 (snd (glGenVertexArrays vbo_example_state))).

Lemma validate_array_buffer_witness :
  validate vbo_example vbo_example_state = (Raise (ValueError "Invalid `target` type."), vbo_example_state).
Proof.
  apply (validate_array_buffer vbo_example vbo_example_state (Some (mkBuf 24 GL_STATIC_DRAW)));
    [reflexivity | exists 1; split; vm_compute; reflexivity].
Defined.

Lemma createVBO_ok_witness :
  exists s', createVBO [3; 2] GL_ARRAY_BUFFER GL_FLOAT GL_STATIC_DRAW gl_init = (Ok vbo_example, s') /\
  buffer_of s' 1 = Some (Some (mkBuf 24 GL_STATIC_DRAW)) /\
  bound_buffer s' GL_ARRAY_BUFFER = 0 /\ gl_next s' = 2.
Proof.
  apply (createVBO_ok gl_init 3 2 [] GL_ARRAY_BUFFER GL_FLOAT GL_STATIC_DRAW 4);
    [apply gl_wf_init | reflexivity | reflexivity | vm_compute; discriminate].
Defined.

Lemma createVBO_errors_witness :
  createVBO [3; 2] GL_ARRAY_BUFFER 0 GL_STATIC_DRAW gl_init = (Raise (KeyError "0"), gl_init) /\
  createVBO [6] GL_ARRAY_BUFFER GL_FLOAT GL_STATIC_DRAW gl_init =
    (Raise (IndexError "tuple index out of range"), gl_init).
Proof.
  split;
    [apply (createVBO_errors gl_init [3; 2] GL_ARRAY_BUFFER 0 GL_STATIC_DRAW); reflexivity
    |apply (createVBO_errors gl_init [6] GL_ARRAY_BUFFER GL_FLOAT GL_STATIC_DRAW);
       [exists 4; reflexivity | simpl; lia]].
Defined.

Lemma setVertexAttribPointer_ok_witness :
  exists s', setVertexAttribPointer 0 vbo_example 0 false true vbo_example_state = (Ok tt, s') /\
  gl_attrib_pointers s' !! 0 = Some (mkPointer 1 2 GL_FLOAT false 8 0) /\
  (true = true -> 0 ∈ gl_attrib_enabled s') /\ bound_buffer s' GL_ARRAY_BUFFER = 0.
Proof.
  apply (setVertexAttribPointer_ok vbo_example_state 0 vbo_example 1 4 3 2 [] 0 false true);
    first [reflexivity | vm_compute; reflexivity | cbn; lia].
Defined.

Lemma deleteVBO_spec_witness :
  (exists s', deleteVBO vbo_example vbo_example_state =
     (Ok {| vbo_example with vb_name := CUInt 0 |}, s') /\ buffer_of s' 1 = None /\
     forall t, bound_buffer s' t = if bound_buffer vbo_example_state t =? 1 then 0
                                   else bound_buffer vbo_example_state t) /\
  deleteVBO {| vbo_example with vb_name := PyInt 1 |} vbo_example_state =
    (Raise uint_pointer_error, vbo_example_state).
Proof.
  split.
  - apply (proj1 (deleteVBO_spec vbo_example_state vbo_example) 1); vm_compute; reflexivity.
  - apply (proj1 (proj2 (deleteVBO_spec vbo_example_state {| vbo_example with vb_name := PyInt 1 |})) 1);
      vm_compute; reflexivity.
Defined.

Lemma drawVAO_spec_witness :
  drawVAO vao_example GL_TRIANGLES true vao_example_state =
    (Ok tt, {| vao_example_state with gl_vertex_array := 0;
               gl_commands := [CmdFlush; CmdDrawArrays 2 GL_TRIANGLES 0 3] |}).
Proof.
  apply (drawVAO_spec vao_example_state vao_example GL_TRIANGLES true); [vm_compute; reflexivity | cbn; lia].
Defined.
