(* ===== verification/ObjLoader.v ===== *)
(** * Wavefront OBJ and MTL loaders ([gltools.py], lines 2236-2480)

    [loadObjFile] reads an OBJ file in two passes: the first counts the
    lines of each kind and remembers the [mtllib] path, the second parses
    positions, texture coordinates and normals, gives each face vertex an
    index and groups the faces by material; the attribute lists are then
    uploaded with [createVBO] and one [createVAO] per material.
    [loadMtlFile] builds one [createMaterial] descriptor per [newmtl] and
    fills its parameters and its diffuse texture.

    The text of a file is the input (opening and reading it is I/O, and
    the text mode's newline translation is assumed done).  Python's string
    methods [readlines], [strip], [startswith], [split] and slicing are
    written out below on ASCII text.  The builtins [float] and [int] and
    the image decoding of PIL are the interface [LoaderLib]. *)

From S2P Require Import Prelude GLContext GLWf Images Materials Buffers.
From Stdlib Require Import QArith.
Import GL.
Open Scope Z_scope.
Open Scope result_scope.

(** ** Python's string methods *)

(** [str.readlines()] on the text of a file: the lines with their ['\n']. *)
Fixpoint readlines_acc (s : string) (cur : string) : list string :=
  match s with
  | EmptyString => match cur with EmptyString => [] | _ => [cur] end
  | String c s' =>
      if Ascii.eqb c (Ascii.ascii_of_nat 10) then (cur ++ String c EmptyString)%string :: readlines_acc s' EmptyString
      else readlines_acc s' (cur ++ String c EmptyString)%string
  end.
Definition py_readlines (s : string) : list string := readlines_acc s EmptyString.

(** The whitespace [str.strip()] removes (ASCII). *)
Definition is_space (c : Ascii.ascii) : bool :=
  let n := Ascii.nat_of_ascii c in (n =? 32)%nat || ((9 <=? n) && (n <=? 13))%nat.

Fixpoint lstrip (s : string) : string :=
  match s with
  | EmptyString => EmptyString
  | String c s' => if is_space c then lstrip s' else s
  end.

Fixpoint rstrip (s : string) : string :=
  match s with
  | EmptyString => EmptyString
  | String c s' =>
      match rstrip s' with
      | EmptyString => if is_space c then EmptyString else String c EmptyString
      | r => String c r
      end
  end.

Definition py_strip (s : string) : string := rstrip (lstrip s).

Definition py_startswith (s p : string) : bool := String.prefix p s.

(** [s[n:]] *)
Definition py_slice_from (s : string) (n : nat) : string := String.substring n (String.length s - n) s.

(** [s.split(sep)] for a one-character separator: every occurrence
    splits, empty pieces are kept. *)
Fixpoint split_acc (s : string) (sep : Ascii.ascii) (cur : string) : list string :=
  match s with
  | EmptyString => [cur]
  | String c s' =>
      if Ascii.eqb c sep then cur :: split_acc s' sep EmptyString
      else split_acc s' sep (cur ++ String c EmptyString)%string
  end.
Definition py_split (s : string) (sep : Ascii.ascii) : list string := split_acc s sep EmptyString.

Definition space : Ascii.ascii := Ascii.ascii_of_nat 32.
Definition slash : Ascii.ascii := Ascii.ascii_of_nat 47.

(** What the loaders call outside the module. *)
Class LoaderLib := {
  (** [float(s)] *)
  py_float : string -> Result Q;
  (** [int(s)] *)
  py_int : string -> Result Z;
  (** [Image.open(os.path.join(os.path.split(mtlFilePath)[0], name))],
      flipped and converted to RGBA: its width and height *)
  image_size : string -> string -> Result (Z * Z)
}.

Section Loaders.
Context `{GLDriver} `{LoaderLib}.

(** [list(map(f, l))]: the conversions run in order, the first failure raises. *)
Fixpoint map_result {A} (f : string -> Result A) (l : list string) : Result (list A) :=
  match l with
  | [] => Ok []
  | x :: l => match f x with Ok a => match map_result f l with Ok r => Ok (a :: r) | Raise e => Raise e end
              | Raise e => Raise e end
  end.

(** [p, t, n = map(int, attrs.split('/'))]: the unpacking pulls at most
    four items from the [map]. *)
Definition unpack3_int (parts : list string) : Result (Z * Z * Z) :=
  match parts with
  | [a; b; c] => let? x := py_int a in let? y := py_int b in let? z := py_int c in Ok (x, y, z)
  | a :: b :: c :: d :: _ =>
      let? _ := py_int a in let? _ := py_int b in let? _ := py_int c in let? _ := py_int d in
      Raise (ValueError "too many values to unpack (expected 3)")
  | _ => let? _ := map_result py_int parts in
         Raise (ValueError ("not enough values to unpack (expected 3, got " ++ pretty (length parts) ++ ")"))
  end.
End Loaders.

(** ** [loadObjFile] *)

(** The counters and the [mtllib] path of the first pass. *)
Record ObjCounts := mkObjCounts {
  nVertices : Z; nTextureCoords : Z; nNormals : Z; nFaces : Z; nObjects : Z; nMaterials : Z;
  matLibPath : option string
}.

Definition counts0 : ObjCounts := mkObjCounts 0 0 0 0 0 0 None.

(** One line of the first pass (the raw line, its newline included). *)
Definition count_line (c : ObjCounts) (line : string) : ObjCounts :=
  let '(mkObjCounts v t n f o m p) := c in
  if py_startswith line "v " then mkObjCounts (v + 1) t n f o m p
  else if py_startswith line "vt " then mkObjCounts v (t + 1) n f o m p
  else if py_startswith line "vn " then mkObjCounts v t (n + 1) f o m p
  else if py_startswith line "f " then mkObjCounts v t n (f + 1) o m p
  else if py_startswith line "o " then mkObjCounts v t n f (o + 1) m p
  else if py_startswith line "usemtl " then mkObjCounts v t n f o (m + 1) p
  else if py_startswith line "mtllib " then mkObjCounts v t n f o m (Some (py_slice_from (py_strip line) 7))
  else c.

(** The local variables of the second pass.  [vertexAttrs] is the
    [OrderedDict] the de-duplication test reads; nothing writes it. *)
Record ObjParse := mkObjParse {
  positionDefs : list (list Q); texCoordDefs : list (list Q); normalDefs : list (list Q);
  vertexAttrList : list Q; texCoordAttrList : list Q; normalAttrList : list Q;
  vertexAttrs : list (string * Z); vertexIndices : list (string * Z);
  materialGroups : list (string * list Z); materialOffsets : list (string * Z);
  vertexIdx : Z; faceIdx : Z; materialGroup : option string
}.

Definition parse0 : ObjParse := mkObjParse [] [] [] [] [] [] [] [] [] [] 0 0 None.

Section ObjParsing.
Context `{LoaderLib}.

(** One vertex [p/t/n] of a face line: its attributes are appended and it
    gets the next index unless [vertexAttrs] holds it. *)
Definition face_vertex (st : ObjParse) (attrs : string) : Result ObjParse :=
  if is_some (dict_get (vertexAttrs st) attrs) then Ok st else
  let? ptn := unpack3_int (py_split attrs slash) in
  let '(p, t, n) := ptn in
  let? pos := py_getitem (positionDefs st) (p - 1) in
  let? tex := py_getitem (texCoordDefs st) (t - 1) in
  let? nrm := py_getitem (normalDefs st) (n - 1) in
  Ok {| positionDefs := positionDefs st; texCoordDefs := texCoordDefs st; normalDefs := normalDefs st;
        vertexAttrList := (vertexAttrList st ++ pos)%list; texCoordAttrList := (texCoordAttrList st ++ tex)%list;
        normalAttrList := (normalAttrList st ++ nrm)%list;
        vertexAttrs := vertexAttrs st; vertexIndices := dict_set (vertexIndices st) attrs (vertexIdx st);
        materialGroups := materialGroups st; materialOffsets := materialOffsets st;
        vertexIdx := vertexIdx st + 1; faceIdx := faceIdx st; materialGroup := materialGroup st |}.

(** The loop over the vertices of a face, collecting [faceDef]. *)
Fixpoint face_vertices (st : ObjParse) (faceDef : list Z) (l : list string) : Result (ObjParse * list Z) :=
  match l with
  | [] => Ok (st, faceDef)
  | attrs :: l =>
      let? st := face_vertex st attrs in
      match dict_get (vertexIndices st) attrs with
      | Some i => face_vertices st (faceDef ++ [i])%list l
      | None => Raise (KeyError attrs)
      end
  end.

Definition with_defs (st : ObjParse) (ps ts ns : list (list Q)) : ObjParse :=
  {| positionDefs := ps; texCoordDefs := ts; normalDefs := ns;
     vertexAttrList := vertexAttrList st; texCoordAttrList := texCoordAttrList st;
     normalAttrList := normalAttrList st; vertexAttrs := vertexAttrs st; vertexIndices := vertexIndices st;
     materialGroups := materialGroups st; materialOffsets := materialOffsets st;
     vertexIdx := vertexIdx st; faceIdx := faceIdx st; materialGroup := materialGroup st |}.

Definition with_groups (st : ObjParse) (groups : list (string * list Z)) (offsets : list (string * Z))
    (fi : Z) (mg : option string) : ObjParse :=
  {| positionDefs := positionDefs st; texCoordDefs := texCoordDefs st; normalDefs := normalDefs st;
     vertexAttrList := vertexAttrList st; texCoordAttrList := texCoordAttrList st;
     normalAttrList := normalAttrList st; vertexAttrs := vertexAttrs st; vertexIndices := vertexIndices st;
     materialGroups := groups; materialOffsets := offsets;
     vertexIdx := vertexIdx st; faceIdx := fi; materialGroup := mg |}.

(** The name a [KeyError] on [materialGroups[materialGroup]] shows. *)
Definition group_key (mg : option string) : string := default "None" mg.

(** One line of the second pass. *)
Definition parse_line (st : ObjParse) (line0 : string) : Result ObjParse :=
  let line := py_strip line0 in
  if py_startswith line "v " then
    let? v := map_result py_float (py_split (py_slice_from line 2) space) in
    Ok (with_defs st ((positionDefs st ++ [v])%list) (texCoordDefs st) (normalDefs st))
  else if py_startswith line "vt " then
    let? v := map_result py_float (py_split (py_slice_from line 3) space) in
    Ok (with_defs st (positionDefs st) ((texCoordDefs st ++ [v])%list) (normalDefs st))
  else if py_startswith line "vn " then
    let? v := map_result py_float (py_split (py_slice_from line 3) space) in
    Ok (with_defs st (positionDefs st) (texCoordDefs st) ((normalDefs st ++ [v])%list))
  else if py_startswith line "f " then
    let? r := face_vertices st [] (py_split (py_slice_from line 2) space) in
    let '(st, faceDef) := r in
    let mg := materialGroup st in
    match match mg with Some g => dict_get (materialGroups st) g | None => None end with
    | Some elems =>
        Ok (with_groups st (dict_set (materialGroups st) (group_key mg) (elems ++ faceDef)%list)
              (materialOffsets st) (faceIdx st + 1) mg)
    | None => Raise (KeyError (group_key mg))
    end
  else if py_startswith line "usemtl " then
    let g := py_slice_from line 7 in
    if is_some (dict_get (materialGroups st) g) then Ok (with_groups st (materialGroups st) (materialOffsets st)
                                                         (faceIdx st) (Some g))
    else Ok (with_groups st (dict_set (materialGroups st) g []) (dict_set (materialOffsets st) g (faceIdx st))
               (faceIdx st) (Some g))
  else Ok st.
End ObjParsing.

(** [WavefrontObj = namedtuple('WavefrontObj', ['mtlFile', 'drawGroups',
    'posBuffer', 'texCoordBuffer', 'normBuffer', 'userData'])]; the
    [userData] dict is always empty. *)
Record WavefrontObj := mkWavefrontObj {
  obj_mtlFile : option string; obj_drawGroups : list (string * VertexArrayObject);
  obj_posBuffer : VertexBufferInfo; obj_texCoordBuffer : VertexBufferInfo; obj_normBuffer : VertexBufferInfo
}.

(** [createVBO(l, ...)] on a Python list: [np.asarray] gives the shape
    [(len(l),)]. *)
Definition list_shape {A} (l : list A) : list Z := [Z.of_nat (length l)].

Section LoadObj.
Context `{GLDriver} `{LoaderLib}.

Definition loadObjFile (text : string) : GLM WavefrontObj :=
  let lines := py_readlines text in
  let counts := fold_left count_line lines counts0 in
  if nVertices counts =? 0 then raise (RuntimeError "Failed to load OBJ file, file contains no vertices.") else
  do st <- py_foldl (fun st line => lift (parse_line st line)) parse0 lines;
  do posVBO <- createVBO (list_shape (vertexAttrList st)) GL_ARRAY_BUFFER GL_FLOAT GL_STATIC_DRAW;
  do texVBO <- createVBO (list_shape (texCoordAttrList st)) 2 GL_FLOAT GL_STATIC_DRAW;
  do normVBO <- createVBO (list_shape (normalAttrList st)) GL_ARRAY_BUFFER GL_FLOAT GL_STATIC_DRAW;
  do objVAOs <- py_foldl (fun objVAOs ge =>
      (** [createVBO(elements, dtype=..., target=...)]: [createVBO] has no
          parameter [dtype] *)
      do indexBuffer <- raise (TypeError "createVBO() got an unexpected keyword argument 'dtype'");
      do vao <- createVAO [(GL_VERTEX_ARRAY, VBInfo posVBO); (GL_TEXTURE_COORD_ARRAY, VBInfo texVBO);
                           (GL_NORMAL_ARRAY, VBInfo normVBO)] (Some (VBInfo indexBuffer));
      ret (dict_set objVAOs ge.1 vao)) [] (materialGroups st);
  ret (mkWavefrontObj (matLibPath counts) objVAOs posVBO texVBO normVBO).
End LoadObj.

(** ** [loadMtlFile] *)

(** A key of [foundMaterials]: a material name, or [None] for the initial
    value [0] of [thisMaterial] (an [int] no [newmtl] line gives). *)
Abbreviation MtlKey := (option string).

Definition mtl_key_text (k : MtlKey) : string := default "0" k.

Definition find_material (fm : list (MtlKey * Material)) (k : MtlKey) : Result Material :=
  match dict_get fm k with Some m => Ok m | None => Raise (KeyError (mtl_key_text k)) end.

Definition set_mat_param (m : Material) (mode : Z) (v : CFloats) : Material :=
  mkMaterial (mat_face m) (dict_set (mat_params m) mode (Some v)) (mat_textures m).

Definition set_mat_texture (m : Material) (unit : Z) (t : TexImage2D) : Material :=
  mkMaterial (mat_face m) (mat_params m) (dict_set (mat_textures m) unit t).

(** [foundMaterials], [foundTextures] and [thisMaterial] *)
Definition MtlState := (list (MtlKey * Material) * list (string * TexImage2D) * MtlKey)%type.

Section LoadMtl.
Context `{GLDriver} `{LoaderLib}.

(** [(GL.GLfloat * 4)( *list(map(float, line[3:].split(' '))) + [1.0])] *)
Definition mtl_color (line : string) : Result CFloats :=
  let? vals := map_result py_float (py_split (py_slice_from line 3) space) in
  float_array 4 (PSeq (vals ++ [1%Q])%list).

(** [foundMaterials[thisMaterial].params[mode] = value]: the value is
    computed first, then the material looked up. *)
Definition set_param (st : MtlState) (mode : Z) (value : Result CFloats) : GLM MtlState :=
  let '(fm, ft, this) := st in
  do v <- lift value;
  do m <- lift (find_material fm this);
  ret (dict_set fm this (set_mat_param m mode v), ft, this).

Definition mtl_line (mtlFilePath : string) (texParameters : list (Z * Z)) (st : MtlState) (line0 : string)
    : GLM MtlState :=
  let line := py_strip line0 in
  if py_startswith line "newmtl " then
    let thisMaterial := Some (py_slice_from line 7) in
    do m <- createMaterial [] [] GL_FRONT_AND_BACK;
    ret (dict_set st.1.1 thisMaterial m, st.1.2, thisMaterial)
  else if py_startswith line "Ns " then
    set_param st GL_SHININESS (let? q := py_float (py_slice_from line 3) in c_float (PNum q))
  else if py_startswith line "Ks " then set_param st GL_SPECULAR (mtl_color line)
  else if py_startswith line "Kd " then set_param st GL_DIFFUSE (mtl_color line)
  else if py_startswith line "Ka " then set_param st GL_AMBIENT (mtl_color line)
  else if py_startswith line "map_Kd " then
    let textureName := py_slice_from line 7 in
    do ft <- (if is_some (dict_get st.1.2 textureName) then ret st.1.2 else
              do wh <- lift (image_size mtlFilePath textureName);
              do t <- createTexImage2D wh.1 wh.2 GL_TEXTURE_2D 0 GL_RGBA GL_RGBA GL_UNSIGNED_BYTE 1 texParameters;
              ret (dict_set st.1.2 textureName t));
    do t <- lift (match dict_get ft textureName with Some t => Ok t | None => Raise (KeyError textureName) end);
    do m <- lift (find_material st.1.1 st.2);
    ret (dict_set st.1.1 st.2 (set_mat_texture m GL_TEXTURE0 t), ft, st.2)
  else ret st.

Definition loadMtlFile (mtlFilePath text : string) (texParameters : option (list (Z * Z)))
    : GLM (list (MtlKey * Material)) :=
  let texParameters := default [(GL_TEXTURE_MAG_FILTER, GL_LINEAR); (GL_TEXTURE_MIN_FILTER, GL_LINEAR)]
                         texParameters in
  do st <- py_foldl (mtl_line mtlFilePath texParameters) ([], [], None) (py_readlines text);
  ret st.1.1.
End LoadMtl.

(** ** Properties of the loaders *)

(** [createVBO] on a flat list: [data.shape[1]] raises before any
    OpenGL call. *)
Lemma createVBO_flat `{GLDriver} n target usage s :
  createVBO [n] target GL_FLOAT usage s = (Raise (IndexError "tuple index out of range"), s).
Proof. reflexivity. Qed.

Lemma py_foldl_lift_state {S A B} (f : B -> A -> Result B) acc l (s : S) :
  snd (py_foldl (fun b a => lift (f b a)) acc l s) = s.
Proof.
  revert acc. induction l as [|x l IH]; intros acc; [done|]. cbn [py_foldl]. unfold bind. cbn [lift].
  destruct (f acc x); [apply IH|done].
Qed.

(** The face vertex references of the lines (the pieces of [line[2:]]
    split at each space, for every line starting with ['f ']). *)
Definition face_refs (lines : list string) : Z :=
  fold_right (fun l n => let line := py_strip l in
               (if py_startswith line "f " then Z.of_nat (length (py_split (py_slice_from line 2) space)) else 0)
               + n) 0 lines.

Section ObjProperties.
Context `{LoaderLib}.

Lemma face_vertex_fresh st attrs st' :
  vertexAttrs st = [] -> face_vertex st attrs = Ok st' ->
  vertexAttrs st' = [] /\ vertexIdx st' = vertexIdx st + 1.
Proof.
  intros Hnil. unfold face_vertex. rewrite Hnil. cbn [dict_get is_some].
  destruct (unpack3_int _) as [[[p t] n]|]; [cbn [rbind]|done].
  destruct (py_getitem (positionDefs st) _); [cbn [rbind]|done].
  destruct (py_getitem (texCoordDefs st) _); [cbn [rbind]|done].
  destruct (py_getitem (normalDefs st) _); [cbn [rbind]|done].
  intros [= <-]. by split.
Qed.

Lemma face_vertices_fresh st fd l st' fd' :
  vertexAttrs st = [] -> face_vertices st fd l = Ok (st', fd') ->
  vertexAttrs st' = [] /\ vertexIdx st' = vertexIdx st + Z.of_nat (length l).
Proof.
  revert st fd. induction l as [|a l IH]; intros st fd Hnil; cbn [face_vertices].
  - intros [= <- _]. split; [done|cbn; lia].
  - destruct (face_vertex st a) as [st1|] eqn:E; [cbn [rbind]|done].
    destruct (face_vertex_fresh _ _ _ Hnil E) as [Hnil1 Hidx1].
    destruct (dict_get (vertexIndices st1) a); [|done]. intros Hr.
    destruct (IH _ _ Hnil1 Hr) as [Hnil' Hidx']. split; [done|]. rewrite Hidx', Hidx1. cbn [length]. lia.
Qed.

(** Two prefixes of the same string: one is a prefix of the other. *)
Lemma prefix_both p q s :
  String.prefix p s = true -> String.prefix q s = true -> String.prefix p q = true \/ String.prefix q p = true.
Proof.
  revert p q. induction s as [|c s IH]; intros [|a p] [|b q]; cbn; auto; try discriminate.
  destruct (Ascii.ascii_dec a c) as [->|], (Ascii.ascii_dec b c) as [->|]; try discriminate.
  destruct (Ascii.ascii_dec c c) as [_|]; [|done]. apply IH.
Qed.

(** Lines of two kinds whose keywords are not prefixes of each other. *)
Lemma prefix_exclusive p q s :
  String.prefix p q = false -> String.prefix q p = false ->
  py_startswith s p = true -> py_startswith s q = false.
Proof.
  unfold py_startswith. intros Hpq Hqp Hp. destruct (String.prefix q s) eqn:Hq; [|done].
  destruct (prefix_both _ _ _ Hp Hq); congruence.
Qed.

Lemma parse_line_fresh st line st' :
  vertexAttrs st = [] -> parse_line st line = Ok st' ->
  vertexAttrs st' = [] /\ vertexIdx st' = vertexIdx st + face_refs [line].
Proof.
  intros Hnil. unfold parse_line, face_refs. cbn [fold_right].
  destruct (py_startswith (py_strip line) "v ") eqn:Ev.
  { destruct (map_result _ _); [intros [= <-]|done]. rewrite (prefix_exclusive "v " "f " _ eq_refl eq_refl Ev). cbn; split; [done|lia]. }
  destruct (py_startswith (py_strip line) "vt ") eqn:Et.
  { destruct (map_result _ _); [intros [= <-]|done]. rewrite (prefix_exclusive "vt " "f " _ eq_refl eq_refl Et). cbn; split; [done|lia]. }
  destruct (py_startswith (py_strip line) "vn ") eqn:En.
  { destruct (map_result _ _); [intros [= <-]|done]. rewrite (prefix_exclusive "vn " "f " _ eq_refl eq_refl En). cbn; split; [done|lia]. }
  destruct (py_startswith (py_strip line) "f ").
  - destruct (face_vertices st [] _) as [[st1 fd]|] eqn:E; [cbn [rbind]|done].
    destruct (face_vertices_fresh _ _ _ _ _ Hnil E) as [Hnil1 Hidx1].
    destruct (match materialGroup st1 with Some g => _ | None => None end); [intros [= <-]|done].
    split; [done|]. cbn. lia.
  - destruct (py_startswith (py_strip line) "usemtl "); [case_match|]; intros [= <-]; split; cbn; (done || lia).
Qed.

(** The second pass of [loadObjFile] over all the lines. *)
Lemma parse_lines_fresh {S} lines st (s : S) st' s' :
  vertexAttrs st = [] -> py_foldl (fun st line => lift (parse_line st line)) st lines s = (Ok st', s') ->
  vertexAttrs st' = [] /\ vertexIdx st' = vertexIdx st + face_refs lines.
Proof.
  revert st. induction lines as [|l lines IH]; intros st Hnil; cbn [py_foldl].
  - intros [= <- _]. split; [done|cbn; lia].
  - unfold bind. cbn [lift]. destruct (parse_line st l) as [st1|] eqn:E; [|done]. intros Hr.
    destruct (parse_line_fresh _ _ _ Hnil E) as [Hnil1 Hidx1].
    destruct (IH _ Hnil1 Hr) as [Hnil' Hidx']. split; [done|]. rewrite Hidx', Hidx1.
    assert (Hc : face_refs (l :: lines) = face_refs [l] + face_refs lines) by (unfold face_refs; cbn [fold_right]; lia).
    rewrite Hc. lia.
Qed.
End ObjProperties.

Lemma float_array_color (vals : list Q) :
  ((length vals <= 3)%nat ->
   float_array 4 (PSeq (vals ++ [1%Q])%list) = Ok (CArray ((vals ++ [1%Q]) ++ replicate (3 - length vals) 0%Q)%list)) /\
  ((4 <= length vals)%nat -> float_array 4 (PSeq (vals ++ [1%Q])%list) = Raise (IndexError "invalid index")).
Proof.
  unfold float_array. rewrite length_app. cbn [length]. split; intros Hl.
  - rewrite (proj2 (Nat.leb_le _ _)) by lia. by replace (4 - (length vals + 1))%nat with (3 - length vals)%nat by lia.
  - rewrite (proj2 (Nat.leb_gt _ _)) by lia. done.
Qed.

Section LoaderClaims.
Context `{GLDriver} `{LoaderLib}.

(** C37: [loadObjFile] never returns a model: a file without vertex
    lines raises [RuntimeError]; otherwise, when its lines parse, the
    first upload [createVBO(vertexAttrList)] passes a flat list, whose
    [data.shape[1]] raises [IndexError].  Whatever the file, the OpenGL
    context is left as it was. *)
Theorem loadObjFile_always_raises text s : exists e, loadObjFile text s = (Raise e, s).
Proof.
  unfold loadObjFile. destruct (_ =? 0); [eauto|].
  unfold bind at 1. pose proof (py_foldl_lift_state parse_line parse0 (py_readlines text) s) as Hs.
  destruct (py_foldl _ _ _ s) as [[st|e] s'] eqn:E; cbn in Hs; subst s'; [|eauto].
  unfold bind at 1, list_shape. rewrite createVBO_flat. eauto.
Qed.

(** C38: the de-duplication of face vertices never happens: the second
    pass tests membership in [vertexAttrs], which nothing writes, so
    every [p/t/n] reference of a face line gets a new index (and its
    attributes appended again), also one that an earlier face used. *)
Theorem obj_faces_not_merged {S} lines st (s s' : S) :
  py_foldl (fun st line => lift (parse_line st line)) parse0 lines s = (Ok st, s') ->
  vertexIdx st = face_refs lines.
Proof. intros E. destruct (parse_lines_fresh _ parse0 _ _ _ eq_refl E) as [_ ->]. done. Qed.

(** C39: a [Kd] line of [loadMtlFile] whose numbers parse sets the
    current material's diffuse colour to those numbers followed by the
    alpha 1.0 (and zeros up to four components); four numbers or more
    raise [IndexError]; before any [newmtl] line the material [0] is
    looked up and [KeyError] raised.  No OpenGL call is made. *)
Theorem mtl_line_diffuse path tp fm ft this m line vals s :
  py_startswith (py_strip line) "Kd " = true ->
  map_result py_float (py_split (py_slice_from (py_strip line) 3) space) = Ok vals ->
  ((length vals <= 3)%nat -> dict_get fm this = Some m ->
   mtl_line path tp (fm, ft, this) line s =
     (Ok (dict_set fm this (set_mat_param m GL_DIFFUSE
            (CArray ((vals ++ [1%Q]) ++ replicate (3 - length vals) 0%Q)%list)), ft, this), s)) /\
  ((4 <= length vals)%nat -> mtl_line path tp (fm, ft, this) line s = (Raise (IndexError "invalid index"), s)) /\
  ((length vals <= 3)%nat -> dict_get fm None = None ->
   mtl_line path tp (fm, ft, None) line s = (Raise (KeyError "0"), s)).
Proof.
  intros Hkd Hvals. unfold mtl_line.
  rewrite (prefix_exclusive "Kd " "newmtl " _ eq_refl eq_refl Hkd),
          (prefix_exclusive "Kd " "Ns " _ eq_refl eq_refl Hkd),
          (prefix_exclusive "Kd " "Ks " _ eq_refl eq_refl Hkd), Hkd.
  unfold set_param, mtl_color. rewrite Hvals. cbn [rbind].
  destruct (float_array_color vals) as [Hok Hbad]. split_and!.
  - intros Hl Hm. rewrite (Hok Hl). unfold bind. cbn [lift]. unfold find_material. by rewrite Hm.
  - intros Hl. rewrite (Hbad Hl). done.
  - intros Hl Hm. rewrite (Hok Hl). unfold bind. cbn [lift]. unfold find_material. by rewrite Hm.
Qed.
End LoaderClaims.

(** ** The loaders on example files

    [int] and [float] on plain decimal numerals, and images of 64 by 64
    pixels. *)

Fixpoint parse_digits (s : string) (acc : Z) (n : nat) : option (Z * nat) :=
  match s with
  | EmptyString => Some (acc, n)
  | String c s' =>
      let k := Z.of_nat (Ascii.nat_of_ascii c) in
      if (48 <=? k) && (k <=? 57) then parse_digits s' (acc * 10 + (k - 48)) (S n) else None
  end.

Definition parse_unsigned (s : string) : option Z :=
  match parse_digits s 0 0 with Some (z, S _) => Some z | _ => None end.

Definition with_sign (s : string) : bool * string :=
  match s with String c s' => if Ascii.eqb c (Ascii.ascii_of_nat 45) then (true, s') else (false, s) | _ => (false, s) end.

Definition example_int (s : string) : Result Z :=
  let '(neg, r) := with_sign s in
  match parse_unsigned r with
  | Some z => Ok (if neg then - z else z)
  | None => Raise (ValueError "invalid literal for int() with base 10")
  end.

Definition example_float (s : string) : Result Q :=
  let '(neg, r) := with_sign s in
  let q := match py_split r (Ascii.ascii_of_nat 46) with
           | [a] => option_map inject_Z (parse_unsigned a)
           | [a; b] => match parse_unsigned a, parse_unsigned b with
                       | Some x, Some y => Some (Qmake (x * 10 ^ Z.of_nat (String.length b) + y)
                                                        (Pos.of_nat (10 ^ String.length b)))
                       | _, _ => None
                       end
           | _ => None
           end in
  match q with
  | Some q => Ok (if neg then Qopp q else q)
  | None => Raise (ValueError "could not convert string to float")
  end.

Definition example_loader : LoaderLib := {|
  py_float := example_float; py_int := example_int; image_size _ _ := Ok (64, 64)
|}.

Section LoaderWitnesses.
#[local] Existing Instance example_driver.
#[local] Existing Instance example_loader.

(** One triangle whose three corners are the same vertex [1/1/1]. *)
Definition example_obj : string :=
  "v 0 0 0" ++ nl ++ "vt 0 0" ++ nl ++ "vn 0 0 1" ++ nl ++ "usemtl red" ++ nl ++ "f 1/1/1 1/1/1 1/1/1" ++ nl.

Lemma obj_faces_not_merged_witness :
  exists st, py_foldl (fun st line => lift (parse_line st line)) parse0 (py_readlines example_obj) tt = (Ok st, tt) /\
  vertexIdx st = 3 /\ length (vertexIndices st) = 1%nat.
Proof.
  destruct (py_foldl _ _ _ tt) as [[st|e] []] eqn:E; [|vm_compute in E; discriminate].
  exists st. split_and!; [done| |].
  - by rewrite (obj_faces_not_merged _ _ _ _ E).
  - vm_compute in E. by injection E as <-.
Defined.

Definition example_mtl_state : MtlState := ([(Some "red", defaultMaterial)], [], Some "red").

Lemma mtl_line_diffuse_witness :
  exists vals, map_result py_float (py_split (py_slice_from (py_strip "Kd 1 0.5 0") 3) space) = Ok vals /\
  mtl_line "red.mtl" [] example_mtl_state "Kd 1 0.5 0" gl_init =
    (Ok (dict_set example_mtl_state.1.1 (Some "red")
           (set_mat_param defaultMaterial GL_DIFFUSE (CArray (vals ++ [1%Q])%list)), [], Some "red"), gl_init).
Proof.
  destruct (map_result py_float _) as [vals|e] eqn:Ev; [|vm_compute in Ev; discriminate].
  exists vals. split; [done|].
  unfold example_mtl_state. cbn [fst].
  destruct (mtl_line_diffuse "red.mtl" [] [(Some "red", defaultMaterial)] [] (Some "red") defaultMaterial "Kd 1 0.5 0"
              vals gl_init eq_refl Ev) as [Hok _].
  assert (Hl : length vals = 3%nat) by (vm_compute in Ev; by injection Ev as <-).
  rewrite (Hok ltac:(lia) eq_refl), Hl. by rewrite app_nil_r.
Defined.
End LoaderWitnesses.

(** ** The loaders keep the context well formed *)

Section LoaderWf.
Context `{GLDriver} `{LoaderLib}.

#[local] Hint Resolve createVBO_wf createVAO_wf createMaterial_wf createTexImage2D_wf : glwf.

Lemma loadObjFile_wf ns ps text : preserves (wf_but ns ps) (loadObjFile text).
Proof.
  unfold loadObjFile. preserves_tac.
  - apply preserves_foldl. intros. apply preserves_lift.
  - apply preserves_foldl. intros. preserves_tac.
Qed.

Lemma loadMtlFile_wf ns ps path text tp : preserves (wf_but ns ps) (loadMtlFile path text tp).
Proof.
  unfold loadMtlFile. preserves_tac. apply preserves_foldl. intros [[fm ft] this] line.
  unfold mtl_line, set_param. preserves_tac.
Qed.
End LoaderWf.
