(* ===== verification/Queries.v ===== *)
(** * OpenGL queries ([gltools.py], lines 2482-2580)

    [getFloatv] and [getString] read an implementation value through
    [glGetFloatv] and [glGetString] of [GLContext] ([getIntegerv] is in
    [Images]); [getOpenGLInfo] collects the vendor, renderer and version
    strings, six integers and the extension list into the [OpenGLInfo]
    namedtuple.  [glGetString] answers [NULL] for a parameter the context
    does not accept; [ctypes.cast(NULL, c_char_p).value] is [None], whose
    [decode] raises.  The strings are ASCII text, so the UTF-8 decoding
    is the identity. *)

From S2P Require Import Prelude GLContext GLWf Images ObjLoader.
From Stdlib Require Import QArith.
Import GL.
Open Scope Z_scope.

(** [OpenGLInfo] without its always empty [userData] dict. *)
Record OpenGLInfo := mkOpenGLInfo {
  info_vendor : string; info_renderer : string; info_version : string;
  info_majorVersion : Z; info_minorVersion : Z; info_doubleBuffer : Z; info_maxTextureSize : Z;
  info_stereo : Z; info_maxSamples : Z; info_extensions : list string
}.

Section Queries.
Context `{GLDriver}.

(** [val = GL.GLfloat(); GL.glGetFloatv(parName, val); return float(val.value)] *)
Definition getFloatv (parName : Z) : GLM Q :=
  do v <- glGetFloatv parName; ret (default 0%Q v).

(** [ctypes.cast(GL.glGetString(parName), ctypes.c_char_p).value.decode('UTF-8')] *)
Definition getString (parName : Z) : GLM string :=
  do p <- glGetString parName;
  match p with
  | Some v => ret v
  | None => raise (AttributeError "'NoneType' object has no attribute 'decode'")
  end.

Definition getOpenGLInfo : GLM OpenGLInfo :=
  do vendor <- getString GL_VENDOR;
  do renderer <- getString GL_RENDERER;
  do version <- getString GL_VERSION;
  do major <- getIntegerv GL_MAJOR_VERSION;
  do minor <- getIntegerv GL_MINOR_VERSION;
  do doubleBuffer <- getIntegerv GL_DOUBLEBUFFER;
  do maxTextureSize <- getIntegerv GL_MAX_TEXTURE_SIZE;
  do stereo <- getIntegerv GL_STEREO;
  do maxSamples <- getIntegerv GL_MAX_SAMPLES;
  do extensions <- getString GL_EXTENSIONS;
  ret (mkOpenGLInfo vendor renderer version major minor doubleBuffer maxTextureSize stereo maxSamples
         (py_split extensions space)).
End Queries.

(** ** What [getOpenGLInfo] reports *)

Section QueryProperties.
Context `{GLDriver}.

Lemma getString_run p s :
  getString p s = (match drv_get_string p with
                   | Some v => Ok v
                   | None => Raise (AttributeError "'NoneType' object has no attribute 'decode'")
                   end, s).
Proof. unfold getString, glGetString, bind, ret. by destruct (drv_get_string p). Qed.

Lemma getIntegerv_driver p s :
  p <> GL_MAX_SAMPLES -> p <> GL_MAX_LIGHTS -> p <> GL_MAX_COMBINED_TEXTURE_IMAGE_UNITS ->
  p <> GL_FRAMEBUFFER_BINDING -> p <> GL_ARRAY_BUFFER_BINDING -> p <> GL_ELEMENT_ARRAY_BUFFER_BINDING ->
  p <> GL_VERTEX_ARRAY_BINDING ->
  getIntegerv p s = (Ok (default 0 (drv_get_integer p)), s).
Proof.
  intros. unfold getIntegerv, gl_query_int, glGetIntegerv, bind, gets, ret. cbn.
  repeat (rewrite (proj2 (Z.eqb_neq _ _)) by done). done.
Qed.

Lemma getIntegerv_max_samples s : getIntegerv GL_MAX_SAMPLES s = (Ok drv_max_samples, s).
Proof. reflexivity. Qed.

(** C40: [getOpenGLInfo] reports the strings and the integers of the
    implementation (an integer it does not know reads as 0), the
    extension string split at each space, and changes no state; when the
    context gives no [GL_EXTENSIONS] string (a core profile context,
    where [glGetString(GL_EXTENSIONS)] is invalid) it raises
    [AttributeError] after the other queries. *)
Theorem getOpenGLInfo_spec vendor renderer version s :
  drv_get_string GL_VENDOR = Some vendor -> drv_get_string GL_RENDERER = Some renderer ->
  drv_get_string GL_VERSION = Some version ->
  (forall ext, drv_get_string GL_EXTENSIONS = Some ext ->
     getOpenGLInfo s =
       (Ok (mkOpenGLInfo vendor renderer version
              (default 0 (drv_get_integer GL_MAJOR_VERSION)) (default 0 (drv_get_integer GL_MINOR_VERSION))
              (default 0 (drv_get_integer GL_DOUBLEBUFFER)) (default 0 (drv_get_integer GL_MAX_TEXTURE_SIZE))
              (default 0 (drv_get_integer GL_STEREO)) drv_max_samples (py_split ext space)), s)) /\
  (drv_get_string GL_EXTENSIONS = None ->
   getOpenGLInfo s = (Raise (AttributeError "'NoneType' object has no attribute 'decode'"), s)).
Proof.
  intros Hv Hr Hver.
  assert (Hq : forall p, p = GL_MAJOR_VERSION \/ p = GL_MINOR_VERSION \/ p = GL_DOUBLEBUFFER \/
                         p = GL_MAX_TEXTURE_SIZE \/ p = GL_STEREO ->
                 getIntegerv p s = (Ok (default 0 (drv_get_integer p)), s)).
  { intros p Hp. apply getIntegerv_driver; intros ->; repeat destruct Hp as [Hp|Hp]; discriminate Hp. }
  unfold getOpenGLInfo.
  do 3 (erewrite bind_Ok by (rewrite getString_run, ?Hv, ?Hr, ?Hver; reflexivity)).
  do 5 (erewrite bind_Ok by (apply Hq; tauto)).
  erewrite bind_Ok by apply getIntegerv_max_samples.
  split; [intros ext He|intros He]; unfold bind; rewrite getString_run, He; reflexivity.
Qed.
End QueryProperties.

Section QueryWf.
Context `{GLDriver}.

Lemma getFloatv_wf ns ps p : preserves (wf_but ns ps) (getFloatv p).
Proof. unfold getFloatv, glGetFloatv. preserves_tac. Qed.

Lemma getString_wf ns ps p : preserves (wf_but ns ps) (getString p).
Proof. unfold getString, glGetString. preserves_tac. Qed.

#[local] Hint Resolve getString_wf : glwf.

Lemma getOpenGLInfo_wf ns ps : preserves (wf_but ns ps) getOpenGLInfo.
Proof. unfold getOpenGLInfo, getIntegerv. preserves_tac. Qed.
End QueryWf.

(** The example driver has no [GL_EXTENSIONS] string, as a core profile
    context. *)
Lemma getOpenGLInfo_spec_witness :
  @getOpenGLInfo example_driver gl_init =
    (Raise (AttributeError "'NoneType' object has no attribute 'decode'"), gl_init).
Proof.
  exact (proj2 (@getOpenGLInfo_spec example_driver "Example" "Example renderer" "4.6.0" gl_init
                  eq_refl eq_refl eq_refl) eq_refl).
Defined.
