(* ===== verification/Shaders.v ===== *)
(** * Shader program helpers ([gltools.py], lines 50-871)

    One definition per Python function: program creation, shader
    compilation with its failure path, deletion, attach/detach, linking,
    validation, installing a program, information logs and the uniform and
    attribute queries.  Each function is the sequence of OpenGL calls the
    source makes, in the [GLM] monad of [GLContext], with its checks and
    raises in the order of the source. *)

From S2P Require Import Prelude GLContext GLWf ShaderWf.
Import GL.
Open Scope Z_scope.

(** GLSL source passed as one string or as a list (or tuple) of strings. *)
Inductive ShaderSource :=
| SrcString (src : string)
| SrcList (srcs : list string).

Definition sources_of (src : ShaderSource) : list string :=
  match src with SrcString s => [s] | SrcList l => l end.

Section Shaders.
Context `{GLDriver}.

Definition createProgram : GLM Z := glCreateProgram.

Definition createProgramObjectARB : GLM Z := glCreateProgramObjectARB.

(** [ctypes.create_string_buffer(n).value] after the driver wrote (or
    did not write) the log: at most [n - 1] characters and a NUL. *)
Definition info_log_value (bufSize : Z) (written : option string) : string :=
  match written with
  | Some log => if bufSize <=? 0 then "" else String.substring 0 (Z.to_nat (bufSize - 1)) log
  | None => ""
  end.

Definition getInfoLog (obj : Z) : GLM string :=
  do isShader <- glIsShader obj;
  do logLength <-
    (if isShader then gl_query_int (glGetShaderiv obj GL_INFO_LOG_LENGTH)
     else do isProgram <- glIsProgram obj;
          if isProgram then gl_query_int (glGetProgramiv obj GL_INFO_LOG_LENGTH)
          else raise (ValueError "Specified value of `obj` is not a shader or program."));
  do written <- glGetShaderInfoLog obj;
  ret (info_log_value logLength written).

Definition deleteObject (obj : Z) : GLM unit :=
  do isShader <- glIsShader obj;
  if isShader then glDeleteShader obj else
  do isProgram <- glIsProgram obj;
  if isProgram then glDeleteProgram obj
  else raise (ValueError "Cannot delete, not a program or shader object.").

Definition deleteObjectARB (obj : Z) : GLM unit := glDeleteObjectARB obj.

Definition compileShader (shaderSrc : ShaderSource) (shaderType : Z) : GLM Z :=
  do shaderId <- glCreateShader shaderType;
  do! glShaderSource shaderId (sources_of shaderSrc);
  do! glCompileShader shaderId;
  do result <- gl_query_int (glGetShaderiv shaderId GL_COMPILE_STATUS);
  if result =? GL_FALSE then
    do log <- getInfoLog shaderId;
    do! sys_stderr_write (log ++ nl);
    do! deleteObject shaderId;
    raise (RuntimeError "Shader compilation failed, check log output.")
  else ret shaderId.

Definition compileShaderObjectARB (shaderSrc : ShaderSource) (shaderType : Z) : GLM Z :=
  do shaderId <- glCreateShaderObjectARB shaderType;
  do! glShaderSourceARB shaderId (sources_of shaderSrc);
  do! glCompileShaderARB shaderId;
  do result <- gl_query_int (glGetObjectParameterivARB shaderId GL_COMPILE_STATUS);
  if result =? GL_FALSE then
    do log <- getInfoLog shaderId;
    do! sys_stderr_write (log ++ nl);
    do! deleteObjectARB shaderId;
    raise (RuntimeError "Shader compilation failed, check log output.")
  else ret shaderId.

Definition attachShader (program shader : Z) : GLM unit :=
  do isProgram <- glIsProgram program;
  if negb isProgram then raise (ValueError "Value `program` is not a program object.") else
  do isShader <- glIsShader shader;
  if negb isShader then raise (ValueError "Value `shader` is not a shader object.")
  else glAttachShader program shader.

Definition attachObjectARB (program shader : Z) : GLM unit :=
  do isProgram <- glIsProgram program;
  if negb isProgram then raise (ValueError "Value `program` is not a program object.") else
  do isShader <- glIsShader shader;
  if negb isShader then raise (ValueError "Value `shader` is not a shader object.")
  else glAttachObjectARB program shader.

Definition detachShader (program shader : Z) : GLM unit :=
  do isProgram <- glIsProgram program;
  if negb isProgram then raise (ValueError "Value `program` is not a program.") else
  do isShader <- glIsShader shader;
  if negb isShader then raise (ValueError "Value `shader` is not a shader object.")
  else glDetachShader program shader.

Definition detachObjectARB (program shader : Z) : GLM unit :=
  do isProgram <- glIsProgram program;
  if negb isProgram then raise (ValueError "Value `program` is not a program.") else
  do isShader <- glIsShader shader;
  if negb isShader then raise (ValueError "Value `shader` is not a shader object.")
  else glDetachObjectARB program shader.

Definition linkProgram (program : Z) : GLM unit :=
  do isProgram <- glIsProgram program;
  if negb isProgram then raise (ValueError "Value `program` is not a shader program.") else
  do! glLinkProgram program;
  do result <- gl_query_int (glGetProgramiv program GL_LINK_STATUS);
  if result =? GL_FALSE then
    do log <- getInfoLog program;
    do! sys_stderr_write (log ++ nl);
    raise (RuntimeError "Failed to link shader program. Check log output.")
  else ret tt.

Definition linkProgramObjectARB (program : Z) : GLM unit :=
  do isProgram <- glIsProgram program;
  if negb isProgram then raise (ValueError "Value `program` is not a shader program.") else
  do! glLinkProgramARB program;
  do result <- gl_query_int (glGetObjectParameterivARB program GL_LINK_STATUS);
  if result =? GL_FALSE then
    do log <- getInfoLog program;
    do! sys_stderr_write (log ++ nl);
    raise (RuntimeError "Failed to link shader program. Check log output.")
  else ret tt.

Definition validateProgram (program : Z) : GLM unit :=
  do! glValidateProgram program;
  do result <- gl_query_int (glGetProgramiv program GL_VALIDATE_STATUS);
  if result =? GL_FALSE then
    do log <- getInfoLog program;
    do! sys_stderr_write (log ++ nl);
    raise (RuntimeError "Shader program validation failed.")
  else ret tt.

Definition validateProgramARB (program : Z) : GLM unit :=
  do! glValidateProgramARB program;
  do result <- gl_query_int (glGetObjectParameterivARB program GL_VALIDATE_STATUS);
  if result =? GL_FALSE then
    do log <- getInfoLog program;
    do! sys_stderr_write (log ++ nl);
    raise (RuntimeError "Shader program validation failed.")
  else ret tt.

(** [program] is [None] or a handle; [None] means 0. *)
Definition useProgram (program : option Z) : GLM unit :=
  let program := default 0 program in
  do isProgram <- glIsProgram program;
  if isProgram || (program =? 0) then glUseProgram program
  else raise (ValueError "Specified `program` is not a program object.").

Definition useProgramObjectARB (program : option Z) : GLM unit :=
  let program := default 0 program in
  do isProgram <- glIsProgram program;
  if isProgram || (program =? 0) then glUseProgramObjectARB program
  else raise (ValueError "Specified `program` is not a program object.").

(** One step of the loop of [getUniformLocations]: the name the driver
    writes into a buffer of [maxLength] characters, its location, and
    the dict update (built-ins, at location -1, only when asked). *)
Definition add_location (builtins : bool) (nm : string) (loc : Z)
    (acc : gmap string Z) : gmap string Z :=
  if builtins then <[nm := loc]> acc
  else if loc =? -1 then acc else <[nm := loc]> acc.

Definition getUniformLocations (program : Z) (builtins : bool)
    : GLM (option (gmap string Z)) :=
  do isProgram <- glIsProgram program;
  if negb isProgram then
    raise (ValueError "Specified value of `program` is not a program object handle.") else
  do nUniforms <- gl_query_int (glGetProgramiv program GL_ACTIVE_UNIFORMS);
  if 0 <? nUniforms then
    do maxUniformLength <- gl_query_int (glGetProgramiv program GL_ACTIVE_UNIFORM_MAX_LENGTH);
    do unifLoc <- py_foldl (fun acc uniformIdx =>
         do written <- glGetActiveUniform program uniformIdx;
         let unifName := info_log_value maxUniformLength written in
         do loc <- glGetUniformLocation program unifName;
         ret (add_location builtins unifName loc acc)) ∅ (py_range nUniforms);
    ret (Some unifLoc)
  else ret None.

Definition getAttribLocations (program : Z) (builtins : bool)
    : GLM (option (gmap string Z)) :=
  do isProgram <- glIsProgram program;
  if negb isProgram then
    raise (ValueError "Specified value of `program` is not a program object handle.") else
  do nAttribs <- gl_query_int (glGetProgramiv program GL_ACTIVE_ATTRIBUTES);
  if 0 <? nAttribs then
    do maxAttribLength <- gl_query_int (glGetProgramiv program GL_ACTIVE_ATTRIBUTE_MAX_LENGTH);
    do attribLoc <- py_foldl (fun acc attribIdx =>
         do written <- glGetActiveAttrib program attribIdx;
         let attribName := info_log_value maxAttribLength written in
         do loc <- glGetAttribLocation program attribName;
         ret (add_location builtins attribName loc acc)) ∅ (py_range nAttribs);
    ret (Some attribLoc)
  else ret None.
(** The shader object [compileShader] leaves behind on success. *)
Definition compiled_state (s : GLState) (ty : Z) (srcs : list string) (log : string) : GLState :=
  set_obj (gl_next s) (OShader (mkShader ty srcs true log false)) (bump s).

(** The program a failed link leaves behind. *)
Definition link_failed (s : GLState) (pr : ProgramObj) (log : string) : ProgramObj :=
  {| pr with pr_linked := false; pr_log := log; pr_uniforms := []; pr_attribs := [] |}.

End Shaders.

(** ** Properties of the shader helpers *)

Section ShaderProperties.
Context `{GLDriver}.

(** Evaluate a helper, keeping the state updates and the called helpers
    folded so that their lemmas apply. *)
Local Ltac sh_run :=
  repeat (rewrite ?shader_of_set_shader, ?program_of_set_program, ?set_obj_set_obj,
            ?shader_of_with_stderr, ?attached_anywhere_with_stderr;
          cbn -[set_obj del_obj bump with_stderr sys_stderr_write getInfoLog deleteObject
                deleteObjectARB]).

Lemma info_log_value_full log :
  info_log_value (log_length log) (Some log) = log.
Proof.
  unfold info_log_value, log_length.
  destruct (String.eqb_spec log "") as [->|Hne]; [done|].
  destruct (Z.leb_spec (Z.of_nat (String.length log) + 1) 0); [lia|].
  replace (Z.to_nat (Z.of_nat (String.length log) + 1 - 1)) with (String.length log) by lia.
  apply substring_full.
Qed.

Lemma getInfoLog_shader s n sh :
  shader_of s n = Some sh -> getInfoLog n s = (Ok (sh_log sh), s).
Proof.
  intros Hs. unfold getInfoLog, glIsShader, gl_query_int, glGetShaderiv, glGetShaderInfoLog.
  pose proof (info_log_value_full (sh_log sh)) as E. unfold info_log_value in E.
  py_simpl. rewrite Hs. simpl. rewrite Hs. simpl. by rewrite E.
Qed.

Lemma getInfoLog_program s n pr :
  shader_of s n = None -> program_of s n = Some pr -> getInfoLog n s = (Ok "", s).
Proof.
  intros Hs Hp. unfold getInfoLog, glIsShader, glIsProgram, gl_query_int, glGetProgramiv,
    glGetShaderInfoLog.
  py_simpl. rewrite Hs. simpl. rewrite Hp. simpl. by rewrite Hs.
Qed.

(** C2: when the driver compiles the source, [compileShader] returns the
    fresh name and leaves exactly one new compiled shader holding the
    source strings and the driver's log. *)
Lemma compileShader_ok s src ty log :
  drv_compile ty (sources_of src) = (true, log) ->
  compileShader src ty s = (Ok (gl_next s), compiled_state s ty (sources_of src) log).
Proof.
  intros Hc. unfold compileShader, glCreateShader. py_simpl.
  rewrite gl_gen_run. sh_run. by rewrite Hc.
Qed.

(** C1: when compilation fails, [compileShader] writes the compiler log and
    a newline to [sys.stderr], deletes the shader it created (the object
    table is as before, only the name counter moved) and raises
    [RuntimeError]. *)
Lemma compileShader_fail s src ty log :
  gl_wf s -> drv_compile ty (sources_of src) = (false, log) ->
  exists s', compileShader src ty s =
    (Raise (RuntimeError "Shader compilation failed, check log output."), s') /\
  gl_objects s' = gl_objects s /\ gl_next s' = gl_next s + 1 /\
  gl_stderr s' = (log ++ nl) :: gl_stderr s.
Proof.
  intros Hwf Hc. unfold compileShader, glCreateShader. py_simpl.
  rewrite gl_gen_run. sh_run. rewrite Hc. sh_run.
  erewrite getInfoLog_shader by apply shader_of_set_shader. sh_run.
  rewrite sys_stderr_write_run. sh_run.
  unfold deleteObject, glIsShader, glDeleteShader, modify. py_simpl.
  sh_run. rewrite !(wf_next_unattached _ _ _ _ Hwf) by discriminate.
  sh_run. eexists. split; [reflexivity|]. split; [|split; reflexivity].
  unfold del_obj, set_obj, with_stderr, bump. simpl.
  apply delete_insert_id, (wf_next_free _ _ _ Hwf).
Qed.

(** C3: when linking fails, [linkProgram] raises [RuntimeError] after
    writing only a newline to [sys.stderr] (the program's log is read with
    [glGetShaderInfoLog], which yields nothing for a program) and leaves
    the program unlinked with no active uniforms or attributes. *)
Lemma linkProgram_fail s p pr log unifs attrs :
  program_of s p = Some pr ->
  drv_link (attached_shaders s pr) = (false, log, unifs, attrs) ->
  exists s', linkProgram p s =
    (Raise (RuntimeError "Failed to link shader program. Check log output."), s') /\
  program_of s' p = Some (link_failed s pr log) /\
  gl_stderr s' = nl :: gl_stderr s.
Proof.
  intros Hp Hl. unfold linkProgram, glIsProgram. py_simpl. rewrite Hp. sh_run.
  rewrite Hp. sh_run. rewrite Hl. sh_run.
  erewrite getInfoLog_program; [| by rewrite shader_of_set_same | apply program_of_set_program].
  sh_run. rewrite sys_stderr_write_run. sh_run.
  eexists. split; [reflexivity|]. split; [|reflexivity].
  apply program_of_set_program.
Qed.

(** C4: [validateProgram] on a name that is neither a shader nor a
    program raises [ValueError] from [getInfoLog] and leaves the context
    unchanged. *)
Lemma validateProgram_not_object s n :
  shader_of s n = None -> program_of s n = None ->
  validateProgram n s =
    (Raise (ValueError "Specified value of `obj` is not a shader or program."), s).
Proof.
  intros Hs Hp. unfold validateProgram, glValidateProgram, update_program, modify,
    getInfoLog, glIsShader, glIsProgram.
  py_simpl. repeat (rewrite ?Hs, ?Hp; sh_run). reflexivity.
Qed.

(** ** The ARB_shader_objects variants *)

#[local] Instance gl_query_int_proper : Proper ((≡) ==> (≡)) gl_query_int.
Proof. intros q q' Hq. unfold gl_query_int. by rewrite Hq. Qed.

Lemma glGetObjectParameterivARB_compile n :
  glGetObjectParameterivARB n GL_COMPILE_STATUS ≡ glGetShaderiv n GL_COMPILE_STATUS.
Proof.
  intros s. unfold glGetObjectParameterivARB, glGetShaderiv, glGetProgramiv. py_simpl.
  destruct (shader_of s n), (program_of s n); reflexivity.
Qed.

Lemma glGetObjectParameterivARB_program n pname :
  pname <> GL_COMPILE_STATUS -> pname <> GL_INFO_LOG_LENGTH ->
  glGetObjectParameterivARB n pname ≡ glGetProgramiv n pname.
Proof.
  intros H1 H2 s. unfold glGetObjectParameterivARB, glGetShaderiv. py_simpl.
  destruct (shader_of s n); [|done]. by rewrite !(proj2 (Z.eqb_neq _ _)).
Qed.

(** On a shader, [glDeleteObjectARB]'s [glDeleteProgram] finds no program. *)
Lemma deleteObjectARB_shader n s :
  is_some (shader_of s n) = true -> deleteObjectARB n s = deleteObject n s.
Proof.
  intros Hs. unfold deleteObjectARB, glDeleteObjectARB, deleteObject, glIsShader, glDeleteShader,
    glDeleteProgram.
  py_simpl. rewrite Hs. destruct (shader_of s n); [|done]. destruct (attached_anywhere s n).
  - by rewrite program_of_set_same.
  - by rewrite program_of_del_obj, decide_True.
Qed.

(** C5: the ARB variants [compileShaderObjectARB], [linkProgramObjectARB]
    and [validateProgramARB] behave as [compileShader], [linkProgram] and
    [validateProgram] from every context: same outcome, same exception,
    same context, although they query the status with
    [glGetObjectParameterivARB] and delete a failed shader with
    [glDeleteObjectARB]. *)
Theorem arb_core_equiv src ty p :
  (compileShaderObjectARB src ty ≡ compileShader src ty) /\ (linkProgramObjectARB p ≡ linkProgram p) /\
  (validateProgramARB p ≡ validateProgram p).
Proof.
  split; [|split].
  - unfold compileShaderObjectARB, compileShader, glCreateShaderObjectARB, glShaderSourceARB,
      glCompileShaderARB.
    setoid_rewrite glGetObjectParameterivARB_compile. intros s.
    unfold glCreateShader. py_simpl. rewrite gl_gen_run. sh_run.
    destruct (drv_compile _ _) as [[|] log]; sh_run; [done|].
    erewrite getInfoLog_shader by apply shader_of_set_shader. sh_run.
    rewrite sys_stderr_write_run. sh_run.
    by rewrite deleteObjectARB_shader by by rewrite shader_of_with_stderr, shader_of_set_shader.
  - unfold linkProgramObjectARB, linkProgram, glLinkProgramARB.
    f_equiv. intros b. destruct (negb b); [done|].
    by setoid_rewrite glGetObjectParameterivARB_program.
  - unfold validateProgramARB, validateProgram, glValidateProgramARB.
    by setoid_rewrite glGetObjectParameterivARB_program.
Qed.

(** ** Every shader helper keeps the context well formed *)

Lemma getInfoLog_wf ns ps obj : preserves (wf_but ns ps) (getInfoLog obj).
Proof. unfold getInfoLog. preserves_tac. Qed.

Lemma deleteObject_wf ns ps obj : preserves (wf_but ns ps) (deleteObject obj).
Proof. unfold deleteObject. preserves_tac. Qed.

Lemma glGetObjectParameterivARB_wf ns ps n pname :
  preserves (wf_but ns ps) (glGetObjectParameterivARB n pname).
Proof. unfold glGetObjectParameterivARB. preserves_tac. Qed.

#[local] Hint Resolve getInfoLog_wf deleteObject_wf glGetObjectParameterivARB_wf : glwf.

Lemma compileShader_wf ns ps src ty : preserves (wf_but ns ps) (compileShader src ty).
Proof. unfold compileShader. preserves_tac. Qed.

Lemma compileShaderObjectARB_wf ns ps src ty : preserves (wf_but ns ps) (compileShaderObjectARB src ty).
Proof.
  unfold compileShaderObjectARB, glCreateShaderObjectARB, glShaderSourceARB, glCompileShaderARB,
    deleteObjectARB. preserves_tac.
Qed.

Lemma attachShader_wf ns ps p sh : preserves (wf_but ns ps) (attachShader p sh).
Proof. unfold attachShader. preserves_tac. Qed.

Lemma attachObjectARB_wf ns ps p sh : preserves (wf_but ns ps) (attachObjectARB p sh).
Proof. unfold attachObjectARB, glAttachObjectARB. preserves_tac. Qed.

Lemma detachShader_wf ns ps p sh : preserves (wf_but ns ps) (detachShader p sh).
Proof. unfold detachShader. preserves_tac. Qed.

Lemma detachObjectARB_wf ns ps p sh : preserves (wf_but ns ps) (detachObjectARB p sh).
Proof. unfold detachObjectARB, glDetachObjectARB. preserves_tac. Qed.

Lemma linkProgram_wf ns ps p : preserves (wf_but ns ps) (linkProgram p).
Proof. unfold linkProgram. preserves_tac. Qed.

Lemma linkProgramObjectARB_wf ns ps p : preserves (wf_but ns ps) (linkProgramObjectARB p).
Proof. unfold linkProgramObjectARB, glLinkProgramARB. preserves_tac. Qed.

Lemma validateProgram_wf ns ps p : preserves (wf_but ns ps) (validateProgram p).
Proof. unfold validateProgram. preserves_tac. Qed.

Lemma validateProgramARB_wf ns ps p : preserves (wf_but ns ps) (validateProgramARB p).
Proof. unfold validateProgramARB, glValidateProgramARB. preserves_tac. Qed.

Lemma useProgram_wf ns ps p : preserves (wf_but ns ps) (useProgram p).
Proof. unfold useProgram. preserves_tac. Qed.

Lemma useProgramObjectARB_wf ns ps p : preserves (wf_but ns ps) (useProgramObjectARB p).
Proof. unfold useProgramObjectARB, glUseProgramObjectARB. preserves_tac. Qed.

Lemma getUniformLocations_wf ns ps p b : preserves (wf_but ns ps) (getUniformLocations p b).
Proof.
  unfold getUniformLocations. preserves_tac.
  apply preserves_foldl. intros acc i. preserves_tac.
Qed.

Lemma getAttribLocations_wf ns ps p b : preserves (wf_but ns ps) (getAttribLocations p b).
Proof.
  unfold getAttribLocations. preserves_tac.
  apply preserves_foldl. intros acc i. preserves_tac.
Qed.
End ShaderProperties.

(** ** Runs on the example driver *)

Lemma compileShader_ok_witness :
  @drv_compile example_driver GL_VERTEX_SHADER ["void main() {}"] = (true, "") /\
  @compileShader example_driver (SrcString "void main() {}") GL_VERTEX_SHADER gl_init =
    (Ok 1, compiled_state gl_init GL_VERTEX_SHADER ["void main() {}"] "").
Proof.
  split; [reflexivity|]. apply (@compileShader_ok example_driver). reflexivity.
Defined.

Lemma compileShader_fail_witness :
  gl_wf gl_init /\
  @drv_compile example_driver GL_FRAGMENT_SHADER ["#error"] =
    (false, "0(1) : error C0000: syntax error") /\
  exists s', @compileShader example_driver (SrcList ["#error"]) GL_FRAGMENT_SHADER gl_init =
    (Raise (RuntimeError "Shader compilation failed, check log output."), s') /\
  gl_objects s' = gl_objects gl_init /\ gl_next s' = gl_next gl_init + 1 /\
  gl_stderr s' = ("0(1) : error C0000: syntax error" ++ nl) :: gl_stderr gl_init.
Proof.
  split; [exact gl_wf_init|]. split; [reflexivity|].
  apply (@compileShader_fail example_driver); [exact gl_wf_init | reflexivity].
Defined.

(** A context holding one fresh program, with nothing attached. *)
Definition one_program : GLState := snd (glCreateProgram gl_init).

Lemma linkProgram_fail_witness :
  program_of one_program 1 = Some empty_program /\
  @drv_link example_driver (attached_shaders one_program empty_program) =
    (false, "link error", [("gl_ModelViewProjectionMatrix", -1); ("diffuseColor", 0)],
     [("gl_Vertex", -1); ("position", 0)]) /\
  exists s', @linkProgram example_driver 1 one_program =
    (Raise (RuntimeError "Failed to link shader program. Check log output."), s') /\
  program_of s' 1 = Some (link_failed one_program empty_program "link error") /\
  gl_stderr s' = nl :: gl_stderr one_program.
Proof.
  split; [reflexivity|]. split; [reflexivity|].
  eapply (@linkProgram_fail example_driver); reflexivity.
Defined.

Lemma validateProgram_not_object_witness :
  shader_of gl_init 5 = None /\ program_of gl_init 5 = None /\
  @validateProgram example_driver 5 gl_init =
    (Raise (ValueError "Specified value of `obj` is not a shader or program."), gl_init).
Proof.
  split; [reflexivity|]. split; [reflexivity|].
  apply (@validateProgram_not_object example_driver); reflexivity.
Defined.
