(* ===== verification/Polygon.v ===== *)
(** * The Builder's polygon component ([psychopy/app/builder/components/polygon.py])

    [PolygonComponent.__init__] adds the polygon's parameters to the ones
    [BaseVisualComponent.__init__] installed and deletes [color] and
    [colorSpace]; [writeInitCode] writes the Python statement that builds
    the stimulus: [visual.Line], [visual.ShapeStim], [visual.Rect] or
    [visual.Polygon], chosen by the text of the [nVertices] parameter.

    The Builder's base classes are not part of the sources: what the
    component uses of them is the interface [BuilderBase]: the text a
    [Param] formats to ([Param.__str__], used by every [%s]) and
    [getInitVals], with the two properties the component relies on.  A
    parameter's value is a Python value ([PyVal]); Python's [==] between an
    [int] and a [str] is [False], which decides the branch taken for an
    [nVertices] given as an [int].  The parameter dict is an association
    list in insertion order; the translation function [_translate] is the
    identity (the English text).  The text the component writes is the
    string passed to [buff.writeIndentedLines]; the indentation that
    method adds is the buffer's. *)

From S2P Require Import Prelude.
Open Scope string_scope.

(** A Python value held by a [Param]: a [str], an [int], a [float] (by its
    text) or a tuple. *)
Inductive PyVal := VStr (s : string) | VInt (z : Z) | VFloat (text : string) | VTuple (l : list PyVal).

(** [v == s] for a [str] literal [s]. *)
Definition is_str (v : PyVal) (s : string) : bool :=
  match v with VStr s' => String.eqb s' s | _ => false end.

(** [str(v)] for the values [str] is applied to ([nVertices]). *)
Fixpoint py_str (v : PyVal) : string :=
  match v with
  | VStr s => s
  | VInt z => pretty z
  | VFloat t => t
  | VTuple l =>
      "(" ++ (fix go l := match l with
              | [] => EmptyString | [x] => py_str x ++ ","
              | x :: l => py_str x ++ ", " ++ go l end) l ++ ")"
  end.

(** [Param(val, valType=..., ...)]: a keyword argument the call leaves out
    is [None] (the default of [Param]). *)
Record Param := mkParam {
  param_val : PyVal;
  param_valType : string;
  param_allowedVals : option (list string);
  param_allowedTypes : option (list string);
  param_updates : option string;
  param_allowedUpdates : option (list string);
  param_hint : string;
  param_label : string;
  param_categ : option string
}.

Definition set_val (p : Param) (v : PyVal) : Param :=
  {| param_val := v; param_valType := param_valType p; param_allowedVals := param_allowedVals p;
     param_allowedTypes := param_allowedTypes p; param_updates := param_updates p;
     param_allowedUpdates := param_allowedUpdates p; param_hint := param_hint p;
     param_label := param_label p; param_categ := param_categ p |}.

Definition Params := list (string * Param).

(** [params[k]] *)
Definition getp (ps : Params) (k : string) : Result Param :=
  match dict_get ps k with Some p => Ok p | None => Raise (KeyError k) end.

(** [del params[k]] *)
Fixpoint dict_del (ps : Params) (k : string) : Result Params :=
  match ps with
  | [] => Raise (KeyError k)
  | (k', p) :: ps' =>
      if String.eqb k' k then Ok ps'
      else match dict_del ps' k with Ok r => Ok ((k', p) :: r) | Raise e => Raise e end
  end.

Open Scope result_scope.

(** What the component uses of the Builder's base classes. *)
Class BuilderBase := {
  (** [str(param)], the text [%s] formats a parameter to *)
  param_str : Param -> string;
  (** [getInitVals(params)]: a copy of the dict where the parameters that
      change during the routine get their initial values *)
  getInitVals : Params -> Params;
  getInitVals_keys : forall ps k, is_some (dict_get (getInitVals ps) k) = is_some (dict_get ps k);
  getInitVals_constant : forall ps k p,
    dict_get ps k = Some p -> param_updates p = Some "constant" -> dict_get (getInitVals ps) k = Some p
}.

(** The instance object ([self]): the attributes the component sets. *)
Record Component := mkComponent {
  comp_type : string;
  comp_url : string;
  comp_order : list string;
  comp_params : Params;
  comp_required_libs : list string  (** [self.exp.requirePsychopyLibs] calls *)
}.

Definition localized (k : string) : string :=
  match k with
  | "nVertices" => "Num. vertices" | "fillColorSpace" => "Fill color-space"
  | "fillColor" => "Fill color" | "lineColorSpace" => "Line color-space"
  | "lineColor" => "Line color" | "lineWidth" => "Line width"
  | "interpolate" => "Interpolate" | "size" => "Size [w,h]" | _ => EmptyString
  end.

Definition color_spaces : list string := ["rgb"; "dkl"; "lms"; "hsv"].
Definition all_updates : list string := ["constant"; "set every repeat"; "set every frame"].

(** The statements of [__init__] after the [super().__init__] call, which
    installed [base]. *)
Definition PolygonComponent_init (base : Params)
    (interpolate lineColor lineColorSpace lineWidth fillColor fillColorSpace nVertices size : PyVal)
    : Result Component :=
  let ps := base in
  let ps := dict_set ps "nVertices" (mkParam nVertices "int" None None (Some "constant") (Some ["constant"])
              "How many vertices? 2=line, 3=triangle... (90 approximates a circle)"
              (localized "nVertices") None) in
  let ps := dict_set ps "fillColorSpace" (mkParam fillColorSpace "str" (Some color_spaces) None (Some "constant") None
              "Choice of color space for the fill color (rgb, dkl, lms, hsv)"
              (localized "fillColorSpace") (Some "Advanced")) in
  let ps := dict_set ps "fillColor" (mkParam fillColor "str" None (Some []) (Some "constant") (Some all_updates)
              "Fill color of this shape; Right-click to bring up a color-picker (rgb only)"
              (localized "fillColor") (Some "Advanced")) in
  let ps := dict_set ps "lineColorSpace" (mkParam lineColorSpace "str" (Some color_spaces) None (Some "constant") None
              "Choice of color space for the fill color (rgb, dkl, lms, hsv)"
              (localized "lineColorSpace") (Some "Advanced")) in
  let ps := dict_set ps "lineColor" (mkParam lineColor "str" None (Some []) (Some "constant") (Some all_updates)
              "Line color of this shape; Right-click to bring up a color-picker (rgb only)"
              (localized "lineColor") (Some "Advanced")) in
  let ps := dict_set ps "lineWidth" (mkParam lineWidth "code" None (Some []) (Some "constant") (Some all_updates)
              "Width of the shape's line (always in pixels - this does NOT use 'units')"
              (localized "lineWidth") None) in
  let ps := dict_set ps "interpolate" (mkParam interpolate "str" (Some ["linear"; "nearest"]) None (Some "constant")
              (Some []) "How should the image be interpolated if/when rescaled"
              (localized "interpolate") (Some "Advanced")) in
  let ps := dict_set ps "size" (mkParam size "code" None (Some []) (Some "constant") (Some all_updates)
              ("Size of this stimulus [w,h]. Note that for a line only the first value is used, for triangle and rect the [w,h] is as expected," ++ nl ++
               " but for higher-order polygons it represents the [w,h] of the ellipse that the polygon sits on!! ")
              (localized "size") None) in
  let? ps := dict_del ps "color" in
  let? ps := dict_del ps "colorSpace" in
  Ok (mkComponent "Polygon" "http://www.psychopy.org/builder/components/polygon.html" ["nVertices"] ps ["visual"]).

Section WriteInitCode.
Context `{BuilderBase}.

(** The opening lines of each constructor call (lines 136-152). *)
Definition line_head (N U S : string) : string :=
  N ++ " = visual.Line(" ++ nl ++
  "    win=win, name='" ++ N ++ "'," ++ U ++ nl ++
  "    start=(-" ++ S ++ "[0]/2.0, 0), end=(+" ++ S ++ "[0]/2.0, 0)," ++ nl.

Definition shapestim_head (N U S : string) : string :=
  N ++ " = visual.ShapeStim(" ++ nl ++
  "    win=win, name='" ++ N ++ "'," ++ U ++ nl ++
  "    vertices=[[-" ++ S ++ "[0]/2.0,-" ++ S ++ "[1]/2.0], [+" ++ S ++ "[0]/2.0,-" ++ S ++ "[1]/2.0], [0," ++
    S ++ "[1]/2.0]]," ++ nl.

Definition rect_head (N U S : string) : string :=
  N ++ " = visual.Rect(" ++ nl ++
  "    win=win, name='" ++ N ++ "'," ++ U ++ nl ++
  "    width=" ++ S ++ "[0], height=" ++ S ++ "[1]," ++ nl.

Definition polygon_head (N U S E : string) : string :=
  N ++ " = visual.Polygon(" ++ nl ++
  "    win=win, name='" ++ N ++ "'," ++ U ++ nl ++
  "    edges=" ++ E ++ "," ++
  " size=" ++ S ++ "," ++ nl.

(** ["%.1f" % depth] for an integer depth *)
Definition fmt_1f (z : Z) : string := pretty z ++ ".0".

(** The text [writeInitCode] passes to [buff.writeIndentedLines];
    [posInRoutine] is [self.getPosInRoutine()]. *)
Definition initCode (params : Params) (posInRoutine : Z) : Result string :=
  let? units := getp params "units" in
  let unitsStr := if is_str (param_val units) "from exp settings" then EmptyString
                  else "units=" ++ param_str units ++ ", " in
  let inits := getInitVals params in
  let? size := getp inits "size" in
  let inits := if is_str (param_val size) "1.0" then dict_set inits "size" (set_val size (VStr "[1.0, 1.0]"))
               else inits in
  let? nV := getp params "nVertices" in
  let? name := getp inits "name" in
  let? size := getp inits "size" in
  let N := param_str name in let S := param_str size in
  let? head :=
    if is_str (param_val nV) "2" then Ok (line_head N unitsStr S)
    else if is_str (param_val nV) "3" then Ok (shapestim_head N unitsStr S)
    else if is_str (param_val nV) "4" then Ok (rect_head N unitsStr S)
    else let? nVi := getp inits "nVertices" in Ok (polygon_head N unitsStr S (py_str (param_val nVi))) in
  let? ori := getp inits "ori" in let? pos := getp inits "pos" in
  let? lineWidth := getp inits "lineWidth" in let? lineColor := getp inits "lineColor" in
  let? lineColorSpace := getp inits "lineColorSpace" in let? fillColor := getp inits "fillColor" in
  let? fillColorSpace := getp inits "fillColorSpace" in let? opacity := getp inits "opacity" in
  let code := head ++
    "    ori=" ++ param_str ori ++ ", pos=" ++ param_str pos ++ "," ++ nl ++
    "    lineWidth=" ++ param_str lineWidth ++ ", lineColor=" ++ param_str lineColor ++
      ", lineColorSpace=" ++ param_str lineColorSpace ++ "," ++ nl ++
    "    fillColor=" ++ param_str fillColor ++ ", fillColorSpace=" ++ param_str fillColorSpace ++ "," ++ nl ++
    "    opacity=" ++ param_str opacity ++ ", " in
  let depth := (- posInRoutine)%Z in
  let code := code ++ "depth=" ++ fmt_1f depth ++ ", " in
  let? interp := getp params "interpolate" in
  Ok (code ++ if is_str (param_val interp) "linear" then "interpolate=True)" ++ nl
              else "interpolate=False)" ++ nl).

(** [writeInitCode(buff)]: the buffer as the list of texts written to it. *)
Definition writeInitCode (c : Component) (posInRoutine : Z) (buff : list string) : Result (list string) :=
  let? code := initCode (comp_params c) posInRoutine in Ok (buff ++ [code])%list.
End WriteInitCode.

(** ** Properties of the component *)

Lemma getp_some ps k : is_some (dict_get ps k) = true -> exists p, getp ps k = Ok p /\ dict_get ps k = Some p.
Proof. unfold getp. destruct (dict_get ps k) as [p|]; [eauto|done]. Qed.

Lemma is_some_dict_set_if (b : bool) (ps : Params) k v k' :
  is_some (dict_get ps k') = true -> is_some (dict_get (if b then dict_set ps k v else ps) k') = true.
Proof. destruct b; [|done]. rewrite dict_get_set. by case_decide. Qed.

(** The keys [writeInitCode] reads: of [self.params] and of the dict
    [getInitVals] returns. *)
Definition polygon_keys : list string :=
  ["units"; "nVertices"; "interpolate"; "name"; "size"; "ori"; "pos"; "lineWidth"; "lineColor";
   "lineColorSpace"; "fillColor"; "fillColorSpace"; "opacity"].

Definition has_keys (ps : Params) (ks : list string) : bool := forallb (fun k => is_some (dict_get ps k)) ks.

Lemma has_keys_elem ps ks k : has_keys ps ks = true -> k ∈ ks -> is_some (dict_get ps k) = true.
Proof. unfold has_keys. rewrite forallb_forall. intros Hk Hin. apply Hk. by apply list_elem_of_In. Qed.

(** The stimulus class a text of [nVertices] stands for. *)
Definition stim_class (v : PyVal) : string :=
  if is_str v "2" then "Line" else if is_str v "3" then "ShapeStim"
  else if is_str v "4" then "Rect" else "Polygon".

Definition interp_text (linear : bool) : string :=
  if linear then "interpolate=True)" ++ nl else "interpolate=False)" ++ nl.

Section InitCodeProperties.
Context `{BuilderBase}.

(** A lookup the hypotheses of the theorem guarantee. *)
Ltac getp_ok Hk :=
  match goal with
  | |- context [getp ?ps ?k] =>
      let p := fresh "p" in let Hp := fresh "Hp" in let Hd := fresh "Hd" in
      destruct (getp_some ps k) as (p & Hp & Hd);
      [ try apply is_some_dict_set_if; rewrite ?getInitVals_keys;
        apply (has_keys_elem _ _ _ Hk); cbv [polygon_keys]; set_solver
      | rewrite Hp; cbn [rbind] ]
  end.

Lemma dict_get_if_set_other (b : bool) (ps : Params) k v k' :
  k' <> k -> dict_get (if b then dict_set ps k v else ps) k' = dict_get ps k'.
Proof. intros Hne. destruct b; [|done]. rewrite dict_get_set. by case_decide. Qed.

(** Two lookups of the same key, and a lookup of another key than the
    one [writeInitCode] rewrites. *)
Ltac unify_lookups :=
  repeat match goal with
  | H : dict_get (if _ then dict_set _ _ _ else _) _ = _ |- _ =>
      rewrite dict_get_if_set_other in H by discriminate
  | H1 : ?X = Some ?a, H2 : ?X = Some ?b |- _ =>
      rewrite H1 in H2; injection H2 as H2; subst b
  end.


(** [writeInitCode] on a dict with every key it reads: the constructor
    call it opens, and the depth and interpolation it closes with. *)
Lemma initCode_run params pos pn pv pi :
  has_keys params polygon_keys = true ->
  dict_get (getInitVals params) "name" = Some pn ->
  dict_get params "nVertices" = Some pv -> dict_get params "interpolate" = Some pi ->
  exists head tail,
    initCode params pos =
      Ok (((head ++ tail) ++ "depth=" ++ fmt_1f (- pos)%Z ++ ", ") ++ interp_text (is_str (param_val pi) "linear")) /\
    exists h, head = param_str pn ++ " = visual." ++ stim_class (param_val pv) ++ "(" ++ nl ++ h.
Proof.
  intros Hk Hn Hv Hi. unfold initCode.
  do 5 getp_ok Hk. unify_lookups. unfold stim_class.
  destruct (is_str (param_val pv) "2"); [|destruct (is_str (param_val pv) "3");
    [|destruct (is_str (param_val pv) "4"); [|getp_ok Hk]]]; cbn [rbind];
  do 9 getp_ok Hk; unify_lookups;
  (eexists _, _; split; [reflexivity|]);
  cbv [line_head shapestim_head rect_head polygon_head];
  match goal with |- exists h, _ ++ (_ ++ (nl ++ ?R)) = _ => exists R; reflexivity end.
Qed.
(** C33: on a parameter dict with every key it reads, [writeInitCode]
    appends one text to the buffer: the assignment of the stimulus named
    by the [name] parameter to a call of [visual.Line], [visual.ShapeStim],
    [visual.Rect] or [visual.Polygon] as the [nVertices] text is ['2'],
    ['3'], ['4'] or anything else, closed by the depth [-posInRoutine] with
    one decimal and [interpolate=True] exactly for ['linear']. *)
Theorem writeInitCode_spec c pos buff pn pv pi :
  has_keys (comp_params c) polygon_keys = true ->
  dict_get (getInitVals (comp_params c)) "name" = Some pn ->
  dict_get (comp_params c) "nVertices" = Some pv -> dict_get (comp_params c) "interpolate" = Some pi ->
  exists code, writeInitCode c pos buff = Ok (buff ++ [code])%list /\
    (exists h, code = param_str pn ++ " = visual." ++ stim_class (param_val pv) ++ "(" ++ nl ++ h) /\
    (exists m, code = m ++ "depth=" ++ fmt_1f (Z.opp pos) ++ ", " ++ interp_text (is_str (param_val pi) "linear")).
Proof.
  intros Hk Hn Hv Hi. destruct (initCode_run _ pos _ _ _ Hk Hn Hv Hi) as (head & tail & E & h & ->).
  eexists. unfold writeInitCode. rewrite E. split_and!; [done| |].
  - eexists. rewrite !str_app_assoc. reflexivity.
  - match goal with |- exists m, ((?a ++ ?b) ++ _) ++ _ = _ => exists (a ++ b) end.
    rewrite !str_app_assoc. reflexivity.
Qed.
End InitCodeProperties.

(** ** The parameters [__init__] installs *)

Lemma dict_del_get_other ps k r k' : dict_del ps k = Ok r -> k' <> k -> dict_get r k' = dict_get ps k'.
Proof.
  revert r. induction ps as [|[k0 p0] ps IH]; intros r; simpl; [done|].
  destruct (String.eqb_spec k0 k) as [->|Hne].
  - intros [= <-] Hk'. by rewrite decide_False.
  - destruct (dict_del ps k) as [r'|] eqn:E; [|done]. intros [= <-] Hk'. simpl.
    case_decide; [done|]. by apply IH.
Qed.

Lemma dict_del_keys ps k r x : dict_del ps k = Ok r -> x ∈ r.*1 -> x ∈ ps.*1.
Proof.
  revert r. induction ps as [|[k0 p0] ps IH]; intros r; simpl; [done|].
  destruct (String.eqb_spec k0 k) as [->|Hne]; [intros [= <-]; set_solver|].
  destruct (dict_del ps k) as [r'|] eqn:E; [|done]. intros [= <-]. cbn. specialize (IH r' eq_refl). set_solver.
Qed.

Lemma dict_del_nodup ps k r : NoDup ps.*1 -> dict_del ps k = Ok r -> NoDup r.*1 /\ dict_get r k = None.
Proof.
  revert r. induction ps as [|[k0 p0] ps IH]; intros r Hnd; simpl; [done|].
  apply NoDup_cons in Hnd as [Hn Hnd].
  destruct (String.eqb_spec k0 k) as [->|Hne]; [intros [= <-]; split; [done|by apply dict_get_None]|].
  destruct (dict_del ps k) as [r'|] eqn:E; [|done]. intros [= <-].
  destruct (IH r' Hnd eq_refl) as [Hnd' Hget]. split.
  - cbn. constructor; [|done]. intros Hin. by apply Hn, (dict_del_keys _ _ _ _ E).
  - simpl. by rewrite decide_False by congruence.
Qed.

Lemma dict_del_missing ps k : dict_get ps k = None -> dict_del ps k = Raise (KeyError k).
Proof.
  induction ps as [|[k0 p0] ps IH]; simpl; [done|].
  destruct (String.eqb_spec k0 k) as [->|Hne]; [by rewrite decide_True|].
  rewrite decide_False by congruence. intros Hg. by rewrite IH.
Qed.

Lemma dict_del_present ps k : is_some (dict_get ps k) = true -> exists r, dict_del ps k = Ok r.
Proof.
  induction ps as [|[k0 p0] ps IH]; simpl; [done|].
  destruct (String.eqb_spec k0 k) as [->|Hne]; [eauto|].
  rewrite decide_False by congruence. intros Hg. destruct (IH Hg) as [r ->]. eauto.
Qed.

(** Decide the equalities of distinct string literals. *)
Ltac decide_strings :=
  repeat first [rewrite decide_True by reflexivity | rewrite decide_False by discriminate].

(** The keys [__init__] sets, with the values it stores under them. *)
Definition polygon_params (interpolate lineColor lineColorSpace lineWidth fillColor fillColorSpace nVertices size : PyVal)
    : list (string * PyVal) :=
  [("nVertices", nVertices); ("fillColorSpace", fillColorSpace); ("fillColor", fillColor);
   ("lineColorSpace", lineColorSpace); ("lineColor", lineColor); ("lineWidth", lineWidth);
   ("interpolate", interpolate); ("size", size)].

(** C35: [PolygonComponent.__init__] on a base dict with distinct keys
    raises [KeyError('color')] when the base has no [color] parameter;
    when it has [color] and [colorSpace] it returns a component whose
    dict has distinct keys, holds each polygon parameter with the value
    passed to the constructor, no longer holds [color] and [colorSpace],
    and keeps every other parameter of the base. *)
Theorem PolygonComponent_init_spec base interpolate lineColor lineColorSpace lineWidth fillColor fillColorSpace
    nVertices size :
  NoDup base.*1 ->
  let args := polygon_params interpolate lineColor lineColorSpace lineWidth fillColor fillColorSpace nVertices size in
  (dict_get base "color" = None ->
   PolygonComponent_init base interpolate lineColor lineColorSpace lineWidth fillColor fillColorSpace nVertices size
     = Raise (KeyError "color")) /\
  (is_some (dict_get base "color") = true -> is_some (dict_get base "colorSpace") = true ->
   exists c, PolygonComponent_init base interpolate lineColor lineColorSpace lineWidth fillColor fillColorSpace
               nVertices size = Ok c /\
     NoDup (comp_params c).*1 /\
     dict_get (comp_params c) "color" = None /\ dict_get (comp_params c) "colorSpace" = None /\
     Forall (fun kv => exists p, dict_get (comp_params c) kv.1 = Some p /\ param_val p = kv.2) args /\
     forall k, k ∉ args.*1 -> k <> "color" -> k <> "colorSpace" -> dict_get (comp_params c) k = dict_get base k).
Proof.
  intros Hnd args. unfold PolygonComponent_init. cbv zeta.
  match goal with |- context [dict_del ?ps "color"] => remember ps as ps8 eqn:Eps end.
  assert (Hnd8 : NoDup ps8.*1) by (subst ps8; repeat apply dict_set_nodup; done).
  assert (Hg8 : forall k, k ∉ args.*1 -> dict_get ps8 k = dict_get base k).
  { intros k Hk. subst ps8. rewrite !dict_get_set. cbv [args polygon_params] in Hk.
    rewrite !decide_False by set_solver. done. }
  split.
  - intros Hc. rewrite dict_del_missing by (rewrite Hg8; [done|cbv; set_solver]). done.
  - intros Hc Hcs. destruct (dict_del_present ps8 "color") as [r1 E1]; [rewrite Hg8; [done|cbv; set_solver]|].
    destruct (dict_del_present r1 "colorSpace") as [r2 E2].
    { rewrite (dict_del_get_other _ _ _ _ E1), Hg8 by (done || cbv; set_solver). done. }
    rewrite E1. cbn [rbind]. rewrite E2. cbn [rbind]. eexists. split; [reflexivity|]. cbn [comp_params].
    destruct (dict_del_nodup _ _ _ Hnd8 E1) as [Hnd1 Hc1].
    destruct (dict_del_nodup _ _ _ Hnd1 E2) as [Hnd2 Hc2].
    split_and!; [done| by rewrite (dict_del_get_other _ _ _ _ E2) | done | |].
    + cbv [args polygon_params]. repeat constructor; cbn [fst snd];
        rewrite (dict_del_get_other _ _ _ _ E2), (dict_del_get_other _ _ _ _ E1) by discriminate;
        subst ps8; rewrite !dict_get_set; decide_strings; eexists; split; reflexivity.
    + intros k Hk Hk1 Hk2. rewrite (dict_del_get_other _ _ _ _ E2), (dict_del_get_other _ _ _ _ E1) by done.
      by apply Hg8.
Qed.

Lemma PolygonComponent_init_param base interpolate lineColor lineColorSpace lineWidth fillColor fillColorSpace
    nVertices size c k v :
  PolygonComponent_init base interpolate lineColor lineColorSpace lineWidth fillColor fillColorSpace nVertices size
    = Ok c ->
  (k, v) ∈ polygon_params interpolate lineColor lineColorSpace lineWidth fillColor fillColorSpace nVertices size ->
  exists p, dict_get (comp_params c) k = Some p /\ param_val p = v /\ param_updates p = Some "constant".
Proof.
  unfold PolygonComponent_init. cbv zeta.
  destruct (dict_del _ "color") as [r1|] eqn:E1; [|done]. cbn [rbind].
  destruct (dict_del r1 "colorSpace") as [r2|] eqn:E2; [|done]. intros [= <-] Hin. cbn [comp_params].
  cbv [polygon_params] in Hin.
  repeat (apply elem_of_cons in Hin as [Hin|Hin]; [injection Hin as -> ->|]);
    [..|by apply not_elem_of_nil in Hin];
    rewrite (dict_del_get_other _ _ _ _ E2), (dict_del_get_other _ _ _ _ E1) by discriminate;
    rewrite !dict_get_set; decide_strings; eauto.
Qed.

Section DefaultPolygon.
Context `{BuilderBase}.

(** C34: a polygon component made with the constructor's defaults
    ([nVertices=4], a Python [int]) is not written as a rectangle:
    [writeInitCode] compares the value with the string ['4'], the test
    fails, and the text builds a [visual.Polygon] (four vertices on an
    ellipse) instead of the [visual.Rect] the branch for four
    vertices writes. *)
Theorem default_nVertices_polygon base c pos buff pn :
  PolygonComponent_init base (VStr "linear") (VStr "$[1,1,1]") (VStr "rgb") (VInt 1) (VStr "$[1,1,1]")
    (VStr "rgb") (VInt 4) (VTuple [VFloat "0.5"; VFloat "0.5"]) = Ok c ->
  has_keys (comp_params c) polygon_keys = true ->
  dict_get (getInitVals (comp_params c)) "name" = Some pn ->
  exists code h, writeInitCode c pos buff = Ok (buff ++ [code])%list /\
    code = param_str pn ++ " = visual.Polygon(" ++ nl ++ h.
Proof.
  intros Ec Hk Hn.
  destruct (PolygonComponent_init_param _ _ _ _ _ _ _ _ _ _ "nVertices" (VInt 4) Ec ltac:(by left))
    as (pv & Hv & Hval & _).
  destruct (getp_some (comp_params c) "interpolate") as (pi & _ & Hi);
    [apply (has_keys_elem _ _ _ Hk); cbv [polygon_keys]; set_solver|].
  destruct (initCode_run _ pos _ _ _ Hk Hn Hv Hi) as (head & tail & E & h & ->).
  rewrite Hval in *. eexists _, _. unfold writeInitCode. rewrite E. split; [done|].
  rewrite !str_app_assoc. reflexivity.
Qed.
End DefaultPolygon.

(** ** The component on an example experiment

    [Param.__str__] as the text of the value, and a [getInitVals] that
    keeps every value (no parameter of the example changes during the
    routine). *)

Section PolygonWitnesses.

#[local] Program Instance example_builder : BuilderBase := {|
  param_str p := py_str (param_val p);
  getInitVals ps := ps
|}.
Next Obligation. done. Qed.
Next Obligation. done. Qed.

Definition base_param (v : PyVal) : Param := mkParam v "code" None None (Some "constant") None EmptyString EmptyString None.

(** The parameters [BaseVisualComponent.__init__] installs that the
    polygon reads or deletes. *)
Definition example_base : Params :=
  [("name", base_param (VStr "polygon")); ("color", base_param (VStr "white"));
   ("colorSpace", base_param (VStr "rgb")); ("units", base_param (VStr "from exp settings"));
   ("pos", base_param (VTuple [VInt 0; VInt 0])); ("size", base_param (VTuple [VFloat "0.5"; VFloat "0.5"]));
   ("ori", base_param (VInt 0)); ("opacity", base_param (VInt 1))].

Definition example_polygon (nVertices : PyVal) : Result Component :=
  PolygonComponent_init example_base (VStr "linear") (VStr "$[1,1,1]") (VStr "rgb") (VInt 1) (VStr "$[1,1,1]")
    (VStr "rgb") nVertices (VTuple [VFloat "0.5"; VFloat "0.5"]).

Definition example_rect : Component :=
  match example_polygon (VStr "4") with Ok c => c | Raise _ => mkComponent EmptyString EmptyString [] [] [] end.

Lemma writeInitCode_spec_witness :
  exists code, writeInitCode example_rect 2 [] = Ok [code] /\
    exists h, code = "polygon = visual.Rect(" ++ nl ++ h.
Proof.
  destruct (@writeInitCode_spec example_builder example_rect 2 [] (base_param (VStr "polygon"))
              (mkParam (VStr "4") "int" None None (Some "constant") (Some ["constant"])
                 "How many vertices? 2=line, 3=triangle... (90 approximates a circle)" "Num. vertices" None)
              (mkParam (VStr "linear") "str" (Some ["linear"; "nearest"]) None (Some "constant") (Some [])
                 "How should the image be interpolated if/when rescaled" "Interpolate" (Some "Advanced"))
              eq_refl eq_refl eq_refl eq_refl) as (code & Hc & Hh & _).
  exists code. split; [exact Hc|]. exact Hh.
Defined.

Lemma default_nVertices_polygon_witness :
  exists c code h, example_polygon (VInt 4) = Ok c /\ writeInitCode c 2 [] = Ok [code] /\
    code = "polygon = visual.Polygon(" ++ nl ++ h.
Proof.
  destruct (example_polygon (VInt 4)) as [c|e] eqn:Ec; [|discriminate].
  destruct (@default_nVertices_polygon example_builder example_base c 2 [] (base_param (VStr "polygon")) Ec)
    as (code & h & Hw & Hcode); [subst; vm_compute in Ec |- *; injection Ec as <-; reflexivity
                                |vm_compute in Ec |- *; injection Ec as <-; reflexivity|].
  exists c, code, h. split_and!; [done|exact Hw|exact Hcode].
Defined.

Lemma PolygonComponent_init_spec_witness :
  exists c, example_polygon (VStr "4") = Ok c /\ dict_get (comp_params c) "color" = None.
Proof.
  destruct (proj2 (PolygonComponent_init_spec example_base (VStr "linear") (VStr "$[1,1,1]") (VStr "rgb") (VInt 1)
                     (VStr "$[1,1,1]") (VStr "rgb") (VStr "4") (VTuple [VFloat "0.5"; VFloat "0.5"])
                     ltac:(vm_compute; repeat constructor; set_solver)) eq_refl eq_refl)
    as (c & Ec & _ & Hc & _).
  exists c. split; [exact Ec|exact Hc].
Defined.
End PolygonWitnesses.
