(* ===== verification/AlertTools.v ===== *)
(** * Builder alerts for sizes and positions ([psychopy/alerts/AlertTools.py])

    [runTest] builds a stand-in window ([TestWin]) from the experiment's
    monitor, converts the component's [size] and [pos] parameters to
    pixels ([convertParamToPix]) and writes an alert for each coordinate
    larger than the window: 1001 and 1002 for the width and height of the
    size, 1003 and 1004 for the horizontal and vertical position, in this
    order ([testSize], [testPos]).

    What the file calls outside the sources ([ast.literal_eval],
    [numpy.array], [monitorunittools.convertToPix] and
    [Monitor.getSizePix]) is the interface class [UnitTools].  The alert
    log ([component.alerts]) is the state, the list of codes written in
    order.  Numbers are rationals (the float rounding of numpy is not
    modelled); a parameter dict and a parameter are the ones of
    [Polygon]. *)

From S2P Require Import Prelude Polygon.
From Stdlib Require Import QArith.
Open Scope Z_scope.

(** The library functions the checks call. *)
Class UnitTools := {
  (** [ast.literal_eval(s)]; raises on a text that is not a literal *)
  literal_eval : string -> Result PyVal;
  (** [numpy.array(v)], flattened to its numbers *)
  np_array : PyVal -> Result (list Q);
  (** [Monitor(monitor).getSizePix()] *)
  monitor_size_pix : PyVal -> list Q;
  (** [monitorunittools.convertToPix(vertices, pos, units, win)], the
      window given by its monitor and size *)
  convertToPix : list Q -> list Q -> PyVal -> PyVal -> list Q -> Result (list Q)
}.

(** [TestWin(exp, monitor)] *)
Record TestWin := mkTestWin { tw_useRetina : bool; tw_monitor : PyVal; tw_size : list Q }.

(** The parts of a component the checks read: its parameters and the
    experiment's settings. *)
Record AlertComponent := mkAlertComponent { ac_params : Polygon.Params; ac_settings : Polygon.Params }.

(** [component.alerts.write(code, component)] *)
Definition alert_write (code : Z) : PyM (list Z) unit := modify (fun log => log ++ [code])%list.

(** [a > b] on numbers *)
Definition q_gt (a b : Q) : bool := negb (Qle_bool a b).

Section Alerts.
Context `{UnitTools}.

Definition TestWin_init (monitor : PyVal) : TestWin := mkTestWin true monitor (monitor_size_pix monitor).

Definition convertParamToPix (value : PyVal) (win : TestWin) (units : PyVal) : Result (list Q) :=
  let? arr := match value with
              | VStr s => let? v := literal_eval s in np_array v
              | _ => np_array value
              end in
  let? pix := convertToPix arr [0; 0]%Q units (tw_monitor win) (tw_size win) in
  Ok (map (Qmult 2) pix).

(** The two comparisons of [testSize] and [testPos]. *)
Definition test_bounds (key : string) (codeX codeY : Z) (c : AlertComponent) (win : TestWin) (units : PyVal)
    : PyM (list Z) unit :=
  match dict_get (ac_params c) key with
  | None => ret tt
  | Some p =>
      do v <- lift (convertParamToPix (param_val p) win units);
      do x <- lift (py_getitem v 0); do w <- lift (py_getitem (tw_size win) 0);
      do! when (q_gt x w) (alert_write codeX);
      do y <- lift (py_getitem v 1); do h <- lift (py_getitem (tw_size win) 1);
      when (q_gt y h) (alert_write codeY)
  end.

Definition testSize (c : AlertComponent) (win : TestWin) (units : PyVal) : PyM (list Z) unit :=
  test_bounds "size" 1001 1002 c win units.

Definition testPos (c : AlertComponent) (win : TestWin) (units : PyVal) : PyM (list Z) unit :=
  test_bounds "pos" 1003 1004 c win units.

Definition runTest (c : AlertComponent) : PyM (list Z) unit :=
  do m <- lift (getp (ac_settings c) "Monitor");
  let win := TestWin_init (param_val m) in
  do u <- lift (getp (ac_settings c) "Units");
  do! testSize c win (param_val u);
  testPos c win (param_val u).
End Alerts.

(** ** What the checks write *)

(** The alerts one check writes: the codes of the coordinates larger than
    the window's, none when the component has no such parameter. *)
Definition bound_alerts (present : bool) (codeX codeY : Z) (x y w h : Q) : list Z :=
  if present then ((if q_gt x w then [codeX] else []) ++ (if q_gt y h then [codeY] else []))%list else [].

Section AlertProperties.
Context `{UnitTools}.

Lemma test_bounds_run key cx cy c win units x y w h log :
  tw_size win = [w; h]%Q ->
  (forall p, dict_get (ac_params c) key = Some p -> convertParamToPix (param_val p) win units = Ok [x; y]%Q) ->
  test_bounds key cx cy c win units log =
    (Ok tt, log ++ bound_alerts (is_some (dict_get (ac_params c) key)) cx cy x y w h)%list.
Proof.
  intros Hw Hc. unfold test_bounds, bound_alerts.
  destruct (dict_get (ac_params c) key) as [p|]; [|by rewrite app_nil_r].
  unfold bind. cbn [lift]. rewrite (Hc p eq_refl). cbn [py_getitem lift]. rewrite Hw.
  unfold when, alert_write, modify, ret.
  simpl. destruct (q_gt x w), (q_gt y h); simpl; by rewrite ?app_nil_r, <- ?app_assoc.
Qed.

(** C36: [runTest] on a component whose [size] and [pos] convert to two
    pixel coordinates each writes, after the alerts already logged, 1001
    and 1002 for a width and height of the size larger than the monitor's
    width and height, then 1003 and 1004 for a horizontal and vertical
    position larger than them, skipping the check of an absent
    parameter; no other alert is written. *)
Theorem runTest_alerts c m u Wd Ht sx sy px py log :
  dict_get (ac_settings c) "Monitor" = Some m -> dict_get (ac_settings c) "Units" = Some u ->
  monitor_size_pix (param_val m) = [Wd; Ht]%Q ->
  (forall p, dict_get (ac_params c) "size" = Some p ->
     convertParamToPix (param_val p) (TestWin_init (param_val m)) (param_val u) = Ok [sx; sy]%Q) ->
  (forall p, dict_get (ac_params c) "pos" = Some p ->
     convertParamToPix (param_val p) (TestWin_init (param_val m)) (param_val u) = Ok [px; py]%Q) ->
  runTest c log =
    (Ok tt, log ++ bound_alerts (is_some (dict_get (ac_params c) "size")) 1001 1002 sx sy Wd Ht
                ++ bound_alerts (is_some (dict_get (ac_params c) "pos")) 1003 1004 px py Wd Ht)%list.
Proof.
  intros Hm Hu HW Hs Hp. unfold runTest, bind. cbn [lift]. unfold getp. rewrite Hm, Hu.
  unfold testSize, testPos.
  rewrite (test_bounds_run _ _ _ _ _ _ sx sy Wd Ht) by done.
  rewrite (test_bounds_run _ _ _ _ _ _ px py Wd Ht) by done.
  by rewrite app_assoc.
Qed.
End AlertProperties.

(** ** An example: a monitor 1000 pixels wide, a component in pixels

    [convertToPix] in [pix] units is [vertices + pos] (the library's
    mapping for pixels); the example component is 600 pixels wide, which
    fits the 1000 pixel window, and placed 600 pixels left of the centre,
    which is off screen. *)

Fixpoint int_values (l : list PyVal) : Result (list Q) :=
  match l with
  | [] => Ok []
  | VInt z :: l => let? r := int_values l in Ok (inject_Z z :: r)
  | _ :: _ => Raise (TypeError "not a number")
  end.

Definition example_unit_tools : UnitTools := {|
  literal_eval _ := Raise (ValueError "malformed node or string");
  np_array v := match v with VTuple l => int_values l | VInt z => Ok [inject_Z z] | _ => Raise (TypeError "not a number") end;
  monitor_size_pix _ := [1000; 800]%Q;
  convertToPix vs pos units _ _ :=
    if is_str units "pix" then Ok (zip_with Qplus vs pos) else Raise (ValueError "unknown units")
|}.

Definition example_alert_component : AlertComponent :=
  mkAlertComponent
    [("size", base_param (VTuple [VInt 600; VInt 100])); ("pos", base_param (VTuple [VInt (-600); VInt 0]))]
    [("Monitor", base_param (VStr "testMonitor")); ("Units", base_param (VStr "pix"))].

(** The 600 pixel wide stimulus gets the alert for a size larger than
    the window (its width is doubled before the comparison); the one off
    screen on the left gets none. *)
Lemma runTest_alerts_witness :
  @runTest example_unit_tools example_alert_component [] = (Ok tt, [1001]).
Proof.
  rewrite (@runTest_alerts example_unit_tools example_alert_component (base_param (VStr "testMonitor"))
             (base_param (VStr "pix")) 1000 800 1200 200 (-1200) 0 [] eq_refl eq_refl eq_refl);
    [reflexivity| |]; intros p Hp; injection Hp as <-; reflexivity.
Defined.
